(** * HugeCTR inference backend for Triton: a shallow embedding of [src/hugectr.cc]

    The development follows the source file top-down:
    - machine integers ([size_t], [int64_t]) as [Z] with the wrap-around written out;
    - [CudaAllocator] and the class template [HugeCTRBuffer<T>];
    - [std::stoi], the JSON view of the model configuration, [ModelState]
      with [ValidateModelConfig] and [ParseModelConfig], and
      [TRITONBACKEND_ModelInitialize];
    - the constructor of [ModelInstanceState];
    - the request loop of [TRITONBACKEND_ModelInstanceExecute].

    The CUDA runtime, the HugeCTR scoring engine and the Triton host are
    collaborators whose code is not part of the backend.  What they answer is
    taken from a record of oracles ([External]) or from the fields of the
    request object the host hands in.  Wall-clock timestamps and the text of
    informational log lines are left out; a log line is kept where evaluating
    its argument can go wrong. *)

From Stdlib Require Import ZArith List String Ascii Bool Lia DecimalString.
Import ListNotations.
Local Open Scope Z_scope.

(* ================================================================== *)
(** ** Machine integers *)

(** [size_t] and [uint64_t] are 64-bit unsigned: arithmetic is modulo [2^64]. *)
Definition to_size_t (z : Z) : Z := z mod 2 ^ 64.

(** [static_cast<int64_t>] of a value, two's complement. *)
Definition to_int64 (z : Z) : Z := (z + 2 ^ 63) mod 2 ^ 64 - 2 ^ 63.

Definition INT_MIN : Z := - 2 ^ 31.
Definition INT_MAX : Z := 2 ^ 31 - 1.

(* ================================================================== *)
(** ** Abnormal termination *)

(** A C++ exception that nothing in the backend catches, or an operation
    whose behaviour the language leaves undefined. *)
Inductive abort : Type :=
| std_runtime_error (what : string)
| std_invalid_argument (what : string)
| std_out_of_range (what : string)
| undefined_behaviour (what : string).

(** [TRITONSERVER_Error*]: a code and a message; [nullptr] is success. *)
Inductive TRITONSERVER_Error_Code : Type :=
| TRITONSERVER_ERROR_UNKNOWN
| TRITONSERVER_ERROR_INTERNAL
| TRITONSERVER_ERROR_NOT_FOUND
| TRITONSERVER_ERROR_INVALID_ARG
| TRITONSERVER_ERROR_UNAVAILABLE
| TRITONSERVER_ERROR_UNSUPPORTED
| TRITONSERVER_ERROR_ALREADY_EXISTS.

Record TRITONSERVER_Error : Type := TRITONSERVER_ErrorNew {
  err_code : TRITONSERVER_Error_Code;
  err_msg : string
}.

(** The answer of a host call with an out-parameter. *)
Inductive result (A : Type) : Type :=
| OK (a : A)
| Err (e : TRITONSERVER_Error).
Arguments OK {A} a.
Arguments Err {A} e.

(* ================================================================== *)
(** ** Memory and the external collaborators *)

Inductive MEMORY_TYPE : Type := GPU | CPU | PIN.

(** One call of [CudaAllocator::allocate]: the size asked for, the memory
    class, and the address obtained ([None] when the CUDA call reports an
    error). *)
Record Acquisition : Type := {
  acq_size : Z;
  acq_type : MEMORY_TYPE;
  acq_addr : option positive
}.

(** Addresses are integers, [0] is [nullptr]; memory maps an address to a byte. *)
Definition pointer := Z.
Definition nullptr : pointer := 0.
Definition Memory := Z -> Z.

(** What the collaborators answer.
    - [cuda_alloc]: [cudaMalloc] / [cudaMallocHost], given the acquisitions
      made so far, the size and the memory class; a successful call returns a
      non-null address.
    - [hugectr_predict]: [HugeCTRModel::predict] on the four buffer
      addresses and the sample count; it may rewrite memory, and [None]
      stands for an exception raised inside the engine. *)
Record External : Type := {
  cuda_alloc : list Acquisition -> Z -> MEMORY_TYPE -> option positive;
  hugectr_predict : Memory -> pointer -> pointer -> pointer -> pointer -> Z -> option Memory
}.

(** The part of the process the buffer class acts on: the acquisitions made
    through [CudaAllocator], and what was written to [std::cerr]. *)
Record Runtime : Type := {
  acquisitions : list Acquisition;
  cerr : list string
}.

Definition log_cerr (msg : string) (rt : Runtime) : Runtime :=
  {| acquisitions := acquisitions rt; cerr := cerr rt ++ [msg] |}.

(** Element types the buffer template is instantiated at. *)
Inductive ctype : Type := c_float | c_unsigned_int | c_long_long | c_int.

Definition sizeof (T : ctype) : Z :=
  match T with
  | c_float => 4
  | c_unsigned_int => 4
  | c_long_long => 8
  | c_int => 4
  end.

(** [HugeCTRBuffer<T>]: the fields of the class, in declaration order
    (the stateless [allocator_] is left out). *)
Record HugeCTRBuffer (T : ctype) : Type := {
  reserved_buffers_ : list Z;
  total_num_elements_ : Z;
  ptr_ : pointer;
  total_size_in_bytes_ : Z;
  type : MEMORY_TYPE
}.
Arguments reserved_buffers_ {T} _.
Arguments total_num_elements_ {T} _.
Arguments ptr_ {T} _.
Arguments total_size_in_bytes_ {T} _.
Arguments type {T} _.

(** The size rounded up as in the loop of [allocate]:
    [if (size % 32 != 0) size += (32 - size % 32);] in [size_t]. *)
Definition round_up_32 (size : Z) : Z :=
  if negb (size mod 32 =? 0) then to_size_t (size + (32 - size mod 32)) else size.

(** The loop of [allocate] over [reserved_buffers_], [offset] starting at 0. *)
Definition sum_rounded (reserved : list Z) : Z :=
  fold_left (fun offset buffer => to_size_t (offset + round_up_32 buffer)) reserved 0.

(** The rounding of the specification: the next multiple of 32. *)
Definition ceil32 (n : Z) : Z := (n + 31) / 32 * 32.

Definition sum_ceil32 (reserved : list Z) : Z :=
  fold_right (fun r acc => ceil32 r + acc) 0 reserved.

Section Buffer.
Context (ext : External).

(** [CudaAllocator::allocate]: [CK_CUDA_THROW_] turns a CUDA error into a
    [std::runtime_error]. *)
Definition CudaAllocator_allocate (size : Z) (ty : MEMORY_TYPE) (rt : Runtime)
  : Runtime * (abort + pointer) :=
  let got := cuda_alloc ext (acquisitions rt) size ty in
  let rt' := {| acquisitions := acquisitions rt ++
                                [{| acq_size := size; acq_type := ty; acq_addr := got |}];
                cerr := cerr rt |} in
  match got with
  | Some p => (rt', inr (Z.pos p))
  | None => (rt', inl (std_runtime_error "Runtime error: cudaMalloc"))
  end.

(** [HugeCTRBuffer(MEMORY_TYPE m_type)]: [total_num_elements_] has no
    initialiser; [indeterminate] is the value it happens to hold. *)
Definition create (T : ctype) (indeterminate : Z) (m_type : MEMORY_TYPE) : HugeCTRBuffer T :=
  {| reserved_buffers_ := [];
     total_num_elements_ := indeterminate;
     ptr_ := nullptr;
     total_size_in_bytes_ := 0;
     type := m_type |}.

Definition allocated {T} (b : HugeCTRBuffer T) : bool :=
  negb (total_size_in_bytes_ b =? 0) && negb (ptr_ b =? nullptr).

(** [allocate()].  The result carries the buffer as the call leaves it, also
    when the acquisition throws. *)
Definition allocate {T} (b : HugeCTRBuffer T) (rt : Runtime)
  : Runtime * HugeCTRBuffer T * option abort :=
  let rt1 := if negb (ptr_ b =? nullptr)
             then log_cerr "WrongInput:Memory has already been allocated." rt
             else rt in
  let offset := sum_rounded (reserved_buffers_ b) in
  let b1 := {| reserved_buffers_ := [];
               total_num_elements_ := total_num_elements_ b;
               ptr_ := ptr_ b;
               total_size_in_bytes_ := offset;
               type := type b |} in
  if negb (total_size_in_bytes_ b1 =? 0) then
    match CudaAllocator_allocate (total_size_in_bytes_ b1) (type b1) rt1 with
    | (rt2, inr p) =>
        (rt2, {| reserved_buffers_ := reserved_buffers_ b1;
                 total_num_elements_ := total_num_elements_ b1;
                 ptr_ := p;
                 total_size_in_bytes_ := total_size_in_bytes_ b1;
                 type := type b1 |}, None)
    | (rt2, inl e) => (rt2, b1, Some e)
    end
  else (rt1, b1, None).

Definition get_buffer_size {T} (b : HugeCTRBuffer T) : Z := total_size_in_bytes_ b.

Definition get_ptr {T} (b : HugeCTRBuffer T) : pointer := ptr_ b.

Definition get_num_elements_from_dimensions (dimensions : list Z) : Z :=
  fold_left (fun elements dim => to_size_t (elements * dim)) dimensions 1.

(** [reserve(dimensions)]. *)
Definition reserve {T} (dimensions : list Z) (b : HugeCTRBuffer T) (rt : Runtime)
  : Runtime * HugeCTRBuffer T :=
  let rt1 := if allocated b then log_cerr "IllegalCall: Buffer is finalized." rt else rt in
  let num_elements := get_num_elements_from_dimensions dimensions in
  let size_in_bytes := to_size_t (num_elements * sizeof T) in
  (rt1, {| reserved_buffers_ := reserved_buffers_ b ++ [size_in_bytes];
           total_num_elements_ := to_size_t (total_num_elements_ b + num_elements);
           ptr_ := ptr_ b;
           total_size_in_bytes_ := total_size_in_bytes_ b;
           type := type b |}).

(** [~HugeCTRBuffer()]: [true] when the destructor releases the region. *)
Definition destructor_deallocates {T} (b : HugeCTRBuffer T) : bool := allocated b.

End Buffer.

(* ================================================================== *)
(** ** Sequencing code that may abort *)

Definition bind_abort {A B : Type} (c : abort + A) (k : A -> abort + B) : abort + B :=
  match c with
  | inl e => inl e
  | inr a => k a
  end.

Notation "'let!' x ':=' c 'in' k" := (bind_abort c (fun x => k))
  (at level 10, x name, c at level 100, k at level 200).

(* ================================================================== *)
(** ** [std::stoi] *)

Definition isspace (c : ascii) : bool :=
  let n := Z.of_nat (nat_of_ascii c) in
  (n =? 32) || ((9 <=? n) && (n <=? 13)).

Definition digit_of (c : ascii) : option Z :=
  let n := Z.of_nat (nat_of_ascii c) in
  if (48 <=? n) && (n <=? 57) then Some (n - 48) else None.

Fixpoint skip_spaces (s : string) : string :=
  match s with
  | String c rest => if isspace c then skip_spaces rest else s
  | EmptyString => s
  end.

(** The longest run of decimal digits at the front of [s]; [acc] is [None]
    until a digit has been read. *)
Fixpoint read_digits (s : string) (acc : option Z) : option Z :=
  match s with
  | String c rest =>
      match digit_of c with
      | Some d => read_digits rest (Some (10 * match acc with Some a => a | None => 0 end + d))
      | None => acc
      end
  | EmptyString => acc
  end.

(** [std::stoi(str)] with the default base 10: [strtol] skips white space,
    takes an optional sign and the longest run of digits and ignores what
    follows; no digit at all is [std::invalid_argument], a value outside
    [int] is [std::out_of_range]. *)
Definition stoi (str : string) : abort + Z :=
  let s := skip_spaces str in
  let '(negative, digits) :=
    match s with
    | String "-"%char rest => (true, rest)
    | String "+"%char rest => (false, rest)
    | _ => (false, s)
    end in
  match read_digits digits None with
  | None => inl (std_invalid_argument "stoi")
  | Some v =>
      let v := if negative then - v else v in
      if (v <? INT_MIN) || (INT_MAX <? v) then inl (std_out_of_range "stoi") else inr v
  end.

(* ================================================================== *)
(** ** The model configuration as the host serialises it *)

(** The JSON document behind [common::TritonJson::Value]. *)
#[warnings="-register-all"]
Inductive Json : Type :=
| JNull
| JBool (b : bool)
| JInt (z : Z)
| JString (s : string)
| JArray (items : list Json)
| JObject (members : list (string * Json)).

Fixpoint assoc (name : string) (members : list (string * Json)) : option Json :=
  match members with
  | [] => None
  | (k, v) :: rest => if String.eqb k name then Some v else assoc name rest
  end.

Definition json_error (msg : string) : TRITONSERVER_Error :=
  TRITONSERVER_ErrorNew TRITONSERVER_ERROR_INVALID_ARG msg.

(** [Value::Find(name, &value)]: [Some] when the object has the member. *)
Definition Find (v : Json) (name : string) : option Json :=
  match v with
  | JObject members => assoc name members
  | _ => None
  end.

Definition MemberAsString (v : Json) (name : string) : result string :=
  match Find v name with
  | Some (JString s) => OK s
  | Some _ => Err (json_error "attempt to access JSON non-string as string")
  | None => Err (json_error "attempt to access non-existing object member")
  end.

Definition MemberAsInt (v : Json) (name : string) : result Z :=
  match Find v name with
  | Some (JInt z) => OK z
  | Some _ => Err (json_error "attempt to access JSON non-signed-integer as int")
  | None => Err (json_error "attempt to access non-existing object member")
  end.

Definition MemberAsArray (v : Json) (name : string) : result (list Json) :=
  match Find v name with
  | Some (JArray items) => OK items
  | Some _ => Err (json_error "attempt to access JSON non-array as array")
  | None => Err (json_error "attempt to access non-existing object member")
  end.

Definition IndexAsObject (items : list Json) (i : nat) : result Json :=
  match nth_error items i with
  | Some (JObject members) => OK (JObject members)
  | Some _ => Err (json_error "attempt to access JSON non-object as object")
  | None => Err (json_error "attempt to access non-existing array index")
  end.

Definition IndexAsInt (item : Json) : result Z :=
  match item with
  | JInt z => OK z
  | _ => Err (json_error "attempt to access JSON non-signed-integer as int")
  end.

(** [backend::ParseShape(io, name, &shape)]. *)
Fixpoint shape_of_items (items : list Json) : result (list Z) :=
  match items with
  | [] => OK []
  | item :: rest =>
      match IndexAsInt item with
      | Err e => Err e
      | OK d => match shape_of_items rest with
                | Err e => Err e
                | OK ds => OK (d :: ds)
                end
      end
  end.

Definition ParseShape (io : Json) (name : string) : result (list Z) :=
  match MemberAsArray io name with
  | Err e => Err e
  | OK items => shape_of_items items
  end.

(* ================================================================== *)
(** ** [ModelState] *)

(** The fields of [ModelState] that the backend reads or writes.  The cache
    ratio is a [float]; it is carried as the text handed to [std::atof]. *)
Record ModelState : Type := {
  name_ : string;
  version_ : Z;
  max_batch_size_ : Z;
  slot_num_ : Z;
  dese_num_ : Z;
  cat_num_ : Z;
  embedding_size_ : Z;
  max_nnz_ : Z;
  cache_size_per : string;
  hugectr_config_ : string;
  model_config_ : Json;
  support_int64_key_ : bool;
  support_gpu_cache_ : bool;
  supports_batching_initialized_ : bool;
  supports_batching_ : bool;
  EmbeddingTable_int32 : pointer;
  EmbeddingTable_int64 : pointer
}.

(** The constructor: the default member initialisers of the class and the
    initialiser list. *)
Definition ModelState_new (name : string) (version : Z) (model_config : Json)
    (table_int32 table_int64 : pointer) : ModelState :=
  {| name_ := name;
     version_ := version;
     max_batch_size_ := 64;
     slot_num_ := 10;
     dese_num_ := 50;
     cat_num_ := 50;
     embedding_size_ := 64;
     max_nnz_ := 3;
     cache_size_per := "0.5";
     hugectr_config_ := "";
     model_config_ := model_config;
     support_int64_key_ := false;
     support_gpu_cache_ := false;
     supports_batching_initialized_ := false;
     supports_batching_ := false;
     EmbeddingTable_int32 := table_int32;
     EmbeddingTable_int64 := table_int64 |}.

Definition BatchSize (ms : ModelState) : Z := max_batch_size_ ms.
Definition SlotNum (ms : ModelState) : Z := slot_num_ ms.
Definition MaxNNZ (ms : ModelState) : Z := max_nnz_ ms.
Definition DeseNum (ms : ModelState) : Z := dese_num_ ms.
Definition CatNum (ms : ModelState) : Z := cat_num_ ms.
Definition EmbeddingSize (ms : ModelState) : Z := embedding_size_ ms.
Definition SupportLongEmbeddingKey (ms : ModelState) : bool := support_int64_key_ ms.

(** [RETURN_ERROR_IF_FALSE(P, CODE, MSG)] *)
Definition RETURN_ERROR_IF_FALSE (p : bool) (code : TRITONSERVER_Error_Code) (msg : string)
  : option TRITONSERVER_Error :=
  if p then None else Some (TRITONSERVER_ErrorNew code msg).

(** [std::to_string] of an integer: its decimal digits, after a minus sign
    when it is negative. *)
Definition to_string (z : Z) : string := NilZero.string_of_int (Z.to_int z).

(** [backend::ShapeToString] of the Triton backend library: the extents in
    decimal, separated by commas, between square brackets. *)
Definition ShapeToString (dims : list Z) : string :=
  String.append "[" (String.append (String.concat "," (map to_string dims)) "]").

(** [ModelState::ValidateModelConfig()]; [None] is [nullptr].  Serialising
    the document for the log ([PrettyWrite]) is taken to succeed. *)
Definition ValidateModelConfig (ms : ModelState) : option TRITONSERVER_Error :=
  match MemberAsArray (model_config_ ms) "input" with
  | Err e => Some e
  | OK inputs =>
  match MemberAsArray (model_config_ ms) "output" with
  | Err e => Some e
  | OK outputs =>
  match RETURN_ERROR_IF_FALSE (List.length inputs =? 3)%nat
          TRITONSERVER_ERROR_INVALID_ARG
          (String.append "expected 1 input, got "
             (to_string (Z.of_nat (List.length inputs)))) with
  | Some e => Some e
  | None =>
  match RETURN_ERROR_IF_FALSE (List.length outputs =? 1)%nat
          TRITONSERVER_ERROR_INVALID_ARG
          (String.append "expected 1 output, got "
             (to_string (Z.of_nat (List.length outputs)))) with
  | Some e => Some e
  | None =>
  match IndexAsObject inputs 0 with
  | Err e => Some e
  | OK input =>
  match IndexAsObject outputs 0 with
  | Err e => Some e
  | OK output =>
  match MemberAsString input "data_type" with
  | Err e => Some e
  | OK input_dtype =>
  match MemberAsString output "data_type" with
  | Err e => Some e
  | OK output_dtype =>
  match RETURN_ERROR_IF_FALSE (String.eqb input_dtype output_dtype)
          TRITONSERVER_ERROR_INVALID_ARG
          (String.append "expected input and output datatype to match, got "
             (String.append input_dtype (String.append " and " output_dtype))) with
  | Some e => Some e
  | None =>
  match ParseShape input "dims" with
  | Err e => Some e
  | OK input_shape =>
  match ParseShape output "dims" with
  | Err e => Some e
  | OK output_shape =>
      RETURN_ERROR_IF_FALSE
        (if list_eq_dec Z.eq_dec input_shape output_shape then true else false)
        TRITONSERVER_ERROR_INVALID_ARG
        (String.append "expected input and output shape to match, got "
           (String.append (ShapeToString input_shape)
              (String.append " and " (ShapeToString output_shape))))
  end end end end end end end end end end end.

(** The text a parameter's [MemberAsString("string_value", &str)] leaves in
    [str]: the call's error is dropped, and [str] stays empty when it fails. *)
Definition string_value (v : Json) : string :=
  match MemberAsString v "string_value" with
  | OK s => s
  | Err _ => ""
  end.

(** One of the five numeric blocks of [ParseModelConfig]:
    [if (parameters.Find(key, &v)) { ...; field = std::stoi(str); }]. *)
Definition stoi_parameter (parameters : Json) (key : string) (field : Z) : abort + Z :=
  match Find parameters key with
  | Some v => stoi (string_value v)
  | None => inr field
  end.

(** One of the two boolean blocks: [if (str == "true") field = true;]. *)
Definition true_parameter (parameters : Json) (key : string) (field : bool) : bool :=
  match Find parameters key with
  | Some v => if String.eqb (string_value v) "true" then true else field
  | None => field
  end.

Definition text_parameter (parameters : Json) (key : string) (field : string) : string :=
  match Find parameters key with
  | Some v => string_value v
  | None => field
  end.

(** [ModelState::ParseModelConfig()].  Serialising the parsed document for
    the log ([PrettyWrite], under [RETURN_IF_ERROR]) is taken to succeed;
    the only other [return] of the body is [return nullptr]. *)
Definition ParseModelConfig (ms : ModelState)
  : abort + (option TRITONSERVER_Error * ModelState) :=
  let! ms1 :=
    match Find (model_config_ ms) "parameters" with
    | Some parameters =>
        let! slot_num := stoi_parameter parameters "slots" (slot_num_ ms) in
        let! dese_num := stoi_parameter parameters "des_feature_num" (dese_num_ ms) in
        let! cat_num := stoi_parameter parameters "cat_feature_num" (cat_num_ ms) in
        let! embedding_size :=
          stoi_parameter parameters "embedding_vector_size" (embedding_size_ ms) in
        let! max_nnz := stoi_parameter parameters "max_nnz" (max_nnz_ ms) in
        inr {| name_ := name_ ms;
               version_ := version_ ms;
               max_batch_size_ := max_batch_size_ ms;
               slot_num_ := slot_num;
               dese_num_ := dese_num;
               cat_num_ := cat_num;
               embedding_size_ := embedding_size;
               max_nnz_ := max_nnz;
               cache_size_per := text_parameter parameters "gpucacheper" (cache_size_per ms);
               hugectr_config_ := text_parameter parameters "config" (hugectr_config_ ms);
               model_config_ := model_config_ ms;
               support_int64_key_ :=
                 true_parameter parameters "embeddingkey_long_type" (support_int64_key_ ms);
               support_gpu_cache_ :=
                 true_parameter parameters "gpucache" (support_gpu_cache_ ms);
               supports_batching_initialized_ := supports_batching_initialized_ ms;
               supports_batching_ := supports_batching_ ms;
               EmbeddingTable_int32 := EmbeddingTable_int32 ms;
               EmbeddingTable_int64 := EmbeddingTable_int64 ms |}
    | None => inr ms
    end in
  let max_batch_size :=
    match MemberAsInt (model_config_ ms1) "max_batch_size" with
    | OK z => z
    | Err _ => max_batch_size_ ms1
    end in
  inr (None,
       {| name_ := name_ ms1;
          version_ := version_ ms1;
          max_batch_size_ := max_batch_size;
          slot_num_ := slot_num_ ms1;
          dese_num_ := dese_num_ ms1;
          cat_num_ := cat_num_ ms1;
          embedding_size_ := embedding_size_ ms1;
          max_nnz_ := max_nnz_ ms1;
          cache_size_per := cache_size_per ms1;
          hugectr_config_ := hugectr_config_ ms1;
          model_config_ := model_config_ ms1;
          support_int64_key_ := support_int64_key_ ms1;
          support_gpu_cache_ := support_gpu_cache_ ms1;
          supports_batching_initialized_ := supports_batching_initialized_ ms1;
          supports_batching_ := supports_batching_ ms1;
          EmbeddingTable_int32 := EmbeddingTable_int32 ms1;
          EmbeddingTable_int64 := EmbeddingTable_int64 ms1 |}).

(* ================================================================== *)
(** ** Model load: [TRITONBACKEND_ModelInitialize] *)

(** What the host answers about a model that is being loaded. *)
Record TRITONBACKEND_Model : Type := {
  TRITONBACKEND_ModelName : result string;
  TRITONBACKEND_ModelVersion : result Z;
  TRITONBACKEND_ModelRepository : result string;
  (** the backend of the model, its configuration message and its state:
      the two parameter-server handles of [ModelBackend] *)
  TRITONBACKEND_BackendState : result (pointer * pointer);
  (** [TRITONBACKEND_ModelConfig], serialised to JSON and parsed *)
  TRITONBACKEND_ModelConfig : result Json;
  TRITONBACKEND_ModelServer : result unit;
  TRITONBACKEND_ModelSetState : option TRITONSERVER_Error
}.

(** [ModelState::Create]. *)
Definition ModelState_Create (triton_model : TRITONBACKEND_Model)
    (table_int32 table_int64 : pointer) : result ModelState :=
  match TRITONBACKEND_ModelConfig triton_model with
  | Err e => Err e
  | OK model_config =>
  match TRITONBACKEND_ModelName triton_model with
  | Err e => Err e
  | OK model_name =>
  match TRITONBACKEND_ModelVersion triton_model with
  | Err e => Err e
  | OK model_version =>
  match TRITONBACKEND_ModelServer triton_model with
  | Err e => Err e
  | OK _ => OK (ModelState_new model_name model_version model_config table_int32 table_int64)
  end end end end.

(** [TRITONBACKEND_ModelInitialize(model)]: [OK ms] is [return nullptr] with
    [ms] attached to the model, [Err e] is an error returned to the host,
    which then does not load the model.  The value [ModelState::Create]
    returns is not looked at; after a failed [Create] the pointer
    [model_state] is uninitialised.  The call of [ValidateModelConfig] is
    commented out in the source and has no counterpart here. *)
Definition TRITONBACKEND_ModelInitialize (model : TRITONBACKEND_Model)
  : abort + result ModelState :=
  match TRITONBACKEND_ModelName model with
  | Err e => inr (Err e)
  | OK _ =>
  match TRITONBACKEND_ModelVersion model with
  | Err e => inr (Err e)
  | OK _ =>
  match TRITONBACKEND_ModelRepository model with
  | Err e => inr (Err e)
  | OK _ =>
  match TRITONBACKEND_BackendState model with
  | Err e => inr (Err e)
  | OK (table_int32, table_int64) =>
  let created := ModelState_Create model table_int32 table_int64 in
  match TRITONBACKEND_ModelSetState model with
  | Some e => inr (Err e)
  | None =>
  match created with
  | Err _ => inl (undefined_behaviour "model_state is used uninitialised")
  | OK model_state =>
      let! parsed := ParseModelConfig model_state in
      match parsed with
      | (Some e, _) => inr (Err e)
      | (None, model_state') => inr (OK model_state')
      end
  end end end end end end.

(* ================================================================== *)
(** ** [ModelInstanceState] *)

(** The handle [embedding_interface::Create_Embedding_Cache] returns and the
    handle [HugeCTRModel::load_model] returns, as the arguments they were
    created from.  Both calls belong to the scoring subsystem and are taken
    to return. *)
Record embedding_interface : Type := {
  cache_parameter_server : pointer;
  cache_long_key : bool;
  cache_device_id : Z;
  cache_gpu_cache : bool;
  cache_size_ratio : string;
  cache_config : string;
  cache_instance_name : string
}.

Record HugeCTRModel : Type := {
  model_json_config : string;
  model_device_id : Z;
  model_embedding_cache : embedding_interface
}.

Inductive TRITONSERVER_InstanceGroupKind : Type :=
| TRITONSERVER_INSTANCEGROUPKIND_AUTO
| TRITONSERVER_INSTANCEGROUPKIND_CPU
| TRITONSERVER_INSTANCEGROUPKIND_GPU
| TRITONSERVER_INSTANCEGROUPKIND_MODEL.

(** The two categorical buffers are [shared_ptr]s that the constructor
    leaves null unless it creates the buffer: [None] is the null pointer. *)
Record ModelInstanceState : Type := {
  model_state_ : ModelState;
  instance_name_ : string;
  kind_ : TRITONSERVER_InstanceGroupKind;
  device_id_ : Z;
  dense_value_buf : HugeCTRBuffer c_float;
  cat_column_index_buf_int32 : option (HugeCTRBuffer c_unsigned_int);
  cat_column_index_buf_int64 : option (HugeCTRBuffer c_long_long);
  row_ptr_buf : HugeCTRBuffer c_int;
  prediction_buf : HugeCTRBuffer c_float;
  Embedding_cache : embedding_interface;
  hugectrmodel_ : HugeCTRModel
}.

Definition StateForModel (inst : ModelInstanceState) : ModelState := model_state_ inst.

Section Instance.
Context (ext : External).

(** [buf = HugeCTRBuffer<T>::create(m_type); buf->reserve(dims); buf->allocate();] *)
Definition create_reserve_allocate (T : ctype) (indeterminate : Z) (m_type : MEMORY_TYPE)
    (dims : list Z) (rt : Runtime) : Runtime * (abort + HugeCTRBuffer T) :=
  let '(rt1, b1) := reserve dims (create T indeterminate m_type) rt in
  match allocate ext b1 rt1 with
  | (rt2, b2, None) => (rt2, inr b2)
  | (rt2, _, Some e) => (rt2, inl e)
  end.

Definition Create_EmbeddingCache (model_state : ModelState) (device_id : Z) (name : string)
  : embedding_interface :=
  {| cache_parameter_server :=
       if SupportLongEmbeddingKey model_state
       then EmbeddingTable_int64 model_state
       else EmbeddingTable_int32 model_state;
     cache_long_key := SupportLongEmbeddingKey model_state;
     cache_device_id := device_id;
     cache_gpu_cache := support_gpu_cache_ model_state;
     cache_size_ratio := cache_size_per model_state;
     cache_config := hugectr_config_ model_state;
     cache_instance_name := name |}.

Definition LoadHugeCTRModel (model_state : ModelState) (device_id : Z)
    (cache : embedding_interface) : HugeCTRModel :=
  {| model_json_config := hugectr_config_ model_state;
     model_device_id := device_id;
     model_embedding_cache := cache |}.

(** The constructor of [ModelInstanceState].  A failing [cudaSetDevice]
    is only written to [std::cerr] by the source and is left out; an
    acquisition that throws ends the construction. *)
Definition ModelInstanceState_new (model_state : ModelState)
    (kind : TRITONSERVER_InstanceGroupKind) (device_id : Z) (indeterminate : Z)
    (rt : Runtime) : Runtime * (abort + ModelInstanceState) :=
  let name := name_ model_state in
  let dense_value_dims := [to_size_t (BatchSize model_state * DeseNum model_state)] in
  match create_reserve_allocate c_float indeterminate GPU dense_value_dims rt with
  | (rt1, inl e) => (rt1, inl e)
  | (rt1, inr dense) =>
  let cat_column_index_dims := [to_size_t (BatchSize model_state * CatNum model_state)] in
  let cat :=
    if SupportLongEmbeddingKey model_state then
      match create_reserve_allocate c_long_long indeterminate PIN cat_column_index_dims rt1 with
      | (rt2, inl e) => (rt2, inl e)
      | (rt2, inr b) => (rt2, inr (None, Some b))
      end
    else
      match create_reserve_allocate c_unsigned_int indeterminate PIN
              cat_column_index_dims rt1 with
      | (rt2, inl e) => (rt2, inl e)
      | (rt2, inr b) => (rt2, inr (Some b, None))
      end in
  match cat with
  | (rt2, inl e) => (rt2, inl e)
  | (rt2, inr (cat32, cat64)) =>
  let row_ptrs_dims := [to_size_t (BatchSize model_state * SlotNum model_state + 1)] in
  match create_reserve_allocate c_int indeterminate GPU row_ptrs_dims rt2 with
  | (rt3, inl e) => (rt3, inl e)
  | (rt3, inr row) =>
  let prediction_dims := [to_size_t (BatchSize model_state)] in
  match create_reserve_allocate c_float indeterminate GPU prediction_dims rt3 with
  | (rt4, inl e) => (rt4, inl e)
  | (rt4, inr prediction) =>
      let cache := Create_EmbeddingCache model_state device_id name in
      (rt4, inr {| model_state_ := model_state;
                   instance_name_ := name;
                   kind_ := kind;
                   device_id_ := device_id;
                   dense_value_buf := dense;
                   cat_column_index_buf_int32 := cat32;
                   cat_column_index_buf_int64 := cat64;
                   row_ptr_buf := row;
                   prediction_buf := prediction;
                   Embedding_cache := cache;
                   hugectrmodel_ := LoadHugeCTRModel model_state device_id cache |})
  end end end end.

(** Whether a categorical buffer is there and reports itself allocated. *)
Definition buffer_allocated {T} (b : option (HugeCTRBuffer T)) : bool :=
  match b with
  | Some b => allocated b
  | None => false
  end.

Definition buffer_created {T} (b : option (HugeCTRBuffer T)) : bool :=
  match b with
  | Some _ => true
  | None => false
  end.

End Instance.

(* ================================================================== *)
(** ** Device memory and [cudaMemcpy] *)

Definition store_bytes (mem : Memory) (dst : pointer) (bytes : list Z) : Memory :=
  fun a =>
    if (dst <=? a) && (a <? dst + Z.of_nat (List.length bytes))
    then nth (Z.to_nat (a - dst)) bytes 0
    else mem a.

Definition load_bytes (mem : Memory) (src : pointer) (count : Z) : list Z :=
  map (fun i => mem (src + Z.of_nat i)) (seq 0 (Z.to_nat count)).

(** [CK_CUDA_THROW_(cudaMemcpy(dst, src, count, cudaMemcpyHostTo...))] from a
    buffer the host supplied ([None] is a null source).  A copy of no bytes
    succeeds; a null address is [cudaErrorInvalidValue], which the macro
    throws; reading more bytes than the host buffer holds is outside what
    the language defines. *)
Definition cudaMemcpy_from_host (mem : Memory) (dst : pointer) (src : option (list Z))
    (count : Z) : abort + Memory :=
  if count =? 0 then inr mem
  else
    match src with
    | None => inl (std_runtime_error "Runtime error: invalid argument")
    | Some bytes =>
        if dst =? nullptr then inl (std_runtime_error "Runtime error: invalid argument")
        else if Z.of_nat (List.length bytes) <? count
             then inl (undefined_behaviour "cudaMemcpy reads past the host buffer")
             else inr (store_bytes mem dst (firstn (Z.to_nat count) bytes))
    end.

(** [CK_CUDA_THROW_(cudaMemcpy(output_buffer, src, count, cudaMemcpyDeviceToHost))]
    into an output buffer of [capacity] bytes: the bytes that arrive. *)
Definition cudaMemcpy_to_host (mem : Memory) (capacity : Z) (src : pointer) (count : Z)
  : abort + list Z :=
  if count =? 0 then inr []
  else if src =? nullptr then inl (std_runtime_error "Runtime error: invalid argument")
  else if capacity <? count
       then inl (undefined_behaviour "cudaMemcpy writes past the output buffer")
       else inr (load_bytes mem src count).

(* ================================================================== *)
(** ** Requests and responses as the host presents them *)

Inductive TRITONSERVER_DataType : Type :=
| TRITONSERVER_TYPE_INVALID
| TRITONSERVER_TYPE_UINT32
| TRITONSERVER_TYPE_INT32
| TRITONSERVER_TYPE_INT64
| TRITONSERVER_TYPE_FP32.

(** The out-parameters of [TRITONBACKEND_InputProperties]. *)
Record InputProperties : Type := {
  datatype : TRITONSERVER_DataType;
  shape : list Z;
  byte_size : Z;
  buffer_count : Z
}.

(** The out-parameters of [TRITONBACKEND_InputBuffer]: the host buffer
    ([None] is a null address, otherwise the bytes it holds) and its size. *)
Record InputBuffer : Type := {
  buffer : option (list Z);
  buffer_byte_size : Z
}.

Record TRITONBACKEND_Input : Type := {
  TRITONBACKEND_InputProperties : result InputProperties;
  TRITONBACKEND_InputBuffer : Z -> result InputBuffer
}.

(** A request, as the answers of the host to the calls the backend makes on
    it and on the response created for it. *)
Record TRITONBACKEND_Request : Type := {
  TRITONBACKEND_RequestId : result string;
  TRITONBACKEND_RequestCorrelationId : result Z;
  TRITONBACKEND_RequestInputCount : result Z;
  TRITONBACKEND_RequestOutputCount : result Z;
  TRITONBACKEND_RequestInputName : Z -> result string;
  TRITONBACKEND_RequestInput : string -> result TRITONBACKEND_Input;
  TRITONBACKEND_RequestOutputName : Z -> result string;
  TRITONBACKEND_ResponseNew : option TRITONSERVER_Error;
  TRITONBACKEND_ResponseOutput :
    string -> TRITONSERVER_DataType -> list Z -> option TRITONSERVER_Error;
  TRITONBACKEND_OutputBuffer : Z -> option TRITONSERVER_Error
}.

(** An output tensor of a response: what [TRITONBACKEND_ResponseOutput] was
    given, the byte size asked of [TRITONBACKEND_OutputBuffer], and the
    bytes the backend copied to the start of that buffer. *)
Record TRITONBACKEND_Output : Type := {
  output_name : string;
  output_datatype : TRITONSERVER_DataType;
  output_shape : list Z;
  output_buffer_byte_size : Z;
  output_data : list Z
}.

Inductive parameter : Type :=
| StringParameter (name value : string)
| IntParameter (name : string) (value : Z)
| BoolParameter (name : string) (value : bool).

Record TRITONBACKEND_Response : Type := {
  response_outputs : list TRITONBACKEND_Output;
  response_parameters : list parameter
}.

Definition empty_response : TRITONBACKEND_Response :=
  {| response_outputs := []; response_parameters := [] |}.

(** One call of [HugeCTRModel::predict]. *)
Record predict_call : Type := {
  predict_dense : pointer;
  predict_cat : pointer;
  predict_row : pointer;
  predict_output : pointer;
  predict_numofsamples : Z
}.

(** What one turn of the request loop leaves behind: the one final response
    sent for the request ([TRITONBACKEND_ResponseSend] with
    [TRITONSERVER_RESPONSE_COMPLETE_FINAL]) with its error, [None] being
    success; the calls of [predict]; device memory; what the turn added to
    [total_batch_size]. *)
Record request_effect : Type := {
  sent_response : TRITONBACKEND_Response;
  sent_error : option TRITONSERVER_Error;
  predict_calls : list predict_call;
  memory_after : Memory;
  batch_size_added : Z
}.

(** [responses[r]] during a turn of the loop: the response under
    construction, or null after [GUARDED_RESPOND_IF_ERROR] has sent it with
    an error. *)
Inductive response_slot : Type :=
| pending (response : TRITONBACKEND_Response)
| error_sent (response : TRITONBACKEND_Response) (e : TRITONSERVER_Error).

Definition is_null (slot : response_slot) : bool :=
  match slot with
  | pending _ => false
  | error_sent _ _ => true
  end.

(** [GUARDED_RESPOND_IF_ERROR(responses, r, X)] for a call [X] with an
    out-parameter holding [out]: [X] is not evaluated when [responses[r]] is
    null; when [X] fails the response is sent with the error and
    [responses[r]] becomes null; the out-parameter keeps [out] unless [X]
    succeeds. *)
Definition GUARDED_RESPOND_IF_ERROR {A : Type} (slot : response_slot) (X : result A) (out : A)
  : response_slot * A :=
  match slot with
  | pending response =>
      match X with
      | OK a => (slot, a)
      | Err e => (error_sent response e, out)
      end
  | error_sent _ _ => (slot, out)
  end.

(** A run of guarded calls that ends in
    [if (responses[r] == nullptr) continue;]: the first error is the one
    sent and the calls after it are skipped. *)
Definition bind_result {A B : Type} (c : result A) (k : A -> result B) : result B :=
  match c with
  | OK a => k a
  | Err e => Err e
  end.

Notation "'guarded' x ':=' c 'in' k" := (bind_result c (fun x => k))
  (at level 10, x name, c at level 100, k at level 200).

(* ================================================================== *)
(** ** One turn of the request loop of [TRITONBACKEND_ModelInstanceExecute] *)

Record request_counts : Type := {
  request_id : string;
  correlation_id : Z;
  input_count : Z;
  requested_output_count : Z
}.

Record request_inputs : Type := {
  des_input : TRITONBACKEND_Input;
  catcol_input : TRITONBACKEND_Input;
  row_input : TRITONBACKEND_Input;
  (** [nullptr] ([None]) unless an output is requested *)
  requested_output_name : option string
}.

(** The state the loop over the input buffers carries from one buffer to the
    next. *)
Record staging : Type := {
  slot : response_slot;
  mem : Memory;
  calls : list predict_call;
  cat_byte_size : Z;
  row_byte_size : Z;
  copied_out : list Z
}.

Definition overflow_error : TRITONSERVER_Error :=
  TRITONSERVER_ErrorNew TRITONSERVER_ERROR_UNSUPPORTED
    "The number of Input sample greater than max batch size".

Definition status (e : option TRITONSERVER_Error) : result unit :=
  match e with
  | None => OK tt
  | Some e => Err e
  end.

Definition add_output (response : TRITONBACKEND_Response) (o : TRITONBACKEND_Output)
  : TRITONBACKEND_Response :=
  {| response_outputs := response_outputs response ++ [o];
     response_parameters := response_parameters response |}.

Definition set_output_data (response : TRITONBACKEND_Response) (size : Z) (data : list Z)
  : TRITONBACKEND_Response :=
  {| response_outputs :=
       map (fun o => {| output_name := output_name o;
                        output_datatype := output_datatype o;
                        output_shape := output_shape o;
                        output_buffer_byte_size := size;
                        output_data := data |})
           (response_outputs response);
     response_parameters := response_parameters response |}.

Definition with_response (f : TRITONBACKEND_Response -> TRITONBACKEND_Response)
    (s : response_slot) : response_slot :=
  match s with
  | pending response => pending (f response)
  | error_sent response e => error_sent response e
  end.

(** The three parameters attached before the response is sent. *)
Definition example_parameters : list parameter :=
  [StringParameter "param0" "an example string parameter";
   IntParameter "param1" 42;
   BoolParameter "param2" false].

Section Execute.
Context (ext : External).

(** Lines 1217-1248: id, correlation id and the two counts. *)
Definition read_counts (request : TRITONBACKEND_Request) : result request_counts :=
  guarded id := TRITONBACKEND_RequestId request in
  guarded correlation := TRITONBACKEND_RequestCorrelationId request in
  guarded inputs := TRITONBACKEND_RequestInputCount request in
  guarded outputs := TRITONBACKEND_RequestOutputCount request in
  OK {| request_id := id;
        correlation_id := correlation;
        input_count := inputs;
        requested_output_count := outputs |}.

(** Lines 1258-1307: the three inputs by name, and the name of the first
    requested output when there is one. *)
Definition read_inputs (request : TRITONBACKEND_Request) (requested_output_count : Z)
  : result request_inputs :=
  guarded des_input_name := TRITONBACKEND_RequestInputName request 0 in
  guarded catcol_input_name := TRITONBACKEND_RequestInputName request 1 in
  guarded row_input_name := TRITONBACKEND_RequestInputName request 2 in
  guarded des := TRITONBACKEND_RequestInput request des_input_name in
  guarded catcol := TRITONBACKEND_RequestInput request catcol_input_name in
  guarded row := TRITONBACKEND_RequestInput request row_input_name in
  guarded name :=
    (if 0 <? requested_output_count
     then bind_result (TRITONBACKEND_RequestOutputName request 0) (fun n => OK (Some n))
     else OK None) in
  OK {| des_input := des;
        catcol_input := catcol;
        row_input := row;
        requested_output_name := name |}.

(** Lines 1323-1364: the properties of the categorical, the row and the
    dense input, each followed by a log line that prints them.  The
    variables are uninitialised when the call fails, and the log line
    reads them all the same. *)
Definition read_properties (inputs : request_inputs)
  : abort + (InputProperties * InputProperties * InputProperties) :=
  let uninitialised :=
    undefined_behaviour "LOG_MESSAGE reads uninitialised input properties" in
  match TRITONBACKEND_InputProperties (catcol_input inputs) with
  | Err _ => inl uninitialised
  | OK cat =>
  match TRITONBACKEND_InputProperties (row_input inputs) with
  | Err _ => inl uninitialised
  | OK row =>
  match TRITONBACKEND_InputProperties (des_input inputs) with
  | Err _ => inl uninitialised
  | OK des => inr (cat, row, des)
  end end end.

(** Lines 1377-1379:
    [std::string("\trequested_output ") + requested_output_name], where
    the right operand is a [const char*]. *)
Definition log_requested_output (requested_output_name : option string) : abort + unit :=
  match requested_output_name with
  | Some _ => inr tt
  | None => inl (undefined_behaviour "std::string + (const char*)nullptr")
  end.

Definition cat_ptr (inst : ModelInstanceState) : abort + pointer :=
  if SupportLongEmbeddingKey (StateForModel inst) then
    match cat_column_index_buf_int64 inst with
    | Some b => inr (get_ptr b)
    | None => inl (undefined_behaviour "null shared_ptr dereferenced")
    end
  else
    match cat_column_index_buf_int32 inst with
    | Some b => inr (get_ptr b)
    | None => inl (undefined_behaviour "null shared_ptr dereferenced")
    end.

(** [ModelInstanceState::ProcessRequest(numofsamples)]. *)
Definition ProcessRequest (inst : ModelInstanceState) (numofsamples : Z) (m : Memory)
  : abort + (Memory * predict_call) :=
  let! cat := cat_ptr inst in
  let call := {| predict_dense := get_ptr (dense_value_buf inst);
                 predict_cat := cat;
                 predict_row := get_ptr (row_ptr_buf inst);
                 predict_output := get_ptr (prediction_buf inst);
                 predict_numofsamples := numofsamples |} in
  match hugectr_predict ext m (predict_dense call) (predict_cat call) (predict_row call)
          (predict_output call) numofsamples with
  | Some m' => inr (m', call)
  | None => inl (std_runtime_error "HugeCTRModel::predict")
  end.

(** Lines 1460-1509, the body of the loop over the input buffers, for
    buffer [b]. *)
Definition stage_and_predict (inst : ModelInstanceState) (inputs : request_inputs)
    (des_byte_size numofsample : Z) (st : staging) (b : Z) : abort + staging :=
  let '(slot1, des_buffer) :=
    GUARDED_RESPOND_IF_ERROR (slot st)
      (TRITONBACKEND_InputBuffer (des_input inputs) b)
      {| buffer := None; buffer_byte_size := des_byte_size |} in
  let! mem1 := cudaMemcpy_from_host (mem st) (get_ptr (dense_value_buf inst))
                 (buffer des_buffer) des_byte_size in
  let '(slot2, cat_buffer) :=
    GUARDED_RESPOND_IF_ERROR slot1
      (TRITONBACKEND_InputBuffer (catcol_input inputs) b)
      {| buffer := None; buffer_byte_size := cat_byte_size st |} in
  let! cat := cat_ptr inst in
  let! mem2 := cudaMemcpy_from_host mem1 cat (buffer cat_buffer)
                 (buffer_byte_size cat_buffer) in
  let '(slot3, row_buffer) :=
    GUARDED_RESPOND_IF_ERROR slot2
      (TRITONBACKEND_InputBuffer (row_input inputs) b)
      {| buffer := None; buffer_byte_size := row_byte_size st |} in
  let! mem3 := cudaMemcpy_from_host mem2 (get_ptr (row_ptr_buf inst)) (buffer row_buffer)
                 (buffer_byte_size row_buffer) in
  let! predicted := ProcessRequest inst numofsample mem3 in
  let '(mem4, call) := predicted in
  let! data := cudaMemcpy_to_host mem4 (get_buffer_size (dense_value_buf inst))
                 (get_ptr (prediction_buf inst))
                 (to_size_t (numofsample * sizeof c_float)) in
  inr {| slot := slot3;
         mem := mem4;
         calls := calls st ++ [call];
         cat_byte_size := buffer_byte_size cat_buffer;
         row_byte_size := buffer_byte_size row_buffer;
         copied_out := data |}.

(** [for (uint32_t b = 0; b < input_buffer_count; ++b)] *)
Fixpoint for_each_buffer (body : staging -> Z -> abort + staging) (bs : list Z)
    (st : staging) : abort + staging :=
  match bs with
  | [] => inr st
  | b :: rest => let! st' := body st b in for_each_buffer body rest st'
  end.

Definition buffer_indices (input_buffer_count : Z) : list Z :=
  map Z.of_nat (seq 0 (Z.to_nat input_buffer_count)).

(** [numofdes] of line 1409. *)
Definition numofdes (des_byte_size : Z) : Z := to_int64 (des_byte_size / sizeof c_float).

(** [numofsample] of line 1410; the division truncates, and dividing by
    zero is undefined. *)
Definition numofsample (ms : ModelState) (des_byte_size : Z) : abort + Z :=
  if DeseNum ms =? 0 then inl (undefined_behaviour "integer division by zero")
  else inr (Z.quot (numofdes des_byte_size) (DeseNum ms)).

(** Lines 1405-1519: the block under [if (requested_output_count > 0)].
    The slot that comes back is null when an error response was sent. *)
Definition produce_output (inst : ModelInstanceState) (request : TRITONBACKEND_Request)
    (inputs : request_inputs) (name : string) (cat row des : InputProperties)
    (m : Memory) : abort + staging :=
  let ms := StateForModel inst in
  let des_byte_size := to_size_t (byte_size des) in
  let! n := numofsample ms des_byte_size in
  let start := {| slot := pending empty_response;
                  mem := m;
                  calls := [];
                  cat_byte_size := to_size_t (byte_size cat);
                  row_byte_size := to_size_t (byte_size row);
                  copied_out := [] |} in
  let slot1 :=
    if BatchSize ms <? n
    then fst (GUARDED_RESPOND_IF_ERROR (slot start) (Err overflow_error) tt)
    else slot start in
  let slot2 :=
    fst (GUARDED_RESPOND_IF_ERROR slot1
           (status (TRITONBACKEND_ResponseOutput request name (datatype des) [n])) tt) in
  let slot2 :=
    with_response (fun r => add_output r {| output_name := name;
                                            output_datatype := datatype des;
                                            output_shape := [n];
                                            output_buffer_byte_size := 0;
                                            output_data := [] |}) slot2 in
  if is_null slot2 then
    inr {| slot := slot2; mem := m; calls := []; cat_byte_size := cat_byte_size start;
           row_byte_size := row_byte_size start; copied_out := [] |}
  else
  let size := get_buffer_size (dense_value_buf inst) in
  let slot3 :=
    fst (GUARDED_RESPOND_IF_ERROR slot2
           (status (TRITONBACKEND_OutputBuffer request size)) tt) in
  if is_null slot3 then
    inr {| slot := slot3; mem := m; calls := []; cat_byte_size := cat_byte_size start;
           row_byte_size := row_byte_size start; copied_out := [] |}
  else
  let! st := for_each_buffer (stage_and_predict inst inputs des_byte_size n)
               (buffer_indices (buffer_count des))
               {| slot := slot3; mem := m; calls := []; cat_byte_size := cat_byte_size start;
                  row_byte_size := row_byte_size start; copied_out := [] |} in
  inr {| slot := with_response (fun r => set_output_data r size (copied_out st)) (slot st);
         mem := mem st;
         calls := calls st;
         cat_byte_size := cat_byte_size st;
         row_byte_size := row_byte_size st;
         copied_out := copied_out st |}.

(** The end of a turn: a null slot has had its error response sent and the
    turn ends with [continue]; otherwise the three parameters are attached
    and the response is sent as a success. *)
Definition finish (st : staging) (added : Z) : request_effect :=
  match slot st with
  | error_sent response e =>
      {| sent_response := response;
         sent_error := Some e;
         predict_calls := calls st;
         memory_after := mem st;
         batch_size_added := added |}
  | pending response =>
      {| sent_response :=
           {| response_outputs := response_outputs response;
              response_parameters := response_parameters response ++ example_parameters |};
         sent_error := None;
         predict_calls := calls st;
         memory_after := mem st;
         batch_size_added := added |}
  end.

Definition early_error (m : Memory) (e : TRITONSERVER_Error) : request_effect :=
  {| sent_response := empty_response;
     sent_error := Some e;
     predict_calls := [];
     memory_after := m;
     batch_size_added := 0 |}.

(** Lines 1386-1390: what a request adds to [total_batch_size]. *)
Definition batch_size_of (supports_batching : bool) (des : InputProperties) : Z :=
  if supports_batching && negb (List.length (shape des) =? 0)%nat
  then hd 0 (shape des) else 1.

(** The body of [for (uint32_t r = 0; r < request_count; ++r)] for one
    request, from device memory [m]. *)
Definition process_request (inst : ModelInstanceState) (supports_batching : bool)
    (m : Memory) (request : TRITONBACKEND_Request) : abort + request_effect :=
  match read_counts request with
  | Err e => inr (early_error m e)
  | OK counts =>
  match read_inputs request (requested_output_count counts) with
  | Err e => inr (early_error m e)
  | OK inputs =>
  let! props := read_properties inputs in
  let '(cat, row, des) := props in
  let! _ := log_requested_output (requested_output_name inputs) in
  let added := batch_size_of supports_batching des in
  if 0 <? requested_output_count counts then
    match requested_output_name inputs with
    | Some name =>
        let! st := produce_output inst request inputs name cat row des m in
        inr (finish st added)
    | None => inl (undefined_behaviour "null output name")
    end
  else
    inr (finish {| slot := pending empty_response; mem := m; calls := [];
                   cat_byte_size := to_size_t (byte_size cat);
                   row_byte_size := to_size_t (byte_size row);
                   copied_out := [] |} added)
  end end.

(** The loop over the requests: each turn starts from the device memory
    the turn before it left. *)
Fixpoint run_requests (inst : ModelInstanceState) (supports_batching : bool)
    (m : Memory) (requests : list TRITONBACKEND_Request) : abort + list request_effect :=
  match requests with
  | [] => inr []
  | request :: rest =>
      let! effect := process_request inst supports_batching m request in
      let! effects := run_requests inst supports_batching (memory_after effect) rest in
      inr (effect :: effects)
  end.

(** [ModelState::SupportsFirstDimBatching]; [batch_properties] is what
    [TRITONSERVER_ServerModelBatchProperties] answers, and
    [TRITONSERVER_BATCH_FIRST_DIM] is the constant of that name, which a
    header of the host defines. *)
Definition SupportsFirstDimBatching (TRITONSERVER_BATCH_FIRST_DIM : Z) (ms : ModelState)
    (batch_properties : result Z) : result (ModelState * bool) :=
  if supports_batching_initialized_ ms then OK (ms, supports_batching_ ms)
  else
    match batch_properties with
    | Err e => Err e
    | OK flags =>
        let supports := negb (Z.land flags TRITONSERVER_BATCH_FIRST_DIM =? 0) in
        OK ({| name_ := name_ ms;
               version_ := version_ ms;
               max_batch_size_ := max_batch_size_ ms;
               slot_num_ := slot_num_ ms;
               dese_num_ := dese_num_ ms;
               cat_num_ := cat_num_ ms;
               embedding_size_ := embedding_size_ ms;
               max_nnz_ := max_nnz_ ms;
               cache_size_per := cache_size_per ms;
               hugectr_config_ := hugectr_config_ ms;
               model_config_ := model_config_ ms;
               support_int64_key_ := support_int64_key_ ms;
               support_gpu_cache_ := support_gpu_cache_ ms;
               supports_batching_initialized_ := true;
               supports_batching_ := supports;
               EmbeddingTable_int32 := EmbeddingTable_int32 ms;
               EmbeddingTable_int64 := EmbeddingTable_int64 ms |}, supports)
    end.

(** The first loop of the function: one response per request;
    [RETURN_IF_ERROR] leaves the function at the first failure. *)
Fixpoint create_responses (requests : list TRITONBACKEND_Request)
  : option TRITONSERVER_Error :=
  match requests with
  | [] => None
  | request :: rest =>
      match TRITONBACKEND_ResponseNew request with
      | Some e => Some e
      | None => create_responses rest
      end
  end.

(** What a call of the function reports: the effect of each turn in request
    order, and the [total_batch_size] handed to the batch statistics. *)
Record execute_report : Type := {
  effects : list request_effect;
  total_batch_size : Z
}.

Definition sum_batch_sizes (effects : list request_effect) : Z :=
  fold_left (fun total e => to_size_t (total + batch_size_added e)) effects 0.

(** [TRITONBACKEND_ModelInstanceExecute(instance, requests, request_count)]. *)
Definition TRITONBACKEND_ModelInstanceExecute (TRITONSERVER_BATCH_FIRST_DIM : Z)
    (inst : ModelInstanceState) (batch_properties : result Z) (m : Memory)
    (requests : list TRITONBACKEND_Request) : abort + result execute_report :=
  match SupportsFirstDimBatching TRITONSERVER_BATCH_FIRST_DIM (StateForModel inst)
          batch_properties with
  | Err e => inr (Err e)
  | OK (_, supports_batching) =>
      match create_responses requests with
      | Some e => inr (Err e)
      | None =>
          let! effects := run_requests inst supports_batching m requests in
          inr (OK {| effects := effects; total_batch_size := sum_batch_sizes effects |})
      end
  end.

(** Device memory when the call returns. *)
Definition final_memory (m : Memory) (effects : list request_effect) : Memory :=
  fold_left (fun _ e => memory_after e) effects m.

End Execute.

(* ================================================================== *)
(** ** The rest of [HugeCTRBuffer] *)

(** [~HugeCTRBuffer()] with [CudaAllocator::deallocate]: the region handed to
    [cudaFree] or [cudaFreeHost], if any. *)
Definition destructor {T : ctype} (b : HugeCTRBuffer T) : option (pointer * MEMORY_TYPE) :=
  if allocated b then Some (ptr_ b, type b) else None.

(** The product of the extents, over the integers. *)
Definition product (dimensions : list Z) : Z := fold_right Z.mul 1 dimensions.

(* ================================================================== *)
(** ** [ModelBackend], [TRITONBACKEND_Initialize] and [TRITONBACKEND_Finalize] *)

Module Backend.

(** The parameter server [HugectrUtility<T>::Create_Parameter_Server] returns,
    as the arguments it was created from; [utility_long_key] tells the
    instantiation at [long long] from the one at [unsigned int]. *)
Record HugectrUtility : Type := {
  utility_long_key : bool;
  utility_config_path : list string;
  utility_model_name : list string
}.

Definition Create_Parameter_Server (long_key : bool) (model_config_path model_name : list string)
  : HugectrUtility :=
  {| utility_long_key := long_key;
     utility_config_path := model_config_path;
     utility_model_name := model_name |}.

(** The two table pointers have no initialiser: [None] is a pointer that was
    never assigned. *)
Record ModelBackend : Type := {
  model_config_path : list string;
  model_name : list string;
  EmbeddingTable_int32 : option HugectrUtility;
  EmbeddingTable_int64 : option HugectrUtility;
  support_int64_key_ : bool
}.

(** The constructor
    [ModelBackend(triton_backend, modelnames, modelconfigs, supportlonglongkey)]. *)
Definition ModelBackend_new (modelnames modelconfigs : list string) (supportlonglongkey : bool)
  : ModelBackend :=
  {| model_config_path := modelconfigs;
     model_name := modelnames;
     EmbeddingTable_int32 := None;
     EmbeddingTable_int64 := None;
     support_int64_key_ := supportlonglongkey |}.

(** [ModelBackend::Create(triton_backend_, backend, modelnames, modelconfigs,
    supportlonglongkey)], whose body is
    [new ModelBackend(triton_backend_, modelconfigs, modelnames, supportlonglongkey)]. *)
Definition Create (modelnames modelconfigs : list string) (supportlonglongkey : bool)
  : ModelBackend :=
  ModelBackend_new modelconfigs modelnames supportlonglongkey.

(** [ModelBackend::HugeCTREmbedding_backend()]. *)
Definition HugeCTREmbedding_backend (mb : ModelBackend) : ModelBackend :=
  if support_int64_key_ mb then
    {| model_config_path := model_config_path mb;
       model_name := model_name mb;
       EmbeddingTable_int32 := EmbeddingTable_int32 mb;
       EmbeddingTable_int64 :=
         Some (Create_Parameter_Server true (model_config_path mb) (model_name mb));
       support_int64_key_ := support_int64_key_ mb |}
  else
    {| model_config_path := model_config_path mb;
       model_name := model_name mb;
       EmbeddingTable_int32 :=
         Some (Create_Parameter_Server false (model_config_path mb) (model_name mb));
       EmbeddingTable_int64 := EmbeddingTable_int64 mb;
       support_int64_key_ := support_int64_key_ mb |}.

(** What [TRITONBACKEND_BackendSetState] was last given: the
    [std::string] or the [ModelBackend]. *)
Inductive backend_state : Type :=
| string_state (s : string)
| model_backend_state (mb : ModelBackend).

(** What the host answers about the backend; [backend_config_Parse] is the
    document the serialised configuration message parses to. *)
Record TRITONBACKEND_Backend : Type := {
  TRITONBACKEND_BackendName : result string;
  TRITONBACKEND_ApiVersion : result (Z * Z);
  TRITONBACKEND_BackendConfig : result unit;
  TRITONBACKEND_BackendArtifacts : result string;
  TRITONSERVER_MessageSerializeToJson : result unit;
  backend_config_Parse : result Json;
  TRITONBACKEND_BackendSetState : backend_state -> option TRITONSERVER_Error
}.

(** [Value::Members(&names)]. *)
Definition Members (v : Json) : result (list string) :=
  match v with
  | JObject members => OK (map fst members)
  | _ => Err (json_error "attempt to get members for non-object")
  end.

(** The loop over [param_keys] of [TRITONBACKEND_Initialize]: the values
    pushed to [param_values] and the flag [supportlonglongkey], which starts
    from [flag]. *)
Fixpoint collect_values (cmdline : Json) (param_keys : list string) (flag : bool)
  : result (list string * bool) :=
  match param_keys with
  | [] => OK ([], flag)
  | param_key :: rest =>
      if negb (String.eqb param_key "supportlonglong") then
        match MemberAsString cmdline param_key with
        | Err e => Err e
        | OK value_string =>
            match collect_values cmdline rest flag with
            | Err e => Err e
            | OK (values, flag') => OK (value_string :: values, flag')
            end
        end
      else collect_values cmdline rest true
  end.

(** The loop that erases every [supportlonglong] from [param_keys]. *)
Fixpoint erase_supportlonglong (param_keys : list string) : list string :=
  match param_keys with
  | [] => []
  | key :: rest =>
      if String.eqb key "supportlonglong"
      then erase_supportlonglong rest
      else key :: erase_supportlonglong rest
  end.

Definition api_version_error : TRITONSERVER_Error :=
  TRITONSERVER_ErrorNew TRITONSERVER_ERROR_UNSUPPORTED
    "triton backend API version does not support this backend".

(** [TRITONBACKEND_Initialize(backend)]: the value returned ([None] is
    success) and the state the host holds for the backend when it returns.
    [MAJOR] and [MINOR] are [TRITONBACKEND_API_VERSION_MAJOR] and
    [TRITONBACKEND_API_VERSION_MINOR], constants of a header of the host. *)
Definition TRITONBACKEND_Initialize (MAJOR MINOR : Z) (backend : TRITONBACKEND_Backend)
  : option TRITONSERVER_Error * option backend_state :=
  match TRITONBACKEND_BackendName backend with
  | Err e => (Some e, None)
  | OK _ =>
  match TRITONBACKEND_ApiVersion backend with
  | Err e => (Some e, None)
  | OK (api_version_major, api_version_minor) =>
  if negb (api_version_major =? MAJOR) || (api_version_minor <? MINOR)
  then (Some api_version_error, None)
  else
  match TRITONBACKEND_BackendConfig backend with
  | Err e => (Some e, None)
  | OK _ =>
  match TRITONBACKEND_BackendArtifacts backend with
  | Err e => (Some e, None)
  | OK _ =>
  match TRITONSERVER_MessageSerializeToJson backend with
  | Err e => (Some e, None)
  | OK _ =>
  let state := string_state "backend state" in
  match TRITONBACKEND_BackendSetState backend state with
  | Some e => (Some e, None)
  | None =>
  match backend_config_Parse backend with
  | Err e => (Some e, Some state)
  | OK backend_config =>
  let collected :=
    match Find backend_config "cmdline" with
    | Some cmdline =>
        match Members cmdline with
        | Err e => Err e
        | OK param_keys =>
            match collect_values cmdline param_keys false with
            | Err e => Err e
            | OK (param_values, supportlonglongkey) =>
                OK (param_values, param_keys, supportlonglongkey)
            end
        end
    | None => OK ([], [], false)
    end in
  match collected with
  | Err e => (Some e, Some state)
  | OK (param_values, param_keys, supportlonglongkey) =>
  let param_keys := erase_supportlonglong param_keys in
  let model_backend := Create param_values param_keys supportlonglongkey in
  match TRITONBACKEND_BackendSetState backend (model_backend_state model_backend) with
  | Some e => (Some e, Some state)
  | None => (None, Some (model_backend_state (HugeCTREmbedding_backend model_backend)))
  end end end end end end end end end.

(** [TRITONBACKEND_Finalize(backend)], given what [TRITONBACKEND_BackendState]
    answers: the state is read as a [std::string] and deleted as one. *)
Definition TRITONBACKEND_Finalize (vstate : result backend_state)
  : abort + option TRITONSERVER_Error :=
  match vstate with
  | Err e => inr (Some e)
  | OK (string_state _) => inr None
  | OK (model_backend_state _) =>
      inl (undefined_behaviour "a ModelBackend is read and deleted as a std::string")
  end.

End Backend.

(* ================================================================== *)
(** ** [TRITONBACKEND_ModelInstanceInitialize] *)

(** What the host answers about a model instance; [TRITONBACKEND_ModelState]
    is the state attached to the model of the instance. *)
Record TRITONBACKEND_ModelInstance : Type := {
  TRITONBACKEND_ModelInstanceName : result string;
  TRITONBACKEND_ModelInstanceKind : result TRITONSERVER_InstanceGroupKind;
  TRITONBACKEND_ModelInstanceDeviceId : result Z;
  TRITONBACKEND_ModelInstanceModel : result unit;
  TRITONBACKEND_ModelState : result ModelState;
  TRITONBACKEND_ModelInstanceSetState : option TRITONSERVER_Error
}.

Section InstanceInitialize.
Context (ext : External).

(** [ModelInstanceState::Create]: the instance name is read and handed to
    the constructor, which does not use it; the device id is read twice. *)
Definition ModelInstanceState_Create (model_state : ModelState)
    (triton_model_instance : TRITONBACKEND_ModelInstance) (indeterminate : Z) (rt : Runtime)
  : Runtime * (abort + result ModelInstanceState) :=
  match TRITONBACKEND_ModelInstanceName triton_model_instance with
  | Err e => (rt, inr (Err e))
  | OK instance_name =>
  match TRITONBACKEND_ModelInstanceKind triton_model_instance with
  | Err e => (rt, inr (Err e))
  | OK instance_kind =>
  match TRITONBACKEND_ModelInstanceDeviceId triton_model_instance with
  | Err e => (rt, inr (Err e))
  | OK device_id =>
      match ModelInstanceState_new ext model_state instance_kind device_id indeterminate rt
      with
      | (rt', inl e) => (rt', inl e)
      | (rt', inr state) => (rt', inr (OK state))
      end
  end end end.

(** [TRITONBACKEND_ModelInstanceInitialize(instance)]. *)
Definition TRITONBACKEND_ModelInstanceInitialize (instance : TRITONBACKEND_ModelInstance)
    (indeterminate : Z) (rt : Runtime) : Runtime * (abort + result ModelInstanceState) :=
  match TRITONBACKEND_ModelInstanceName instance with
  | Err e => (rt, inr (Err e))
  | OK _ =>
  match TRITONBACKEND_ModelInstanceDeviceId instance with
  | Err e => (rt, inr (Err e))
  | OK _ =>
  match TRITONBACKEND_ModelInstanceModel instance with
  | Err e => (rt, inr (Err e))
  | OK _ =>
  match TRITONBACKEND_ModelState instance with
  | Err e => (rt, inr (Err e))
  | OK model_state =>
      match ModelInstanceState_Create model_state instance indeterminate rt with
      | (rt', inl e) => (rt', inl e)
      | (rt', inr (Err e)) => (rt', inr (Err e))
      | (rt', inr (OK instance_state)) =>
          match TRITONBACKEND_ModelInstanceSetState instance with
          | Some e => (rt', inr (Err e))
          | None => (rt', inr (OK instance_state))
          end
      end
  end end end end.

End InstanceInitialize.

(* ================================================================== *)
(** ** The string helpers of [include/triton_common.hpp], at [std::string] *)

(** [hctr_str_concat_it(begin, end)]: every value is streamed into a
    [std::stringstream]. *)
Definition hctr_str_concat_it (values : list string) : string :=
  fold_left String.append values EmptyString.

(** [hctr_str_concat(values)] for a container or an initializer list. *)
Definition hctr_str_concat (values : list string) : string := hctr_str_concat_it values.

(** [hctr_str_concat(arg0, arg1, args...)]. *)
Definition hctr_str_concat_args (arg0 arg1 : string) (args : list string) : string :=
  fold_left String.append args (String.append arg0 arg1).

(** [hctr_str_join(separator, begin, end)]. *)
Definition hctr_str_join_it (separator : string) (values : list string) : string :=
  match values with
  | [] => EmptyString
  | first :: rest =>
      fold_left (fun ss value => String.append (String.append ss separator) value) rest first
  end.

(** [hctr_str_join(separator, values)] for a container or an initializer
    list. *)
Definition hctr_str_join (separator : string) (values : list string) : string :=
  hctr_str_join_it separator values.

(** [hctr_str_join(separator, arg0, arg1, args...)]. *)
Definition hctr_str_join_args (separator arg0 arg1 : string) (args : list string) : string :=
  fold_left (fun ss arg => String.append (String.append ss separator) arg) args
    (String.append (String.append arg0 separator) arg1).

(* ================================================================== *)
(** ** Notions the properties are stated with *)

(** The sample count in the words of the specification: the number of
    [float] elements of the dense input divided by the number of dense
    features. *)
Definition sample_count (ms : ModelState) (des : InputProperties) : Z :=
  to_size_t (byte_size des) / sizeof c_float / DeseNum ms.

(** The capacity of a categorical buffer as the constructor asks for it:
    [max_batch_size * cat_feature_num] keys of [key_size] bytes, in [size_t]
    arithmetic, rounded up to a multiple of 32. *)
Definition categorical_capacity (ms : ModelState) (key_size : Z) : Z :=
  to_size_t (ceil32 (to_size_t (to_size_t (BatchSize ms * CatNum ms) * key_size))).

(** The five keys whose value goes through [std::stoi]. *)
Definition numeric_keys : list string :=
  ["slots"; "des_feature_num"; "cat_feature_num"; "embedding_vector_size"; "max_nnz"]%string.

(** The [parameters] object of a configuration; a configuration without one
    is parsed like one whose [parameters] has no member. *)
Definition parameters_of (config : Json) : Json :=
  match Find config "parameters" with
  | Some parameters => parameters
  | None => JNull
  end.

(** How a numeric field comes out of [ParseModelConfig]: from the text of
    its key when the key is there, and as it was when it is not. *)
Definition taken_from (parameters : Json) (key : string) (old new : Z) : Prop :=
  (forall v, Find parameters key = Some v -> stoi (string_value v) = inr new)
  /\ (Find parameters key = None -> new = old).

(** What a request leaves that is rejected for its sample count: the error
    response, no call of [predict], memory as it was. *)
Definition overflow_effect (m : Memory) (added : Z) : request_effect :=
  {| sent_response := empty_response;
     sent_error := Some overflow_error;
     predict_calls := [];
     memory_after := m;
     batch_size_added := added |}.

(* ================================================================== *)
(** ** A concrete set of collaborators, for running the definitions *)

(** A bump allocator from address 4096 that never fails, and an engine that
    writes one byte [1] per output byte of the prediction buffer. *)
Definition bump_external : External :=
  {| cuda_alloc := fun acqs size _ =>
       Some (Z.to_pos (4096 + fold_right (fun a total => acq_size a + total) 0 acqs));
     hugectr_predict := fun m _ _ _ out n =>
       Some (store_bytes m out (repeat 1 (Z.to_nat (n * 4)))) |}.

Definition empty_runtime : Runtime := {| acquisitions := []; cerr := [] |}.

Definition zero_memory : Memory := fun _ => 0.

(** *** A model configuration and a model as the host presents them *)

Definition string_parameter (key value : string) : string * Json :=
  (key, JObject [("string_value"%string, JString value)]).

Definition tensor (name data_type : string) (dims : list Z) : Json :=
  JObject [("name"%string, JString name);
           ("data_type"%string, JString data_type);
           ("dims"%string, JArray (map JInt dims))].

(** The configuration of a model with the three inputs [DES], [CATCOLUMN]
    and [ROWINDEX] and one output of datatype [output_type]. *)
Definition config_json (max_batch_size : Z) (output_type : string)
    (parameters : list (string * Json)) : Json :=
  JObject [("name"%string, JString "dcn");
           ("max_batch_size"%string, JInt max_batch_size);
           ("input"%string,
            JArray [tensor "DES" "TYPE_FP32" [-1];
                    tensor "CATCOLUMN" "TYPE_UINT32" [-1];
                    tensor "ROWINDEX" "TYPE_INT32" [-1]]);
           ("output"%string, JArray [tensor "OUTPUT0" output_type [-1]]);
           ("parameters"%string, JObject parameters)].

(** A model for which every call on the host succeeds. *)
Definition model_with_config (config : Json) : TRITONBACKEND_Model :=
  {| TRITONBACKEND_ModelName := OK "dcn"%string;
     TRITONBACKEND_ModelVersion := OK 1;
     TRITONBACKEND_ModelRepository := OK "/models/dcn"%string;
     TRITONBACKEND_BackendState := OK (0, 0);
     TRITONBACKEND_ModelConfig := OK config;
     TRITONBACKEND_ModelServer := OK tt;
     TRITONBACKEND_ModelSetState := None |}.

(** The model state [TRITONBACKEND_ModelInitialize] attaches, when it
    returns success. *)
Definition loaded (model : TRITONBACKEND_Model) : option ModelState :=
  match TRITONBACKEND_ModelInitialize model with
  | inr (OK ms) => Some ms
  | _ => None
  end.

(** Scenario A of the specification: 13 dense features, 26 slots, batches of
    at most 64. *)
Definition scenario_parameters (long_key : string) : list (string * Json) :=
  [string_parameter "slots" "26";
   string_parameter "des_feature_num" "13";
   string_parameter "cat_feature_num" "26";
   string_parameter "embeddingkey_long_type" long_key].

Definition scenario_state (long_key : string) : ModelState :=
  match loaded (model_with_config (config_json 64 "TYPE_FP32" (scenario_parameters long_key)))
  with
  | Some ms => ms
  | None => ModelState_new "" 0 JNull 0 0
  end.

(** The instance constructed for a model state with the bump allocator. *)
Definition constructed (ms : ModelState) : Runtime * (abort + ModelInstanceState) :=
  ModelInstanceState_new bump_external ms TRITONSERVER_INSTANCEGROUPKIND_GPU 0 0
    empty_runtime.

Definition placeholder_buffer (T : ctype) : HugeCTRBuffer T := create T 0 GPU.

Definition scenario_instance (long_key : string) : ModelInstanceState :=
  match constructed (scenario_state long_key) with
  | (_, inr inst) => inst
  | (_, inl _) =>
      {| model_state_ := scenario_state long_key;
         instance_name_ := "";
         kind_ := TRITONSERVER_INSTANCEGROUPKIND_GPU;
         device_id_ := 0;
         dense_value_buf := placeholder_buffer c_float;
         cat_column_index_buf_int32 := None;
         cat_column_index_buf_int64 := None;
         row_ptr_buf := placeholder_buffer c_int;
         prediction_buf := placeholder_buffer c_float;
         Embedding_cache := Create_EmbeddingCache (scenario_state long_key) 0 "";
         hugectrmodel_ :=
           LoadHugeCTRModel (scenario_state long_key) 0
             (Create_EmbeddingCache (scenario_state long_key) 0 "") |}
  end.

(** *** Requests *)

(** An input held in one host buffer of [size] bytes, all zero. *)
Definition input_of (ty : TRITONSERVER_DataType) (dims : list Z) (size : Z)
  : TRITONBACKEND_Input :=
  {| TRITONBACKEND_InputProperties :=
       OK {| datatype := ty; shape := dims; byte_size := size; buffer_count := 1 |};
     TRITONBACKEND_InputBuffer := fun _ =>
       OK {| buffer := Some (repeat 0 (Z.to_nat size)); buffer_byte_size := size |} |}.

(** A request of [samples] samples for the model of the scenario, one key
    per slot, asking for [outputs] outputs; every call on the host succeeds. *)
Definition request_of (samples outputs : Z) : TRITONBACKEND_Request :=
  {| TRITONBACKEND_RequestId := OK ""%string;
     TRITONBACKEND_RequestCorrelationId := OK 0;
     TRITONBACKEND_RequestInputCount := OK 3;
     TRITONBACKEND_RequestOutputCount := OK outputs;
     TRITONBACKEND_RequestInputName := fun i =>
       if i =? 0 then OK "DES"%string
       else if i =? 1 then OK "CATCOLUMN"%string
       else OK "ROWINDEX"%string;
     TRITONBACKEND_RequestInput := fun name =>
       if String.eqb name "DES"
       then OK (input_of TRITONSERVER_TYPE_FP32 [samples; 13] (samples * 13 * 4))
       else if String.eqb name "CATCOLUMN"
       then OK (input_of TRITONSERVER_TYPE_UINT32 [samples; 26] (samples * 26 * 4))
       else OK (input_of TRITONSERVER_TYPE_INT32 [samples * 26 + 1]
                  ((samples * 26 + 1) * 4));
     TRITONBACKEND_RequestOutputName := fun _ => OK "OUTPUT0"%string;
     TRITONBACKEND_ResponseNew := None;
     TRITONBACKEND_ResponseOutput := fun _ _ _ => None;
     TRITONBACKEND_OutputBuffer := fun _ => None |}.

(** *** Further collaborators and inputs *)

(** An allocator whose every call reports a CUDA error. *)
Definition failing_external : External :=
  {| cuda_alloc := fun _ _ _ => None;
     hugectr_predict := fun m _ _ _ _ _ => Some m |}.

(** An error of the host. *)
Definition host_error (msg : string) : TRITONSERVER_Error :=
  TRITONSERVER_ErrorNew TRITONSERVER_ERROR_INTERNAL msg.

(** The model of the scenario, with the answer of the host to
    [TRITONBACKEND_ModelName] replaced. *)
Definition model_named (name : result string) : TRITONBACKEND_Model :=
  {| TRITONBACKEND_ModelName := name;
     TRITONBACKEND_ModelVersion := OK 1;
     TRITONBACKEND_ModelRepository := OK "/models/dcn"%string;
     TRITONBACKEND_BackendState := OK (0, 0);
     TRITONBACKEND_ModelConfig :=
       OK (config_json 64 "TYPE_FP32" (scenario_parameters "false"));
     TRITONBACKEND_ModelServer := OK tt;
     TRITONBACKEND_ModelSetState := None |}.

(** A configuration like [config_json] with other inputs after the first. *)
Definition config_with_inputs (second third : Json) : Json :=
  JObject [("input"%string, JArray [tensor "DES" "TYPE_FP32" [-1]; second; third]);
           ("output"%string, JArray [tensor "OUTPUT0" "TYPE_FP32" [-1]])].

(** An instance of a model on a device, every call on the host succeeding. *)
Definition instance_on (ms : ModelState) (name : string) (device_id : Z)
  : TRITONBACKEND_ModelInstance :=
  {| TRITONBACKEND_ModelInstanceName := OK name;
     TRITONBACKEND_ModelInstanceKind := OK TRITONSERVER_INSTANCEGROUPKIND_GPU;
     TRITONBACKEND_ModelInstanceDeviceId := OK device_id;
     TRITONBACKEND_ModelInstanceModel := OK tt;
     TRITONBACKEND_ModelState := OK ms;
     TRITONBACKEND_ModelInstanceSetState := None |}.

(** A backend started with two models on its command line and, when
    [long_key] is set, the key [supportlonglong] between them; the host
    offers version [major].[minor] of the backend API. *)
Definition backend_with (major minor : Z) (long_key : bool) : Backend.TRITONBACKEND_Backend :=
  {| Backend.TRITONBACKEND_BackendName := OK "hugectr"%string;
     Backend.TRITONBACKEND_ApiVersion := OK (major, minor);
     Backend.TRITONBACKEND_BackendConfig := OK tt;
     Backend.TRITONBACKEND_BackendArtifacts := OK "/opt/tritonserver/backends/hugectr"%string;
     Backend.TRITONSERVER_MessageSerializeToJson := OK tt;
     Backend.backend_config_Parse :=
       OK (JObject
             [("cmdline"%string,
               JObject (("dcn"%string, JString "/models/dcn.json")
                        :: (if long_key
                            then [("supportlonglong"%string, JString "true")]
                            else [])
                        ++ [("wdl"%string, JString "/models/wdl.json")]))]);
     Backend.TRITONBACKEND_BackendSetState := fun _ => None |}.

(** What the loop reads from [request_of samples outputs]. *)
Definition counts_of (outputs : Z) : request_counts :=
  {| request_id := ""; correlation_id := 0; input_count := 3;
     requested_output_count := outputs |}.

Definition dense_of (samples : Z) : TRITONBACKEND_Input :=
  input_of TRITONSERVER_TYPE_FP32 [samples; 13] (samples * 13 * 4).

Definition inputs_with (dense : TRITONBACKEND_Input) (samples : Z) : request_inputs :=
  {| des_input := dense;
     catcol_input := input_of TRITONSERVER_TYPE_UINT32 [samples; 26] (samples * 26 * 4);
     row_input := input_of TRITONSERVER_TYPE_INT32 [samples * 26 + 1]
                    ((samples * 26 + 1) * 4);
     requested_output_name := Some "OUTPUT0"%string |}.

Definition cat_properties (samples : Z) : InputProperties :=
  {| datatype := TRITONSERVER_TYPE_UINT32; shape := [samples; 26];
     byte_size := samples * 26 * 4; buffer_count := 1 |}.

Definition row_properties (samples : Z) : InputProperties :=
  {| datatype := TRITONSERVER_TYPE_INT32; shape := [samples * 26 + 1];
     byte_size := (samples * 26 + 1) * 4; buffer_count := 1 |}.

Definition dense_properties (dims : list Z) (samples buffers : Z) : InputProperties :=
  {| datatype := TRITONSERVER_TYPE_FP32; shape := dims;
     byte_size := samples * 13 * 4; buffer_count := buffers |}.

(** [request_of samples 1] with some answers of the host replaced: the
    request id, the creation of the response, the dense input, the output
    buffer. *)
Definition request_with (id : result string) (response_new : option TRITONSERVER_Error)
    (dense : TRITONBACKEND_Input) (output_buffer : option TRITONSERVER_Error) (samples : Z)
  : TRITONBACKEND_Request :=
  {| TRITONBACKEND_RequestId := id;
     TRITONBACKEND_RequestCorrelationId := OK 0;
     TRITONBACKEND_RequestInputCount := OK 3;
     TRITONBACKEND_RequestOutputCount := OK 1;
     TRITONBACKEND_RequestInputName := fun i =>
       if i =? 0 then OK "DES"%string
       else if i =? 1 then OK "CATCOLUMN"%string
       else OK "ROWINDEX"%string;
     TRITONBACKEND_RequestInput := fun name =>
       if String.eqb name "DES" then OK dense
       else if String.eqb name "CATCOLUMN"
       then OK (input_of TRITONSERVER_TYPE_UINT32 [samples; 26] (samples * 26 * 4))
       else OK (input_of TRITONSERVER_TYPE_INT32 [samples * 26 + 1]
                  ((samples * 26 + 1) * 4));
     TRITONBACKEND_RequestOutputName := fun _ => OK "OUTPUT0"%string;
     TRITONBACKEND_ResponseNew := response_new;
     TRITONBACKEND_ResponseOutput := fun _ _ _ => None;
     TRITONBACKEND_OutputBuffer := fun _ => output_buffer |}.

(** A dense input of [samples] samples declared with the flat shape
    [samples * 13]. *)
Definition flat_dense (samples : Z) : TRITONBACKEND_Input :=
  input_of TRITONSERVER_TYPE_FP32 [samples * 13] (samples * 13 * 4).

(** A dense input of [samples] samples that reports [buffers] buffers, none
    of which the host hands out. *)
Definition unreadable_dense (samples buffers : Z) : TRITONBACKEND_Input :=
  {| TRITONBACKEND_InputProperties :=
       OK (dense_properties [samples; 13] samples buffers);
     TRITONBACKEND_InputBuffer := fun _ => Err (host_error "no buffer") |}.

(* ================================================================== *)
(** * Properties of [HugeCTRBuffer] *)

Lemma ceil32_multiple (r : Z) : r mod 32 = 0 -> ceil32 r = r.
Proof.
  intro H. unfold ceil32.
  pose proof (Z.div_mod r 32 ltac:(lia)) as E. rewrite H in E.
  replace (r + 31) with (r / 32 * 32 + 31) by lia.
  rewrite Z.div_add_l by lia. replace (31 / 32) with 0 by reflexivity. lia.
Qed.

Lemma ceil32_not_multiple (r : Z) : r mod 32 <> 0 -> ceil32 r = r + (32 - r mod 32).
Proof.
  intro H. unfold ceil32.
  pose proof (Z.div_mod r 32 ltac:(lia)) as E.
  pose proof (Z.mod_pos_bound r 32 ltac:(lia)) as B.
  replace (r + 31) with ((r / 32 + 1) * 32 + (r mod 32 - 1)) by lia.
  rewrite Z.div_add_l by lia.
  rewrite (Z.div_small (r mod 32 - 1) 32) by lia. lia.
Qed.

(** The rounding of the loop agrees with the next multiple of 32, in
    [size_t]. *)
Lemma round_up_32_ceil32 (r : Z) : to_size_t (round_up_32 r) = to_size_t (ceil32 r).
Proof.
  unfold round_up_32. destruct (r mod 32 =? 0) eqn:E; cbn [negb].
  - apply Z.eqb_eq in E. now rewrite ceil32_multiple.
  - apply Z.eqb_neq in E. rewrite ceil32_not_multiple by assumption.
    unfold to_size_t. now rewrite Z.mod_mod by lia.
Qed.

Lemma sum_rounded_from (rs : list Z) (a : Z) :
  fold_left (fun offset buffer => to_size_t (offset + round_up_32 buffer)) rs (to_size_t a)
  = to_size_t (a + sum_ceil32 rs).
Proof.
  revert a. induction rs as [|r rs IH]; intro a; cbn [fold_left sum_ceil32 fold_right].
  - now rewrite Z.add_0_r.
  - rewrite IH.
    assert (E : to_size_t (to_size_t a + round_up_32 r) = to_size_t (a + ceil32 r)).
    { unfold to_size_t. rewrite Z.add_mod_idemp_l by lia.
      rewrite <- Z.add_mod_idemp_r by lia. fold (to_size_t (round_up_32 r)).
      rewrite round_up_32_ceil32. unfold to_size_t. now rewrite Z.add_mod_idemp_r by lia. }
    unfold to_size_t in *.
    rewrite <- Z.add_mod_idemp_l, E, Z.add_mod_idemp_l by lia.
    f_equal. unfold sum_ceil32. lia.
Qed.

(** The capacity [allocate] computes is the sum of the reservations, each
    rounded up to a multiple of 32, modulo [2^64]. *)
Lemma sum_rounded_spec (rs : list Z) : sum_rounded rs = to_size_t (sum_ceil32 rs).
Proof.
  unfold sum_rounded. change 0 with (to_size_t 0) at 1. now rewrite sum_rounded_from.
Qed.

Lemma to_size_t_small (z : Z) : 0 <= z < 2 ^ 64 -> to_size_t z = z.
Proof. intro H. unfold to_size_t. now apply Z.mod_small. Qed.

Lemma to_size_t_range (z : Z) : 0 <= to_size_t z < 2 ^ 64.
Proof. unfold to_size_t. apply Z.mod_pos_bound. lia. Qed.

Section BufferProperties.
Context (ext : External).

Lemma allocate_unfold (T : ctype) (b : HugeCTRBuffer T) (rt : Runtime) :
  let total := sum_rounded (reserved_buffers_ b) in
  let rt1 := if negb (ptr_ b =? nullptr)
             then log_cerr "WrongInput:Memory has already been allocated." rt else rt in
  let b1 := {| reserved_buffers_ := []; total_num_elements_ := total_num_elements_ b;
               ptr_ := ptr_ b; total_size_in_bytes_ := total; type := type b |} in
  allocate ext b rt =
  if total =? 0 then (rt1, b1, None)
  else match cuda_alloc ext (acquisitions rt) total (type b) with
       | Some p =>
           ({| acquisitions := acquisitions rt ++
                 [{| acq_size := total; acq_type := type b; acq_addr := Some p |}];
               cerr := cerr rt1 |},
            {| reserved_buffers_ := []; total_num_elements_ := total_num_elements_ b;
               ptr_ := Z.pos p; total_size_in_bytes_ := total; type := type b |}, None)
       | None =>
           ({| acquisitions := acquisitions rt ++
                 [{| acq_size := total; acq_type := type b; acq_addr := None |}];
               cerr := cerr rt1 |}, b1,
            Some (std_runtime_error "Runtime error: cudaMalloc"))
       end.
Proof.
  cbv zeta. unfold allocate, CudaAllocator_allocate. cbn [total_size_in_bytes_ type].
  destruct (sum_rounded (reserved_buffers_ b) =? 0); cbn [negb]; [reflexivity|].
  assert (A : acquisitions (if negb (ptr_ b =? nullptr)
                then log_cerr "WrongInput:Memory has already been allocated." rt else rt)
              = acquisitions rt) by (destruct (negb (ptr_ b =? nullptr)); reflexivity).
  rewrite A. destruct (cuda_alloc ext (acquisitions rt) _ (type b)); reflexivity.
Qed.

Lemma allocate_clears_reservations (T : ctype) (b : HugeCTRBuffer T) (rt : Runtime) :
  reserved_buffers_ (snd (fst (allocate ext b rt))) = [].
Proof.
  rewrite allocate_unfold. cbv zeta.
  destruct (sum_rounded (reserved_buffers_ b) =? 0); [reflexivity|].
  destruct (cuda_alloc ext (acquisitions rt) _ (type b)); reflexivity.
Qed.

(** C5, as amended.  For every sequence of pending reservations, [allocate()]
    records as total capacity the sum of the reservations each rounded up to
    the next multiple of 32, in [size_t] arithmetic (the exact sum whenever
    it is below [2^64]); it calls the allocator exactly once, for that size
    and in the buffer's memory class, when the total is not zero, and not
    at all when it is zero; the list of pending reservations is empty
    afterwards. *)
Theorem allocate_capacity_and_acquisition (T : ctype) (b : HugeCTRBuffer T) (rt : Runtime) :
  let total := get_buffer_size (snd (fst (allocate ext b rt))) in
  total = to_size_t (sum_ceil32 (reserved_buffers_ b))
  /\ (0 <= sum_ceil32 (reserved_buffers_ b) < 2 ^ 64 ->
      total = sum_ceil32 (reserved_buffers_ b))
  /\ reserved_buffers_ (snd (fst (allocate ext b rt))) = []
  /\ acquisitions (fst (fst (allocate ext b rt))) =
     acquisitions rt ++
       (if total =? 0 then []
        else [{| acq_size := total;
                 acq_type := type b;
                 acq_addr := cuda_alloc ext (acquisitions rt) total (type b) |}]).
Proof.
  cbv zeta. rewrite allocate_unfold. cbv zeta.
  assert (S : forall c, acquisitions (if c : bool
                then log_cerr "WrongInput:Memory has already been allocated." rt else rt)
              = acquisitions rt) by (intros []; reflexivity).
  destruct (sum_rounded (reserved_buffers_ b) =? 0) eqn:Z0.
  - cbn [fst snd get_buffer_size total_size_in_bytes_ reserved_buffers_].
    rewrite Z0, S, app_nil_r, <- sum_rounded_spec.
    repeat split. intro H. rewrite sum_rounded_spec. now apply to_size_t_small.
  - destruct (cuda_alloc ext (acquisitions rt) _ (type b)) eqn:A;
      cbn [fst snd get_buffer_size total_size_in_bytes_ reserved_buffers_ acquisitions];
      rewrite Z0, ?A, <- sum_rounded_spec;
      (repeat split; intro H; rewrite sum_rounded_spec; now apply to_size_t_small).
Qed.

(** C6, as amended.  When the pending reservations round and sum to a total
    capacity of zero, [allocate()] calls the allocator not at all, throws
    nothing, leaves [get_ptr()] as it was and records capacity 0; the buffer
    then does not report itself allocated: [allocated()] is [false]. *)
Theorem allocate_zero_capacity_not_allocated (T : ctype) (b : HugeCTRBuffer T) (rt : Runtime) :
  to_size_t (sum_ceil32 (reserved_buffers_ b)) = 0 ->
  acquisitions (fst (fst (allocate ext b rt))) = acquisitions rt
  /\ snd (allocate ext b rt) = None
  /\ get_buffer_size (snd (fst (allocate ext b rt))) = 0
  /\ get_ptr (snd (fst (allocate ext b rt))) = get_ptr b
  /\ allocated (snd (fst (allocate ext b rt))) = false.
Proof.
  intro H. rewrite <- sum_rounded_spec in H.
  rewrite allocate_unfold. cbv zeta. rewrite H. cbn.
  repeat split. destruct (ptr_ b =? nullptr); reflexivity.
Qed.

(** C3, on the code.  A second [allocate()] on a buffer that the first one
    left allocated writes the complaint to [std::cerr] and then runs the
    whole body again: the reservation list is empty by now, so no memory is
    acquired and [get_ptr()] keeps its address, but the recorded capacity is
    overwritten with 0 and the buffer stops reporting itself allocated, so
    that its destructor no longer releases the region. *)
Theorem second_allocate_resets_capacity (T : ctype) (b0 b1 : HugeCTRBuffer T)
    (rt0 rt1 : Runtime) (e1 : option abort) :
  allocate ext b0 rt0 = (rt1, b1, e1) ->
  allocated b1 = true ->
  get_ptr (snd (fst (allocate ext b1 rt1))) = get_ptr b1
  /\ acquisitions (fst (fst (allocate ext b1 rt1))) = acquisitions rt1
  /\ cerr (fst (fst (allocate ext b1 rt1))) =
     cerr rt1 ++ ["WrongInput:Memory has already been allocated."%string]
  /\ get_buffer_size b1 <> 0
  /\ get_buffer_size (snd (fst (allocate ext b1 rt1))) = 0
  /\ allocated (snd (fst (allocate ext b1 rt1))) = false
  /\ destructor_deallocates (snd (fst (allocate ext b1 rt1))) = false.
Proof.
  intros A1 H.
  assert (R : reserved_buffers_ b1 = []).
  { pose proof (allocate_clears_reservations T b0 rt0) as P.
    rewrite A1 in P. exact P. }
  unfold allocated in H. apply andb_prop in H. destruct H as [Hs Hp].
  rewrite allocate_unfold. cbv zeta. rewrite R. cbn [sum_rounded fold_left Z.eqb].
  rewrite Hp. cbn [fst snd get_ptr get_buffer_size ptr_ total_size_in_bytes_ acquisitions cerr
                   log_cerr].
  unfold destructor_deallocates, allocated. cbn [total_size_in_bytes_ Z.eqb negb andb].
  repeat split. unfold get_buffer_size. intro E. rewrite E in Hs. discriminate.
Qed.

(** C4, on the code.  [reserve(dimensions)] on a buffer that reports itself
    allocated writes the complaint to [std::cerr] and carries on: the byte
    size is appended to the pending reservations and the element count is
    increased. *)
Theorem reserve_after_allocate_appends (T : ctype) (b : HugeCTRBuffer T) (dimensions : list Z)
    (rt : Runtime) :
  allocated b = true ->
  cerr (fst (reserve dimensions b rt)) = cerr rt ++ ["IllegalCall: Buffer is finalized."%string]
  /\ reserved_buffers_ (snd (reserve dimensions b rt)) =
     reserved_buffers_ b ++
       [to_size_t (get_num_elements_from_dimensions dimensions * sizeof T)]
  /\ total_num_elements_ (snd (reserve dimensions b rt)) =
     to_size_t (total_num_elements_ b + get_num_elements_from_dimensions dimensions)
  /\ reserved_buffers_ (snd (reserve dimensions b rt)) <> reserved_buffers_ b.
Proof.
  intro H. unfold reserve. rewrite H. cbn [fst snd cerr log_cerr reserved_buffers_
                                             total_num_elements_].
  repeat split. intro E.
  apply (f_equal (@List.length Z)) in E. rewrite length_app in E. cbn in E. lia.
Qed.

End BufferProperties.

(** C5, witness: two reservations of 4 and 40 bytes give capacity 32 + 64. *)
Lemma allocate_capacity_and_acquisition_witness :
  let b := {| reserved_buffers_ := [4; 40]; total_num_elements_ := 11; ptr_ := nullptr;
              total_size_in_bytes_ := 0; type := GPU |} : HugeCTRBuffer c_float in
  0 <= sum_ceil32 (reserved_buffers_ b) < 2 ^ 64
  /\ get_buffer_size (snd (fst (allocate bump_external b empty_runtime))) = 96
  /\ List.length (acquisitions (fst (fst (allocate bump_external b empty_runtime)))) = 1%nat.
Proof.
  cbv zeta.
  assert (H : 0 <= sum_ceil32 [4; 40] < 2 ^ 64) by (vm_compute; split; [discriminate | reflexivity]).
  split; [exact H|].
  pose proof (allocate_capacity_and_acquisition bump_external c_float
                {| reserved_buffers_ := [4; 40]; total_num_elements_ := 11; ptr_ := nullptr;
                   total_size_in_bytes_ := 0; type := GPU |} empty_runtime) as P.
  cbv zeta in P. destruct P as (_ & P2 & _ & P4).
  split.
  - rewrite (P2 H). reflexivity.
  - rewrite P4. reflexivity.
Defined.

(** C5, counterexample: with nothing reserved, [allocate()] performs no
    acquisition at all, not exactly one. *)
Lemma allocate_empty_performs_no_acquisition :
  acquisitions (fst (fst (allocate bump_external (create c_float 0 GPU) empty_runtime))) = []
  /\ List.length
       (acquisitions (fst (fst (allocate bump_external (create c_float 0 GPU) empty_runtime))))
     <> 1%nat.
Proof. split; [reflexivity | discriminate]. Qed.

(** C6, witness: a buffer with a single reservation of zero bytes. *)
Lemma allocate_zero_capacity_not_allocated_witness :
  let b := snd (reserve [0] (create c_int 7 GPU) empty_runtime) in
  to_size_t (sum_ceil32 (reserved_buffers_ b)) = 0
  /\ acquisitions (fst (fst (allocate bump_external b empty_runtime))) = []
  /\ allocated (snd (fst (allocate bump_external b empty_runtime))) = false.
Proof.
  cbv zeta.
  assert (H : to_size_t (sum_ceil32 (reserved_buffers_
                (snd (reserve [0] (create c_int 7 GPU) empty_runtime)))) = 0) by reflexivity.
  split; [exact H|].
  pose proof (allocate_zero_capacity_not_allocated bump_external c_int
                (snd (reserve [0] (create c_int 7 GPU) empty_runtime)) empty_runtime H) as P.
  destruct P as (P1 & _ & _ & _ & P5). split; [exact P1 | exact P5].
Defined.

(** C6, counterexample: after [allocate()] on a buffer of zero total
    capacity, [allocated()] answers [false]. *)
Lemma allocate_zero_capacity_reports_unallocated :
  allocated (snd (fst (allocate bump_external (create c_float 0 GPU) empty_runtime))) <> true.
Proof. discriminate. Qed.

(** C3, witness: one [float] reserved, then [allocate()] twice. *)
Lemma second_allocate_resets_capacity_witness :
  let b0 := snd (reserve [1] (create c_float 0 GPU) empty_runtime) in
  let rt1 := fst (fst (allocate bump_external b0 empty_runtime)) in
  let b1 := snd (fst (allocate bump_external b0 empty_runtime)) in
  allocated b1 = true
  /\ get_buffer_size b1 = 32
  /\ get_buffer_size (snd (fst (allocate bump_external b1 rt1))) = 0
  /\ allocated (snd (fst (allocate bump_external b1 rt1))) = false.
Proof.
  cbv zeta.
  set (b0 := snd (reserve [1] (create c_float 0 GPU) empty_runtime)).
  set (rt1 := fst (fst (allocate bump_external b0 empty_runtime))).
  set (b1 := snd (fst (allocate bump_external b0 empty_runtime))).
  assert (H : allocated b1 = true) by reflexivity.
  pose proof (second_allocate_resets_capacity bump_external c_float b0 b1 empty_runtime rt1
                None eq_refl H) as P.
  destruct P as (_ & _ & _ & _ & P5 & P6 & _).
  split; [exact H|]. split; [reflexivity|]. split; [exact P5 | exact P6].
Defined.

(** C4, witness: [reserve({1}); allocate(); reserve({2})] on a buffer of
    [float]. *)
Lemma reserve_after_allocate_appends_witness :
  let b0 := snd (reserve [1] (create c_float 0 GPU) empty_runtime) in
  let b1 := snd (fst (allocate bump_external b0 empty_runtime)) in
  allocated b1 = true
  /\ reserved_buffers_ b1 = []
  /\ reserved_buffers_ (snd (reserve [2] b1 empty_runtime)) = [8]
  /\ total_num_elements_ (snd (reserve [2] b1 empty_runtime)) = 3.
Proof.
  cbv zeta.
  set (b1 := snd (fst (allocate bump_external
                         (snd (reserve [1] (create c_float 0 GPU) empty_runtime))
                         empty_runtime))).
  assert (H : allocated b1 = true) by reflexivity.
  pose proof (reserve_after_allocate_appends c_float b1 [2] empty_runtime H) as P.
  destruct P as (_ & P2 & P3 & _).
  split; [exact H|]. split; [reflexivity|]. split.
  - rewrite P2. reflexivity.
  - rewrite P3. reflexivity.
Defined.

(* ================================================================== *)
(** * Properties of the construction of [ModelInstanceState] *)

Lemma ceil32_bounds (n : Z) : n <= ceil32 n < n + 32.
Proof.
  unfold ceil32.
  pose proof (Z.div_mod (n + 31) 32 ltac:(lia)) as E.
  pose proof (Z.mod_pos_bound (n + 31) 32 ltac:(lia)) as B. lia.
Qed.

Section InstanceProperties.
Context (ext : External).

(** What [create], [reserve] of one extent and [allocate] leave when nothing
    is thrown. *)
Lemma create_reserve_allocate_ok (T : ctype) (indeterminate : Z) (ty : MEMORY_TYPE) (d : Z)
    (rt rt' : Runtime) (b : HugeCTRBuffer T) :
  create_reserve_allocate ext T indeterminate ty [d] rt = (rt', inr b) ->
  get_buffer_size b = to_size_t (ceil32 (to_size_t (to_size_t d * sizeof T)))
  /\ type b = ty
  /\ allocated b = negb (get_buffer_size b =? 0).
Proof.
  unfold create_reserve_allocate, reserve, create.
  cbn [allocated total_size_in_bytes_ ptr_ Z.eqb negb andb fst snd
       get_num_elements_from_dimensions fold_left reserved_buffers_ total_num_elements_ type
       app].
  rewrite allocate_unfold. cbv zeta.
  cbn [reserved_buffers_ total_num_elements_ ptr_ total_size_in_bytes_ type].
  rewrite sum_rounded_spec. cbn [sum_ceil32 fold_right]. rewrite Z.add_0_r, Z.mul_1_l.
  destruct (to_size_t (ceil32 _) =? 0) eqn:Z0.
  - intro H. inversion H; subst.
    unfold allocated, get_buffer_size. cbn [total_size_in_bytes_ ptr_ type].
    rewrite Z0. auto.
  - destruct (cuda_alloc ext _ _ ty); intro H; inversion H; subst.
    unfold allocated, get_buffer_size. cbn [total_size_in_bytes_ ptr_ type].
    rewrite Z0. auto.
Qed.

Lemma create_reserve_allocate_positive (T : ctype) (indeterminate : Z) (ty : MEMORY_TYPE)
    (n : Z) (rt rt' : Runtime) (b : HugeCTRBuffer T) :
  0 < n -> n * sizeof T + 32 <= 2 ^ 64 ->
  create_reserve_allocate ext T indeterminate ty [to_size_t n] rt = (rt', inr b) ->
  get_buffer_size b = ceil32 (n * sizeof T) /\ type b = ty /\ allocated b = true.
Proof.
  intros Hn Hb H. apply create_reserve_allocate_ok in H. destruct H as (S & Ty & A).
  assert (P : 1 <= sizeof T <= 8) by (destruct T; cbn; lia).
  pose proof (ceil32_bounds (n * sizeof T)) as C.
  rewrite (to_size_t_small n) in S by nia.
  rewrite (to_size_t_small n) in S by nia.
  rewrite (to_size_t_small (n * sizeof T)) in S by nia.
  rewrite to_size_t_small in S by nia.
  repeat split; try assumption.
  rewrite A. destruct (get_buffer_size b =? 0) eqn:E; [|reflexivity].
  apply Z.eqb_eq in E. nia.
Qed.

Lemma to_size_t_idem (z : Z) : to_size_t (to_size_t z) = to_size_t z.
Proof. apply to_size_t_small, to_size_t_range. Qed.

(** C7, as amended.  In every constructed [ModelInstanceState], exactly one
    of the two categorical buffers exists, the 64-bit one when the model
    state says [SupportLongEmbeddingKey] and the 32-bit one otherwise, and
    the other pointer stays null.  With positive [max_batch_size] and
    [cat_feature_num] whose product fits, the one that exists reports itself
    allocated, in pinned memory, with capacity
    [max_batch_size * cat_feature_num * sizeof(key)] rounded up to a
    multiple of 32: 8 bytes a key with long keys, 4 otherwise.  In general
    the one that exists reports itself allocated exactly when the capacity
    the constructor asks for is not zero, and with [max_batch_size] or
    [cat_feature_num] equal to 0 neither buffer reports itself allocated. *)
Theorem exactly_one_categorical_buffer (ms : ModelState)
    (kind : TRITONSERVER_InstanceGroupKind) (device_id indeterminate : Z)
    (rt rt' : Runtime) (inst : ModelInstanceState) :
  ModelInstanceState_new ext ms kind device_id indeterminate rt = (rt', inr inst) ->
  buffer_created (cat_column_index_buf_int64 inst) = SupportLongEmbeddingKey ms
  /\ buffer_created (cat_column_index_buf_int32 inst) = negb (SupportLongEmbeddingKey ms)
  /\ (0 < BatchSize ms -> 0 < CatNum ms -> BatchSize ms * CatNum ms * 8 + 32 <= 2 ^ 64 ->
      buffer_allocated (cat_column_index_buf_int64 inst) = SupportLongEmbeddingKey ms
      /\ buffer_allocated (cat_column_index_buf_int32 inst)
         = negb (SupportLongEmbeddingKey ms)
      /\ (SupportLongEmbeddingKey ms = true ->
          cat_column_index_buf_int32 inst = None
          /\ exists b, cat_column_index_buf_int64 inst = Some b
                       /\ type b = PIN
                       /\ get_buffer_size b = ceil32 (BatchSize ms * CatNum ms * 8))
      /\ (SupportLongEmbeddingKey ms = false ->
          cat_column_index_buf_int64 inst = None
          /\ exists b, cat_column_index_buf_int32 inst = Some b
                       /\ type b = PIN
                       /\ get_buffer_size b = ceil32 (BatchSize ms * CatNum ms * 4)))
  /\ buffer_allocated (cat_column_index_buf_int64 inst)
     = SupportLongEmbeddingKey ms && negb (categorical_capacity ms 8 =? 0)
  /\ buffer_allocated (cat_column_index_buf_int32 inst)
     = negb (SupportLongEmbeddingKey ms) && negb (categorical_capacity ms 4 =? 0)
  /\ (BatchSize ms * CatNum ms = 0 ->
      buffer_allocated (cat_column_index_buf_int64 inst) = false
      /\ buffer_allocated (cat_column_index_buf_int32 inst) = false).
Proof.
  unfold ModelInstanceState_new.
  destruct (create_reserve_allocate ext c_float indeterminate GPU _ rt) as [rt1 [e|dense]];
    [discriminate|].
  destruct (SupportLongEmbeddingKey ms) eqn:L.
  - destruct (create_reserve_allocate ext c_long_long indeterminate PIN _ rt1)
      as [rt2 [e|b]] eqn:C; [discriminate|].
    destruct (create_reserve_allocate ext c_int indeterminate GPU _ rt2) as [rt3 [e|row]];
      [discriminate|].
    destruct (create_reserve_allocate ext c_float indeterminate GPU _ rt3) as [rt4 [e|p]];
      [discriminate|].
    intro H. inversion H; subst; clear H.
    cbn [buffer_created buffer_allocated cat_column_index_buf_int64
         cat_column_index_buf_int32 negb andb].
    pose proof (create_reserve_allocate_ok _ _ _ _ _ _ _ C) as (S0 & _ & A0).
    rewrite to_size_t_idem in S0. cbn [sizeof] in S0.
    fold (categorical_capacity ms 8) in S0. rewrite S0 in A0.
    split; [reflexivity|]. split; [reflexivity|]. split.
    + intros HB HC Hfit.
      apply create_reserve_allocate_positive in C; cbn [sizeof]; [|nia|nia].
      destruct C as (S & Ty & A).
      split; [exact A|]. split; [reflexivity|]. split; [|discriminate].
      intros _. split; [reflexivity|]. exists b. auto.
    + split; [exact A0|]. split; [reflexivity|].
      intro Z0. split; [|reflexivity]. rewrite A0. unfold categorical_capacity.
      rewrite Z0. vm_compute. reflexivity.
  - destruct (create_reserve_allocate ext c_unsigned_int indeterminate PIN _ rt1)
      as [rt2 [e|b]] eqn:C; [discriminate|].
    destruct (create_reserve_allocate ext c_int indeterminate GPU _ rt2) as [rt3 [e|row]];
      [discriminate|].
    destruct (create_reserve_allocate ext c_float indeterminate GPU _ rt3) as [rt4 [e|p]];
      [discriminate|].
    intro H. inversion H; subst; clear H.
    cbn [buffer_created buffer_allocated cat_column_index_buf_int64
         cat_column_index_buf_int32 negb andb].
    pose proof (create_reserve_allocate_ok _ _ _ _ _ _ _ C) as (S0 & _ & A0).
    rewrite to_size_t_idem in S0. cbn [sizeof] in S0.
    fold (categorical_capacity ms 4) in S0. rewrite S0 in A0.
    split; [reflexivity|]. split; [reflexivity|]. split.
    + intros HB HC Hfit.
      apply create_reserve_allocate_positive in C; cbn [sizeof]; [|nia|nia].
      destruct C as (S & Ty & A).
      split; [reflexivity|]. split; [exact A|]. split; [discriminate|].
      intros _. split; [reflexivity|]. exists b. auto.
    + split; [reflexivity|]. split; [exact A0|].
      intro Z0. split; [reflexivity|]. rewrite A0. unfold categorical_capacity.
      rewrite Z0. vm_compute. reflexivity.
Qed.

End InstanceProperties.

(** C7, witness: the configuration of scenario C, with
    [embeddingkey_long_type] set to [true], 64 samples a batch and 26
    categorical features: 64 * 26 * 8 = 13312 bytes of pinned memory for the
    64-bit buffer, and no 32-bit buffer. *)
Lemma exactly_one_categorical_buffer_witness :
  SupportLongEmbeddingKey (scenario_state "true") = true
  /\ cat_column_index_buf_int32 (scenario_instance "true") = None
  /\ buffer_allocated (cat_column_index_buf_int64 (scenario_instance "true")) = true
  /\ exists b, cat_column_index_buf_int64 (scenario_instance "true") = Some b
               /\ type b = PIN
               /\ get_buffer_size b = 13312.
Proof.
  assert (L : SupportLongEmbeddingKey (scenario_state "true") = true)
    by (vm_compute; reflexivity).
  assert (E : ModelInstanceState_new bump_external (scenario_state "true")
                TRITONSERVER_INSTANCEGROUPKIND_GPU 0 0 empty_runtime
              = (fst (constructed (scenario_state "true")), inr (scenario_instance "true")))
    by (vm_compute; reflexivity).
  assert (HB : 0 < BatchSize (scenario_state "true")) by (vm_compute; reflexivity).
  assert (HC : 0 < CatNum (scenario_state "true")) by (vm_compute; reflexivity).
  assert (Hfit : BatchSize (scenario_state "true") * CatNum (scenario_state "true") * 8 + 32
                 <= 2 ^ 64) by (vm_compute; discriminate).
  pose proof (exactly_one_categorical_buffer bump_external _ _ _ _ _ _ _ E) as P.
  destruct P as (_ & _ & P & _). destruct (P HB HC Hfit) as (A64 & _ & Long & _).
  destruct (Long L) as (N32 & b & Eb & Ty & S).
  split; [exact L|]. split; [exact N32|]. split; [rewrite A64; exact L|].
  exists b. split; [exact Eb|]. split; [exact Ty|]. rewrite S. vm_compute. reflexivity.
Defined.

(** C7, counterexample: a model with [max_batch_size] 0, which is how a
    configuration says that the model does not batch, and long keys.  The
    model loads and an instance is constructed; its 64-bit categorical
    buffer is created with capacity 0, so that neither categorical buffer
    reports itself allocated. *)
Lemma unbatched_model_has_no_allocated_categorical_buffer :
  exists ms inst,
    TRITONBACKEND_ModelInitialize
      (model_with_config (config_json 0 "TYPE_FP32" (scenario_parameters "true")))
    = inr (OK ms)
    /\ snd (constructed ms) = inr inst
    /\ buffer_created (cat_column_index_buf_int64 inst) = true
    /\ buffer_allocated (cat_column_index_buf_int64 inst) = false
    /\ buffer_allocated (cat_column_index_buf_int32 inst) = false.
Proof.
  eexists. eexists. split; [vm_compute; reflexivity|].
  split; [vm_compute; reflexivity|]. repeat split.
Qed.

(* ================================================================== *)
(** * Properties of configuration parsing and model load *)

Lemma stoi_throws (s : string) (exn : abort) :
  stoi s = inl exn -> exn = std_invalid_argument "stoi" \/ exn = std_out_of_range "stoi".
Proof.
  unfold stoi.
  destruct (match skip_spaces s with
            | String "-"%char rest => (true, rest)
            | String "+"%char rest => (false, rest)
            | _ => (false, skip_spaces s)
            end) as [negative digits].
  destruct (read_digits digits None) as [v|].
  - destruct (_ || _); intro H; inversion H. now right.
  - intro H. inversion H. now left.
Qed.

Lemma stoi_parameter_throws (parameters : Json) (key : string) (field : Z) (exn : abort) :
  stoi_parameter parameters key field = inl exn ->
  exn = std_invalid_argument "stoi" \/ exn = std_out_of_range "stoi".
Proof.
  unfold stoi_parameter. destruct (Find parameters key); [apply stoi_throws|discriminate].
Qed.

(** C9, as amended.  When a numeric field ([slots], [des_feature_num],
    [cat_feature_num], [embedding_vector_size] or [max_nnz]) is present with
    a text that [std::stoi] rejects, [ParseModelConfig] does not return: the
    [std::invalid_argument] or [std::out_of_range] of [std::stoi] leaves it
    as an exception.  The same exception leaves
    [TRITONBACKEND_ModelInitialize] for every model with that configuration
    whose calls on the host succeed: model load neither returns an error nor
    returns success. *)
Theorem malformed_number_throws (ms : ModelState) (parameters v : Json) (key : string)
    (exn : abort) :
  Find (model_config_ ms) "parameters" = Some parameters ->
  In key numeric_keys ->
  Find parameters key = Some v ->
  stoi (string_value v) = inl exn ->
  exists thrown,
    (thrown = std_invalid_argument "stoi" \/ thrown = std_out_of_range "stoi")
    /\ ParseModelConfig ms = inl thrown
    /\ forall model name version repository table_int32 table_int64,
         TRITONBACKEND_ModelName model = OK name ->
         TRITONBACKEND_ModelVersion model = OK version ->
         TRITONBACKEND_ModelRepository model = OK repository ->
         TRITONBACKEND_BackendState model = OK (table_int32, table_int64) ->
         TRITONBACKEND_ModelSetState model = None ->
         ModelState_Create model table_int32 table_int64 = OK ms ->
         TRITONBACKEND_ModelInitialize model = inl thrown.
Proof.
  intros HP HK HF HS.
  assert (Parse : exists thrown,
            ParseModelConfig ms = inl thrown
            /\ (thrown = std_invalid_argument "stoi" \/ thrown = std_out_of_range "stoi")).
  { assert (K' : forall field, stoi_parameter parameters key field = inl exn)
      by (intro; unfold stoi_parameter; now rewrite HF).
    unfold ParseModelConfig. rewrite HP. unfold bind_abort.
    destruct (stoi_parameter parameters "slots" _) as [e1|s1] eqn:E1;
      [exists e1; split; [reflexivity | eapply stoi_parameter_throws; eassumption]|].
    destruct (stoi_parameter parameters "des_feature_num" _) as [e2|s2] eqn:E2;
      [exists e2; split; [reflexivity | eapply stoi_parameter_throws; eassumption]|].
    destruct (stoi_parameter parameters "cat_feature_num" _) as [e3|s3] eqn:E3;
      [exists e3; split; [reflexivity | eapply stoi_parameter_throws; eassumption]|].
    destruct (stoi_parameter parameters "embedding_vector_size" _) as [e4|s4] eqn:E4;
      [exists e4; split; [reflexivity | eapply stoi_parameter_throws; eassumption]|].
    destruct (stoi_parameter parameters "max_nnz" _) as [e5|s5] eqn:E5;
      [exists e5; split; [reflexivity | eapply stoi_parameter_throws; eassumption]|].
    exfalso. cbn [numeric_keys In] in HK.
    destruct HK as [<-|[<-|[<-|[<-|[<-|[]]]]]];
      [rewrite K' in E1 | rewrite K' in E2 | rewrite K' in E3
       | rewrite K' in E4 | rewrite K' in E5]; discriminate. }
  destruct Parse as (thrown & Parse & Kind).
  exists thrown. split; [exact Kind|]. split; [exact Parse|].
  intros model name version repository table_int32 table_int64 HN HV HR HB HSet HC.
  unfold TRITONBACKEND_ModelInitialize.
  rewrite HN, HV, HR, HB, HSet, HC. unfold bind_abort. now rewrite Parse.
Qed.

(** C9, witness: [slots] set to [abc]. *)
Lemma malformed_number_throws_witness :
  ParseModelConfig
    (ModelState_new "dcn" 1 (config_json 64 "TYPE_FP32" [string_parameter "slots" "abc"]) 0 0)
  = inl (std_invalid_argument "stoi")
  /\ TRITONBACKEND_ModelInitialize
       (model_with_config (config_json 64 "TYPE_FP32" [string_parameter "slots" "abc"]))
     = inl (std_invalid_argument "stoi").
Proof.
  pose proof (malformed_number_throws
                (ModelState_new "dcn" 1
                   (config_json 64 "TYPE_FP32" [string_parameter "slots" "abc"]) 0 0)
                (JObject [string_parameter "slots" "abc"])
                (JObject [("string_value"%string, JString "abc")])
                "slots" (std_invalid_argument "stoi")
                eq_refl (or_introl eq_refl) eq_refl eq_refl) as P.
  destruct P as (thrown & _ & E & Load).
  specialize (Load (model_with_config
                      (config_json 64 "TYPE_FP32" [string_parameter "slots" "abc"]))
                "dcn"%string 1 "/models/dcn"%string 0 0
                eq_refl eq_refl eq_refl eq_refl eq_refl eq_refl).
  rewrite Load, E. vm_compute in E. inversion E. split; reflexivity.
Defined.

(** C9, counterexample: with [slots] set to [abc], model load ends in an
    uncaught [std::invalid_argument] and returns no error; with [slots] set
    to [12abc], it returns success and goes on with 12 slots. *)
Lemma malformed_number_is_not_reported :
  TRITONBACKEND_ModelInitialize
    (model_with_config (config_json 64 "TYPE_FP32" [string_parameter "slots" "abc"]))
  = inl (std_invalid_argument "stoi")
  /\ exists ms,
       TRITONBACKEND_ModelInitialize
         (model_with_config (config_json 64 "TYPE_FP32" [string_parameter "slots" "12abc"]))
       = inr (OK ms)
       /\ SlotNum ms = 12.
Proof.
  split; [vm_compute; reflexivity|]. eexists. split; vm_compute; reflexivity.
Qed.

(** C2, on the code.  A configuration whose first input is [TYPE_FP32] and
    whose output is [TYPE_INT32] loads: [TRITONBACKEND_ModelInitialize]
    returns success, although [ValidateModelConfig], which it never calls,
    rejects the very model state it attaches; an instance is then
    constructed for the model. *)
Theorem model_load_skips_validation :
  exists ms,
    TRITONBACKEND_ModelInitialize
      (model_with_config (config_json 64 "TYPE_INT32" (scenario_parameters "false")))
    = inr (OK ms)
    /\ ValidateModelConfig ms
       = Some (TRITONSERVER_ErrorNew TRITONSERVER_ERROR_INVALID_ARG
                 "expected input and output datatype to match, got TYPE_FP32 and TYPE_INT32")
    /\ exists inst, snd (constructed ms) = inr inst.
Proof.
  eexists. split; [vm_compute; reflexivity|].
  split; [vm_compute; reflexivity|]. eexists. vm_compute. reflexivity.
Qed.

(* ================================================================== *)
(** * Properties of the request loop *)

Lemma to_int64_small (z : Z) : - 2 ^ 63 <= z < 2 ^ 63 -> to_int64 z = z.
Proof. intro H. unfold to_int64. rewrite Z.mod_small; lia. Qed.

(** With a positive number of dense features the code computes the sample
    count of the specification. *)
Lemma numofsample_sample_count (ms : ModelState) (des : InputProperties) :
  0 < DeseNum ms ->
  numofsample ms (to_size_t (byte_size des)) = inr (sample_count ms des)
  /\ 0 <= sample_count ms des < 2 ^ 62.
Proof.
  intro HD. unfold numofsample, sample_count, numofdes. cbn [sizeof].
  pose proof (to_size_t_range (byte_size des)) as R.
  assert (Q : 0 <= to_size_t (byte_size des) / 4 < 2 ^ 62).
  { split; [apply Z.div_pos; lia|]. apply Z.div_lt_upper_bound; lia. }
  destruct (DeseNum ms =? 0) eqn:E; [apply Z.eqb_eq in E; lia|].
  rewrite to_int64_small by lia. rewrite Z.quot_div_nonneg by lia.
  split; [reflexivity|]. split; [apply Z.div_pos; lia|].
  apply Z.div_lt_upper_bound; nia.
Qed.

Section ExecuteProperties.
Context (ext : External).

Lemma read_inputs_output_name (request : TRITONBACKEND_Request) (count : Z)
    (inputs : request_inputs) :
  read_inputs request count = OK inputs ->
  if 0 <? count
  then exists name, requested_output_name inputs = Some name
  else requested_output_name inputs = None.
Proof.
  unfold read_inputs, bind_result.
  repeat match goal with
         | |- context [match TRITONBACKEND_RequestInputName ?r ?i with _ => _ end] =>
             destruct (TRITONBACKEND_RequestInputName r i); [|discriminate]
         | |- context [match TRITONBACKEND_RequestInput ?r ?n with _ => _ end] =>
             destruct (TRITONBACKEND_RequestInput r n); [|discriminate]
         end.
  destruct (0 <? count).
  - destruct (TRITONBACKEND_RequestOutputName request 0); [|discriminate].
    intro H. inversion H. cbn. eauto.
  - intro H. inversion H. reflexivity.
Qed.

Lemma guarded_keeps_pending (A : Type) (s s' : response_slot) (X : result A) (out a : A)
    (r : TRITONBACKEND_Response) :
  GUARDED_RESPOND_IF_ERROR s X out = (s', a) -> s' = pending r -> s = pending r.
Proof.
  unfold GUARDED_RESPOND_IF_ERROR. destruct s; [destruct X|]; intros H E;
    inversion H; subst; congruence.
Qed.

Lemma cudaMemcpy_to_host_data (m : Memory) (capacity : Z) (src : pointer) (count : Z)
    (data : list Z) :
  cudaMemcpy_to_host m capacity src count = inr data -> data = load_bytes m src count.
Proof.
  unfold cudaMemcpy_to_host. destruct (count =? 0) eqn:E.
  - apply Z.eqb_eq in E. subst. intro H. inversion H. reflexivity.
  - destruct (src =? nullptr); [discriminate|].
    destruct (capacity <? count); [discriminate|]. intro H. now inversion H.
Qed.

Lemma load_bytes_length (m : Memory) (src : pointer) (count : Z) :
  List.length (load_bytes m src count) = Z.to_nat count.
Proof. unfold load_bytes. now rewrite length_map, length_seq. Qed.

(** One pass through the body of the buffer loop that does not abort: the
    bytes copied out are those of the prediction buffer after [predict], one
    call of [predict] is added, and a response still pending afterwards was
    pending before. *)
Lemma stage_and_predict_ok (inst : ModelInstanceState) (inputs : request_inputs)
    (des_byte_size n : Z) (st st' : staging) (b : Z) :
  stage_and_predict ext inst inputs des_byte_size n st b = inr st' ->
  copied_out st' = load_bytes (mem st') (get_ptr (prediction_buf inst))
                     (to_size_t (n * sizeof c_float))
  /\ (exists call, calls st' = calls st ++ [call] /\ predict_numofsamples call = n)
  /\ (forall r, slot st' = pending r -> slot st = pending r).
Proof.
  unfold stage_and_predict, bind_abort.
  destruct (GUARDED_RESPOND_IF_ERROR (slot st) _ _) as [slot1 des_buffer] eqn:G1.
  destruct (cudaMemcpy_from_host (mem st) _ _ _) as [|mem1]; [discriminate|].
  destruct (GUARDED_RESPOND_IF_ERROR slot1 _ _) as [slot2 cat_buffer] eqn:G2.
  destruct (cat_ptr inst) as [|cat] eqn:C; [discriminate|].
  destruct (cudaMemcpy_from_host mem1 _ _ _) as [|mem2]; [discriminate|].
  destruct (GUARDED_RESPOND_IF_ERROR slot2 _ _) as [slot3 row_buffer] eqn:G3.
  destruct (cudaMemcpy_from_host mem2 _ _ _) as [|mem3]; [discriminate|].
  destruct (ProcessRequest ext inst n mem3) as [|[mem4 call]] eqn:P; [discriminate|].
  destruct (cudaMemcpy_to_host mem4 _ _ _) as [|data] eqn:D; [discriminate|].
  intro H. inversion H; subst; clear H. cbn [copied_out mem calls slot].
  split; [now apply cudaMemcpy_to_host_data in D|]. split.
  - exists call. split; [reflexivity|].
    unfold ProcessRequest, bind_abort in P. rewrite C in P.
    destruct (hugectr_predict ext _ _ _ _ _ _); inversion P. reflexivity.
  - intros r E.
    eapply guarded_keeps_pending in G3; [|exact E].
    eapply guarded_keeps_pending in G2; [|exact G3].
    eapply guarded_keeps_pending in G1; [|exact G2]. exact G1.
Qed.

Lemma for_each_buffer_ok (inst : ModelInstanceState) (inputs : request_inputs)
    (des_byte_size n : Z) (bs : list Z) (st st' : staging) :
  for_each_buffer (stage_and_predict ext inst inputs des_byte_size n) bs st = inr st' ->
  (forall r, slot st' = pending r -> slot st = pending r)
  /\ (bs <> [] ->
      copied_out st' = load_bytes (mem st') (get_ptr (prediction_buf inst))
                         (to_size_t (n * sizeof c_float)))
  /\ (bs = [] -> st' = st)
  /\ (exists cs, calls st' = calls st ++ cs
                 /\ List.length cs = List.length bs
                 /\ Forall (fun call => predict_numofsamples call = n) cs).
Proof.
  revert st. induction bs as [|b rest IH]; intros st; cbn [for_each_buffer].
  - intro H. inversion H; subst. repeat split; auto; try congruence.
    exists []. rewrite app_nil_r. auto.
  - unfold bind_abort.
    destruct (stage_and_predict ext inst inputs des_byte_size n st b) as [|st1] eqn:S;
      [discriminate|].
    intro H. apply stage_and_predict_ok in S. destruct S as (S1 & (call & S2 & S2') & S3).
    destruct (IH _ H) as (I1 & I2 & I3 & (cs & I4 & I5 & I6)).
    split; [auto|]. split; [|split; [discriminate|]].
    + intros _. destruct rest as [|b' rest'].
      * rewrite (I3 eq_refl). exact S1.
      * apply I2. discriminate.
    + exists (call :: cs). rewrite I4, S2, <- app_assoc. cbn. auto.
Qed.

Lemma buffer_indices_nonempty (count : Z) : 0 < count -> buffer_indices count <> [].
Proof.
  intro H. unfold buffer_indices.
  destruct (Z.to_nat count) eqn:E; [lia|]. cbn. discriminate.
Qed.

(** The block under [if (requested_output_count > 0)] when it ends with the
    response still pending. *)
Lemma produce_output_pending (inst : ModelInstanceState) (request : TRITONBACKEND_Request)
    (inputs : request_inputs) (name : string) (cat row des : InputProperties) (m : Memory)
    (st : staging) (r : TRITONBACKEND_Response) :
  produce_output ext inst request inputs name cat row des m = inr st ->
  slot st = pending r ->
  exists n,
    numofsample (StateForModel inst) (to_size_t (byte_size des)) = inr n
    /\ n <= BatchSize (StateForModel inst)
    /\ r = {| response_outputs :=
                [{| output_name := name;
                    output_datatype := datatype des;
                    output_shape := [n];
                    output_buffer_byte_size := get_buffer_size (dense_value_buf inst);
                    output_data := copied_out st |}];
              response_parameters := [] |}
    /\ (0 < buffer_count des ->
        copied_out st = load_bytes (mem st) (get_ptr (prediction_buf inst))
                          (to_size_t (n * sizeof c_float)))
    /\ List.length (calls st) = List.length (buffer_indices (buffer_count des))
    /\ Forall (fun call => predict_numofsamples call = n) (calls st).
Proof.
  unfold produce_output, bind_abort.
  destruct (numofsample (StateForModel inst) _) as [|n] eqn:N; [discriminate|].
  cbn [slot cat_byte_size row_byte_size].
  destruct (BatchSize (StateForModel inst) <? n) eqn:B.
  { cbn. intros H E. inversion H; subst. discriminate. }
  apply Z.ltb_ge in B.
  destruct (TRITONBACKEND_ResponseOutput request name (datatype des) [n]);
    cbn [status GUARDED_RESPOND_IF_ERROR fst with_response is_null].
  { intros H E. inversion H; subst. discriminate. }
  destruct (TRITONBACKEND_OutputBuffer request _);
    cbn [status GUARDED_RESPOND_IF_ERROR fst with_response is_null].
  { intros H E. inversion H; subst. discriminate. }
  destruct (for_each_buffer _ _ _) as [|st0] eqn:F; [discriminate|].
  intros H E. inversion H; subst; clear H. cbn [slot mem calls copied_out] in *.
  apply for_each_buffer_ok in F. destruct F as (F1 & F2 & _ & (cs & F4 & F5 & F6)).
  cbn [slot calls app] in *.
  destruct (slot st0) as [r0|] eqn:S0; [|discriminate].
  cbn [with_response] in E. inversion E; subst; clear E.
  specialize (F1 _ eq_refl). inversion F1; subst; clear F1.
  exists n. split; [reflexivity|]. split; [exact B|]. split; [reflexivity|].
  split; [intro Hc; apply F2; now apply buffer_indices_nonempty|].
  split; assumption.
Qed.

(** The same block for a sample count above the maximum batch size. *)
Lemma produce_output_overflow (inst : ModelInstanceState) (request : TRITONBACKEND_Request)
    (inputs : request_inputs) (name : string) (cat row des : InputProperties) (m : Memory)
    (n : Z) :
  numofsample (StateForModel inst) (to_size_t (byte_size des)) = inr n ->
  BatchSize (StateForModel inst) < n ->
  produce_output ext inst request inputs name cat row des m
  = inr {| slot := error_sent empty_response overflow_error;
           mem := m;
           calls := [];
           cat_byte_size := to_size_t (byte_size cat);
           row_byte_size := to_size_t (byte_size row);
           copied_out := [] |}.
Proof.
  intros N B. unfold produce_output, bind_abort. rewrite N.
  apply Z.ltb_lt in B. cbn [slot]. rewrite B. reflexivity.
Qed.

Lemma run_requests_app (inst : ModelInstanceState) (sb : bool) (l1 l2 : list TRITONBACKEND_Request)
    (m : Memory) :
  run_requests ext inst sb m (l1 ++ l2) =
  match run_requests ext inst sb m l1 with
  | inl e => inl e
  | inr effects1 =>
      match run_requests ext inst sb (final_memory m effects1) l2 with
      | inl e => inl e
      | inr effects2 => inr (effects1 ++ effects2)
      end
  end.
Proof.
  revert m. induction l1 as [|r l1 IH]; intro m; cbn [app run_requests].
  - cbn. destruct (run_requests ext inst sb m l2); reflexivity.
  - unfold bind_abort. destruct (process_request ext inst sb m r) as [|eff]; [reflexivity|].
    rewrite IH. destruct (run_requests ext inst sb (memory_after eff) l1) as [|effects1];
      [reflexivity|].
    cbn [final_memory fold_left].
    destruct (run_requests ext inst sb _ l2); reflexivity.
Qed.

Lemma run_requests_length (inst : ModelInstanceState) (sb : bool)
    (l : list TRITONBACKEND_Request) (m : Memory) (effects : list request_effect) :
  run_requests ext inst sb m l = inr effects -> List.length effects = List.length l.
Proof.
  revert m effects. induction l as [|r l IH]; intros m effects; cbn [run_requests].
  - intro H. inversion H. reflexivity.
  - unfold bind_abort. destruct (process_request ext inst sb m r) as [|eff]; [discriminate|].
    destruct (run_requests ext inst sb (memory_after eff) l) as [|effs] eqn:R; [discriminate|].
    intro H. inversion H. cbn. f_equal. eapply IH. exact R.
Qed.

Lemma create_responses_insert (before after : list TRITONBACKEND_Request)
    (request : TRITONBACKEND_Request) :
  TRITONBACKEND_ResponseNew request = None ->
  create_responses (before ++ request :: after) = create_responses (before ++ after).
Proof.
  intro H. induction before as [|r before IH]; cbn [app create_responses].
  - now rewrite H.
  - destruct (TRITONBACKEND_ResponseNew r); [reflexivity | exact IH].
Qed.

(** C1.  A request for which the loop computes a sample count above the
    maximum batch size (a response could be created for it, its counts,
    inputs and properties are read without error, it asks for an output, and
    the number of dense features is not zero) gets the error response "The
    number of Input sample greater than max batch size"; [predict] is not
    called for it and device memory is left as it was.  In a call of
    [TRITONBACKEND_ModelInstanceExecute] the requests before and after it
    leave exactly what they leave in the call without it: the same
    responses, the same calls of [predict], the same memory, or the same
    error or abort of the whole call. *)
Theorem overflow_request_fails_alone (inst : ModelInstanceState)
    (bad : TRITONBACKEND_Request) (counts : request_counts) (inputs : request_inputs)
    (cat row des : InputProperties) (n : Z) :
  TRITONBACKEND_ResponseNew bad = None ->
  read_counts bad = OK counts ->
  0 < requested_output_count counts ->
  read_inputs bad (requested_output_count counts) = OK inputs ->
  read_properties inputs = inr (cat, row, des) ->
  numofsample (StateForModel inst) (to_size_t (byte_size des)) = inr n ->
  BatchSize (StateForModel inst) < n ->
  (forall sb m,
     process_request ext inst sb m bad = inr (overflow_effect m (batch_size_of sb des)))
  /\ (forall FIRST_DIM batch_properties before after m,
      match TRITONBACKEND_ModelInstanceExecute ext FIRST_DIM inst batch_properties m
              (before ++ after) with
      | inl e =>
          TRITONBACKEND_ModelInstanceExecute ext FIRST_DIM inst batch_properties m
            (before ++ bad :: after) = inl e
      | inr (Err e) =>
          TRITONBACKEND_ModelInstanceExecute ext FIRST_DIM inst batch_properties m
            (before ++ bad :: after) = inr (Err e)
      | inr (OK report) =>
          exists effects1 effects2 added,
            effects report = effects1 ++ effects2
            /\ List.length effects1 = List.length before
            /\ TRITONBACKEND_ModelInstanceExecute ext FIRST_DIM inst batch_properties m
                 (before ++ bad :: after)
               = inr (OK (let all := effects1
                                     ++ overflow_effect (final_memory m effects1) added
                                     :: effects2 in
                          {| effects := all; total_batch_size := sum_batch_sizes all |}))
      end).
Proof.
  intros HR HC HO HI HP HN HB.
  pose proof (read_inputs_output_name _ _ _ HI) as Hname.
  apply Z.ltb_lt in HO. rewrite HO in Hname. destruct Hname as [name Hname].
  assert (Step : forall sb m, process_request ext inst sb m bad
                 = inr (overflow_effect m (batch_size_of sb des))).
  { intros sb m. unfold process_request. rewrite HC, HI. unfold bind_abort. rewrite HP.
    rewrite Hname. cbn [log_requested_output]. rewrite HO.
    rewrite (produce_output_overflow inst bad inputs name cat row des m n HN HB).
    reflexivity. }
  split; [exact Step|].
  intros FIRST_DIM batch_properties before after m.
  unfold TRITONBACKEND_ModelInstanceExecute.
  destruct (SupportsFirstDimBatching FIRST_DIM (StateForModel inst) batch_properties)
    as [[ms' sb]|e]; [|reflexivity].
  rewrite (create_responses_insert before after bad HR).
  destruct (create_responses (before ++ after)); [reflexivity|].
  unfold bind_abort at 1 3. rewrite !run_requests_app.
  destruct (run_requests ext inst sb m before) as [e|effects1] eqn:R1; [reflexivity|].
  cbn [run_requests]. unfold bind_abort. rewrite Step. cbn [memory_after overflow_effect].
  destruct (run_requests ext inst sb (final_memory m effects1) after) as [e|effects2];
    [reflexivity|].
  exists effects1, effects2, (batch_size_of sb des).
  split; [reflexivity|]. split; [|reflexivity].
  eapply run_requests_length. exact R1.
Qed.

(** C8.  When a request that asks for an output is answered with a success
    response, the response carries one output tensor whose shape is the
    request's own sample count, which is at most the maximum batch size;
    when the dense input has at least one buffer, the bytes copied into the
    tensor are the first [sample_count * sizeof(float)] bytes of the
    prediction buffer as the last call of [predict] left it, and every call
    of [predict] was made with that sample count.  The sample count is the
    number of [float]s of the dense input divided by the number of dense
    features; the maximum batch size does not enter it. *)
Theorem output_length_is_sample_count (inst : ModelInstanceState) (sb : bool) (m : Memory)
    (request : TRITONBACKEND_Request) (eff : request_effect) (counts : request_counts)
    (inputs : request_inputs) (cat row des : InputProperties) :
  read_counts request = OK counts ->
  0 < requested_output_count counts ->
  read_inputs request (requested_output_count counts) = OK inputs ->
  read_properties inputs = inr (cat, row, des) ->
  0 < DeseNum (StateForModel inst) ->
  process_request ext inst sb m request = inr eff ->
  sent_error eff = None ->
  let n := sample_count (StateForModel inst) des in
  n <= BatchSize (StateForModel inst)
  /\ exists o,
       response_outputs (sent_response eff) = [o]
       /\ output_shape o = [n]
       /\ output_datatype o = datatype des
       /\ (0 < buffer_count des ->
           output_data o = load_bytes (memory_after eff) (get_ptr (prediction_buf inst))
                             (n * sizeof c_float)
           /\ Z.of_nat (List.length (output_data o)) = n * sizeof c_float
           /\ predict_calls eff <> []
           /\ Forall (fun call => predict_numofsamples call = n) (predict_calls eff)).
Proof.
  intros HC HO HI HP HD HR HS. cbv zeta.
  pose proof (read_inputs_output_name _ _ _ HI) as Hname.
  apply Z.ltb_lt in HO. rewrite HO in Hname. destruct Hname as [name Hname].
  unfold process_request in HR. rewrite HC, HI in HR. unfold bind_abort in HR.
  rewrite HP, Hname in HR. cbn [log_requested_output] in HR. rewrite HO in HR.
  destruct (produce_output ext inst request inputs name cat row des m) as [|st] eqn:P;
    [discriminate|].
  inversion HR; subst; clear HR. unfold finish in *.
  destruct (slot st) as [r|r e] eqn:S; [|discriminate].
  destruct (produce_output_pending _ _ _ _ _ _ _ _ _ _ P S)
    as (n & N & B & R & Data & Len & Calls).
  destruct (numofsample_sample_count (StateForModel inst) des HD) as (N' & Rn).
  rewrite N' in N. inversion N; subst n; clear N.
  split; [exact B|].
  cbn [sent_response response_outputs memory_after predict_calls].
  subst r. cbn [response_outputs].
  eexists. split; [reflexivity|]. cbn [output_shape output_datatype output_data].
  split; [reflexivity|]. split; [reflexivity|].
  intro Hb. specialize (Data Hb). cbn [sizeof] in *.
  rewrite to_size_t_small in Data by lia.
  split; [exact Data|]. split; [rewrite Data, load_bytes_length; lia|].
  split; [|exact Calls].
  intro E. rewrite E in Len. cbn in Len.
  pose proof (buffer_indices_nonempty _ Hb) as NE.
  destruct (buffer_indices (buffer_count des)); [congruence|discriminate].
Qed.

(** C10, on the code.  A request whose counts and inputs are read without
    error and that asks for no output never reaches the overflow check, the
    copies or [predict]; it does not reach the response parameters or
    [TRITONBACKEND_ResponseSend] either: [requested_output_name] is still
    null when the log line of lines 1377-1379 appends it to a
    [std::string], and from there the behaviour is undefined. *)
Theorem no_output_requested_is_undefined (inst : ModelInstanceState) (sb : bool) (m : Memory)
    (request : TRITONBACKEND_Request) (counts : request_counts) (inputs : request_inputs) :
  read_counts request = OK counts ->
  requested_output_count counts = 0 ->
  read_inputs request 0 = OK inputs ->
  exists what, process_request ext inst sb m request = inl (undefined_behaviour what).
Proof.
  intros HC H0 HI.
  pose proof (read_inputs_output_name _ _ _ HI) as Hname. cbn in Hname.
  unfold process_request. rewrite HC, H0, HI. unfold bind_abort, read_properties.
  destruct (TRITONBACKEND_InputProperties (catcol_input inputs)); [|eauto].
  destruct (TRITONBACKEND_InputProperties (row_input inputs)); [|eauto].
  destruct (TRITONBACKEND_InputProperties (des_input inputs)); [|eauto].
  rewrite Hname. cbn. eauto.
Qed.

End ExecuteProperties.

(** C1, witness: scenario B.  A request of 100 samples, above the maximum of
    64, followed by a request of 10 samples in the same call: the first is
    answered with the error and makes no call of [predict], the second is
    answered with a success. *)
Lemma overflow_request_fails_alone_witness :
  exists rejected served total,
    TRITONBACKEND_ModelInstanceExecute bump_external 2 (scenario_instance "false") (OK 2)
      zero_memory [request_of 100 1; request_of 10 1]
    = inr (OK {| effects := [rejected; served]; total_batch_size := total |})
    /\ sent_error rejected = Some overflow_error
    /\ predict_calls rejected = []
    /\ sent_error served = None.
Proof.
  destruct (overflow_request_fails_alone bump_external (scenario_instance "false")
              (request_of 100 1)
              {| request_id := ""; correlation_id := 0; input_count := 3;
                 requested_output_count := 1 |}
              {| des_input := input_of TRITONSERVER_TYPE_FP32 [100; 13] (100 * 13 * 4);
                 catcol_input := input_of TRITONSERVER_TYPE_UINT32 [100; 26] (100 * 26 * 4);
                 row_input := input_of TRITONSERVER_TYPE_INT32 [100 * 26 + 1]
                                ((100 * 26 + 1) * 4);
                 requested_output_name := Some "OUTPUT0"%string |}
              {| datatype := TRITONSERVER_TYPE_UINT32; shape := [100; 26];
                 byte_size := 100 * 26 * 4; buffer_count := 1 |}
              {| datatype := TRITONSERVER_TYPE_INT32; shape := [100 * 26 + 1];
                 byte_size := (100 * 26 + 1) * 4; buffer_count := 1 |}
              {| datatype := TRITONSERVER_TYPE_FP32; shape := [100; 13];
                 byte_size := 100 * 13 * 4; buffer_count := 1 |}
              100
              eq_refl eq_refl eq_refl eq_refl eq_refl
              ltac:(vm_compute; reflexivity) ltac:(vm_compute; reflexivity))
    as (_ & Batch).
  assert (Served : exists served,
            process_request bump_external (scenario_instance "false") true zero_memory
              (request_of 10 1) = inr served
            /\ sent_error served = None).
  { assert (S : match process_request bump_external (scenario_instance "false") true
                        zero_memory (request_of 10 1) with
                | inr eff => sent_error eff
                | inl _ => Some overflow_error
                end = None) by (vm_compute; reflexivity).
    destruct (process_request bump_external (scenario_instance "false") true zero_memory
                (request_of 10 1)) as [|served]; [discriminate S|].
    exists served. split; [reflexivity | exact S]. }
  destruct Served as (served & P & S).
  assert (Alone : TRITONBACKEND_ModelInstanceExecute bump_external 2
                    (scenario_instance "false") (OK 2) zero_memory [request_of 10 1]
                  = inr (OK {| effects := [served];
                               total_batch_size := sum_batch_sizes [served] |})).
  { unfold TRITONBACKEND_ModelInstanceExecute.
    assert (B : exists ms',
              SupportsFirstDimBatching 2 (StateForModel (scenario_instance "false")) (OK 2)
              = OK (ms', true)) by (eexists; vm_compute; reflexivity).
    destruct B as (ms' & B).
    rewrite B. cbn [create_responses request_of TRITONBACKEND_ResponseNew run_requests].
    unfold bind_abort. rewrite P. reflexivity. }
  specialize (Batch 2 (OK 2) [] [request_of 10 1] zero_memory).
  cbn [app] in Batch. rewrite Alone in Batch.
  destruct Batch as (effects1 & effects2 & added & Split & Len & Run).
  destruct effects1; [|discriminate Len]. cbn [app effects] in Split, Run.
  exists (overflow_effect (final_memory zero_memory []) added), served.
  eexists. split; [rewrite Run; rewrite <- Split; reflexivity|].
  split; [reflexivity|]. split; [reflexivity | exact S].
Defined.

(** C8, witness: scenario A.  A request of 10 samples, with 13 dense
    features and batches of at most 64: the output tensor has shape [10] and
    40 bytes, which are 10 [float]s, are copied into it. *)
Lemma output_length_is_sample_count_witness :
  exists eff o,
    process_request bump_external (scenario_instance "false") true zero_memory
      (request_of 10 1) = inr eff
    /\ sent_error eff = None
    /\ response_outputs (sent_response eff) = [o]
    /\ output_shape o = [10]
    /\ Z.of_nat (List.length (output_data o)) = 40.
Proof.
  assert (Served : exists served,
            process_request bump_external (scenario_instance "false") true zero_memory
              (request_of 10 1) = inr served
            /\ sent_error served = None).
  { assert (S : match process_request bump_external (scenario_instance "false") true
                        zero_memory (request_of 10 1) with
                | inr eff => sent_error eff
                | inl _ => Some overflow_error
                end = None) by (vm_compute; reflexivity).
    destruct (process_request bump_external (scenario_instance "false") true zero_memory
                (request_of 10 1)) as [|served]; [discriminate S|].
    exists served. split; [reflexivity | exact S]. }
  destruct Served as (eff & P & S).
  pose proof (output_length_is_sample_count bump_external (scenario_instance "false") true
                zero_memory (request_of 10 1) eff
                {| request_id := ""; correlation_id := 0; input_count := 3;
                   requested_output_count := 1 |}
                {| des_input := input_of TRITONSERVER_TYPE_FP32 [10; 13] (10 * 13 * 4);
                   catcol_input := input_of TRITONSERVER_TYPE_UINT32 [10; 26] (10 * 26 * 4);
                   row_input := input_of TRITONSERVER_TYPE_INT32 [10 * 26 + 1]
                                  ((10 * 26 + 1) * 4);
                   requested_output_name := Some "OUTPUT0"%string |}
                {| datatype := TRITONSERVER_TYPE_UINT32; shape := [10; 26];
                   byte_size := 10 * 26 * 4; buffer_count := 1 |}
                {| datatype := TRITONSERVER_TYPE_INT32; shape := [10 * 26 + 1];
                   byte_size := (10 * 26 + 1) * 4; buffer_count := 1 |}
                {| datatype := TRITONSERVER_TYPE_FP32; shape := [10; 13];
                   byte_size := 10 * 13 * 4; buffer_count := 1 |}
                eq_refl eq_refl eq_refl eq_refl
                ltac:(vm_compute; reflexivity) P S) as T.
  cbv zeta in T. destruct T as (_ & o & Out & Shape & _ & Data).
  destruct (Data ltac:(vm_compute; reflexivity)) as (_ & Len & _).
  exists eff, o. split; [exact P|]. split; [exact S|]. split; [exact Out|].
  split; [rewrite Shape | rewrite Len]; vm_compute; reflexivity.
Defined.

(** C10, witness: the request of scenario A asking for no output. *)
Lemma no_output_requested_is_undefined_witness :
  exists what,
    process_request bump_external (scenario_instance "false") true zero_memory
      (request_of 10 0) = inl (undefined_behaviour what).
Proof.
  exact (no_output_requested_is_undefined bump_external (scenario_instance "false") true
           zero_memory (request_of 10 0)
           {| request_id := ""; correlation_id := 0; input_count := 3;
              requested_output_count := 0 |}
           {| des_input := input_of TRITONSERVER_TYPE_FP32 [10; 13] (10 * 13 * 4);
              catcol_input := input_of TRITONSERVER_TYPE_UINT32 [10; 26] (10 * 26 * 4);
              row_input := input_of TRITONSERVER_TYPE_INT32 [10 * 26 + 1]
                             ((10 * 26 + 1) * 4);
              requested_output_name := None |}
           eq_refl eq_refl eq_refl).
Defined.

(* ================================================================== *)
(** * Further properties of [HugeCTRBuffer] *)

Lemma get_num_elements_from (dimensions : list Z) (a : Z) :
  fold_left (fun elements dim => to_size_t (elements * dim)) dimensions (to_size_t a)
  = to_size_t (a * product dimensions).
Proof.
  revert a. induction dimensions as [|d ds IH]; intro a; cbn [fold_left product fold_right].
  - now rewrite Z.mul_1_r.
  - rewrite IH. fold (product ds). unfold to_size_t.
    rewrite <- Z.mul_assoc, Z.mul_mod_idemp_l by lia. reflexivity.
Qed.

Lemma product_nonneg (dimensions : list Z) :
  Forall (fun d => 0 <= d) dimensions -> 0 <= product dimensions.
Proof.
  induction 1 as [|d ds Hd _ IH]; cbn [product fold_right]; [lia|].
  fold (product ds). nia.
Qed.

(** X1.  [get_num_elements_from_dimensions] is the product of the extents
    in [size_t] arithmetic: the product modulo [2^64], which is the product
    itself when the extents are not negative and it is below [2^64]; for no
    extent at all it is 1. *)
Theorem get_num_elements_is_product (dimensions : list Z) :
  get_num_elements_from_dimensions dimensions = to_size_t (product dimensions)
  /\ get_num_elements_from_dimensions [] = 1
  /\ (Forall (fun d => 0 <= d) dimensions -> product dimensions < 2 ^ 64 ->
      get_num_elements_from_dimensions dimensions = product dimensions).
Proof.
  assert (E : get_num_elements_from_dimensions dimensions = to_size_t (product dimensions)).
  { unfold get_num_elements_from_dimensions. change 1 with (to_size_t 1) at 1.
    rewrite get_num_elements_from. now rewrite Z.mul_1_l. }
  split; [exact E|]. split; [reflexivity|].
  intros Hd Hb. rewrite E. apply to_size_t_small. split; [now apply product_nonneg | exact Hb].
Qed.

(** X1, on the dimensions [64; 13]. *)
Lemma get_num_elements_is_product_witness :
  get_num_elements_from_dimensions [64; 13] = 832.
Proof.
  destruct (get_num_elements_is_product [64; 13]) as (_ & _ & H).
  rewrite H.
  - reflexivity.
  - repeat constructor; discriminate.
  - reflexivity.
Defined.

Section MoreBufferProperties.
Context (ext : External).

(** X2.  On a buffer whose pointer is null, [allocate()] leaves the buffer
    reporting itself allocated exactly when the rounded total is not zero
    and the CUDA call succeeded.  When the CUDA call fails the exception
    leaves a buffer that has lost its reservations and records the capacity
    it did not get, with the pointer still null. *)
Theorem allocate_allocated_iff (T : ctype) (b : HugeCTRBuffer T) (rt : Runtime) :
  ptr_ b = nullptr ->
  let total := to_size_t (sum_ceil32 (reserved_buffers_ b)) in
  (allocated (snd (fst (allocate ext b rt))) = true
   <-> total <> 0 /\ snd (allocate ext b rt) = None)
  /\ (snd (allocate ext b rt) <> None ->
      get_ptr (snd (fst (allocate ext b rt))) = nullptr
      /\ get_buffer_size (snd (fst (allocate ext b rt))) = total
      /\ total <> 0
      /\ reserved_buffers_ (snd (fst (allocate ext b rt))) = []).
Proof.
  intro Hp. cbv zeta. rewrite <- sum_rounded_spec. rewrite allocate_unfold. cbv zeta.
  rewrite Hp. destruct (sum_rounded (reserved_buffers_ b) =? 0) eqn:Z0.
  - apply Z.eqb_eq in Z0. cbn [fst snd]. unfold allocated.
    cbn [total_size_in_bytes_ ptr_]. rewrite Z0. cbn. split.
    + split; [discriminate | intros [H _]; congruence].
    + intro H. congruence.
  - apply Z.eqb_neq in Z0.
    destruct (cuda_alloc ext (acquisitions rt) _ (type b)) as [p|];
      cbn [fst snd]; unfold allocated, get_ptr, get_buffer_size;
      cbn [total_size_in_bytes_ ptr_ reserved_buffers_].
    + apply Z.eqb_neq in Z0. rewrite Z0. cbn. split; [|congruence].
      apply Z.eqb_neq in Z0. split; auto.
    + apply Z.eqb_neq in Z0. rewrite Z0. cbn. apply Z.eqb_neq in Z0. split.
      * split; [discriminate | intros [_ H]; discriminate].
      * auto.
Qed.

(** X3.  A failed [allocate()] cannot be repeated: after the CUDA call has
    failed on a buffer with a null pointer, a second [allocate()] finds the
    reservation list empty, so it acquires nothing and throws nothing, and
    the buffer is left with capacity 0 and a null pointer. *)
Theorem allocate_after_failure_is_empty (T : ctype) (b b1 : HugeCTRBuffer T)
    (rt rt1 : Runtime) (e : abort) :
  ptr_ b = nullptr ->
  allocate ext b rt = (rt1, b1, Some e) ->
  snd (allocate ext b1 rt1) = None
  /\ acquisitions (fst (fst (allocate ext b1 rt1))) = acquisitions rt1
  /\ cerr (fst (fst (allocate ext b1 rt1))) = cerr rt1
  /\ get_buffer_size (snd (fst (allocate ext b1 rt1))) = 0
  /\ get_ptr (snd (fst (allocate ext b1 rt1))) = nullptr
  /\ allocated (snd (fst (allocate ext b1 rt1))) = false.
Proof.
  intros Hp H.
  assert (R : reserved_buffers_ b1 = []).
  { pose proof (allocate_clears_reservations ext T b rt) as P. now rewrite H in P. }
  assert (P1 : ptr_ b1 = nullptr).
  { rewrite allocate_unfold in H. cbv zeta in H.
    destruct (sum_rounded (reserved_buffers_ b) =? 0); [discriminate|].
    destruct (cuda_alloc ext (acquisitions rt) _ (type b)); [discriminate|].
    inversion H; subst. exact Hp. }
  rewrite allocate_unfold. cbv zeta. rewrite R, P1. cbn. repeat split.
Qed.

(** X4.  [allocate()] on a buffer that reports itself allocated and has
    pending reservations of non-zero rounded total only complains on
    [std::cerr]: when the CUDA call succeeds it acquires a second region and
    overwrites pointer and capacity, so that the destructor releases the new
    region and nothing holds the address of the first one any more. *)
Theorem allocate_with_pending_reallocates (T : ctype) (b : HugeCTRBuffer T) (rt : Runtime)
    (p : positive) :
  allocated b = true ->
  let total := to_size_t (sum_ceil32 (reserved_buffers_ b)) in
  total <> 0 ->
  cuda_alloc ext (acquisitions rt) total (type b) = Some p ->
  snd (allocate ext b rt) = None
  /\ cerr (fst (fst (allocate ext b rt)))
     = cerr rt ++ ["WrongInput:Memory has already been allocated."%string]
  /\ acquisitions (fst (fst (allocate ext b rt)))
     = acquisitions rt ++ [{| acq_size := total; acq_type := type b; acq_addr := Some p |}]
  /\ get_ptr (snd (fst (allocate ext b rt))) = Z.pos p
  /\ get_buffer_size (snd (fst (allocate ext b rt))) = total
  /\ destructor b = Some (get_ptr b, type b)
  /\ destructor (snd (fst (allocate ext b rt))) = Some (Z.pos p, type b).
Proof.
  intros Ha. cbv zeta. rewrite <- sum_rounded_spec. intros Ht Hc.
  pose proof Ha as Ha'. unfold allocated in Ha'. apply andb_prop in Ha'.
  destruct Ha' as [_ Hp].
  rewrite allocate_unfold. cbv zeta. rewrite Hp.
  apply Z.eqb_neq in Ht. rewrite Ht, Hc.
  cbn [fst snd cerr log_cerr acquisitions get_ptr get_buffer_size ptr_ total_size_in_bytes_].
  unfold destructor. rewrite Ha. unfold allocated. cbn [total_size_in_bytes_ ptr_ type].
  rewrite Ht. cbn. repeat split.
Qed.

End MoreBufferProperties.

(** X2, on a fresh buffer with one reservation. *)
Lemma allocate_allocated_iff_witness :
  allocated (snd (fst (allocate bump_external
                         (snd (reserve [3] (create c_float 0 GPU) empty_runtime))
                         empty_runtime))) = true.
Proof.
  apply (allocate_allocated_iff bump_external c_float
           (snd (reserve [3] (create c_float 0 GPU) empty_runtime)) empty_runtime eq_refl).
  split; [vm_compute; discriminate | reflexivity].
Defined.

(** X3, on an allocator whose every call fails. *)
Lemma allocate_after_failure_is_empty_witness :
  let b := snd (reserve [3] (create c_float 0 GPU) empty_runtime) in
  let rt1 := fst (fst (allocate failing_external b empty_runtime)) in
  let b1 := snd (fst (allocate failing_external b empty_runtime)) in
  snd (allocate failing_external b empty_runtime)
    = Some (std_runtime_error "Runtime error: cudaMalloc")
  /\ get_buffer_size b1 = 32
  /\ snd (allocate failing_external b1 rt1) = None
  /\ get_buffer_size (snd (fst (allocate failing_external b1 rt1))) = 0.
Proof.
  cbv zeta.
  destruct (allocate_after_failure_is_empty failing_external c_float
              (snd (reserve [3] (create c_float 0 GPU) empty_runtime))
              (snd (fst (allocate failing_external
                           (snd (reserve [3] (create c_float 0 GPU) empty_runtime))
                           empty_runtime)))
              empty_runtime
              (fst (fst (allocate failing_external
                           (snd (reserve [3] (create c_float 0 GPU) empty_runtime))
                           empty_runtime)))
              (std_runtime_error "Runtime error: cudaMalloc")
              eq_refl eq_refl) as (H1 & _ & _ & H4 & _).
  split; [reflexivity|]. split; [reflexivity|]. split; [exact H1 | exact H4].
Defined.

(** X4, on a buffer allocated once and given a reservation since. *)
Lemma allocate_with_pending_reallocates_witness :
  let b0 := snd (reserve [1] (create c_float 0 GPU) empty_runtime) in
  let rt1 := fst (fst (allocate bump_external b0 empty_runtime)) in
  let b1 := snd (fst (allocate bump_external b0 empty_runtime)) in
  let b2 := snd (reserve [9] b1 rt1) in
  get_ptr b1 = 4096
  /\ get_ptr (snd (fst (allocate bump_external b2 rt1))) = 4128
  /\ get_buffer_size (snd (fst (allocate bump_external b2 rt1))) = 64.
Proof.
  cbv zeta.
  set (b0 := snd (reserve [1] (create c_float 0 GPU) empty_runtime)).
  set (rt1 := fst (fst (allocate bump_external b0 empty_runtime))).
  set (b1 := snd (fst (allocate bump_external b0 empty_runtime))).
  set (b2 := snd (reserve [9] b1 rt1)).
  assert (Ha : allocated b2 = true) by reflexivity.
  assert (Ht : to_size_t (sum_ceil32 (reserved_buffers_ b2)) <> 0)
    by (vm_compute; discriminate).
  assert (Hc : cuda_alloc bump_external (acquisitions rt1)
                 (to_size_t (sum_ceil32 (reserved_buffers_ b2))) (type b2)
               = Some 4128%positive) by (vm_compute; reflexivity).
  destruct (allocate_with_pending_reallocates bump_external c_float b2 rt1 4128%positive
              Ha Ht Hc) as (_ & _ & _ & P4 & P5 & _).
  split; [reflexivity|]. split; [exact P4|]. rewrite P5. vm_compute. reflexivity.
Defined.

(* ================================================================== *)
(** * Further properties of configuration parsing and model load *)

Lemma MemberAsString_object (v : Json) (name s : string) :
  MemberAsString v name = OK s -> exists members, v = JObject members.
Proof.
  unfold MemberAsString, Find. destruct v; try discriminate. eauto.
Qed.

(** X5.  [ValidateModelConfig] accepts a configuration exactly when [input]
    is an array of three values and [output] an array of one, the first
    input and the output are objects with the same [data_type] string, and
    their [dims] are arrays of the same integers. *)
Theorem ValidateModelConfig_accepts_iff (ms : ModelState) :
  ValidateModelConfig ms = None
  <-> exists input second third output dtype dims,
        MemberAsArray (model_config_ ms) "input" = OK [input; second; third]
        /\ MemberAsArray (model_config_ ms) "output" = OK [output]
        /\ MemberAsString input "data_type" = OK dtype
        /\ MemberAsString output "data_type" = OK dtype
        /\ ParseShape input "dims" = OK dims
        /\ ParseShape output "dims" = OK dims.
Proof.
  unfold ValidateModelConfig, RETURN_ERROR_IF_FALSE. split.
  - destruct (MemberAsArray (model_config_ ms) "input") as [inputs|]; [|discriminate].
    destruct (MemberAsArray (model_config_ ms) "output") as [outputs|]; [|discriminate].
    destruct inputs as [|input [|second [|third [|]]]]; cbn [List.length Nat.eqb];
      try discriminate.
    destruct outputs as [|output [|]]; cbn [List.length Nat.eqb]; try discriminate.
    unfold IndexAsObject. cbn [nth_error].
    destruct input; try discriminate. destruct output; try discriminate.
    destruct (MemberAsString (JObject members) "data_type") as [idt|] eqn:DI;
      [|discriminate].
    destruct (MemberAsString (JObject members0) "data_type") as [odt|] eqn:DO;
      [|discriminate].
    destruct (String.eqb idt odt) eqn:E; [|discriminate]. apply String.eqb_eq in E. subst odt.
    destruct (ParseShape (JObject members) "dims") as [ish|] eqn:SI; [|discriminate].
    destruct (ParseShape (JObject members0) "dims") as [osh|] eqn:SO; [|discriminate].
    destruct (list_eq_dec Z.eq_dec ish osh); [|discriminate]. subst osh.
    intros _. exists (JObject members), second, third, (JObject members0), idt, ish.
    repeat split; first [assumption | reflexivity].
  - intros (input & second & third & output & dtype & dims & HI & HO & DI & DO & SI & SO).
    rewrite HI, HO. cbn [List.length Nat.eqb].
    destruct (MemberAsString_object _ _ _ DI) as [mi ->].
    destruct (MemberAsString_object _ _ _ DO) as [mo ->].
    unfold IndexAsObject. cbn [nth_error]. rewrite DI, DO, String.eqb_refl, SI, SO.
    destruct (list_eq_dec Z.eq_dec dims dims); [reflexivity | congruence].
Qed.

(** X6.  [ValidateModelConfig] looks at the second and the third input only
    to count them: two configurations with the same first input and the same
    outputs get the same verdict whatever their other two inputs are. *)
Theorem ValidateModelConfig_ignores_other_inputs (ms ms' : ModelState)
    (input second third second' third' : Json) :
  MemberAsArray (model_config_ ms) "input" = OK [input; second; third] ->
  MemberAsArray (model_config_ ms') "input" = OK [input; second'; third'] ->
  MemberAsArray (model_config_ ms) "output" = MemberAsArray (model_config_ ms') "output" ->
  ValidateModelConfig ms = ValidateModelConfig ms'.
Proof.
  intros H H' HO. unfold ValidateModelConfig. rewrite H, H', HO. reflexivity.
Qed.

Lemma stoi_parameter_taken (parameters : Json) (key : string) (old new : Z) :
  stoi_parameter parameters key old = inr new <-> taken_from parameters key old new.
Proof.
  unfold stoi_parameter, taken_from. destruct (Find parameters key) as [v|].
  - split.
    + intro H. split; [intros v' E; inversion E; subst; exact H | discriminate].
    + intros [H _]. now apply H.
  - split.
    + intro H. inversion H. split; [discriminate | reflexivity].
    + intros [_ H]. now rewrite (H eq_refl).
Qed.

Lemma stoi_parameter_again (parameters : Json) (key : string) (old new : Z) :
  stoi_parameter parameters key old = inr new -> stoi_parameter parameters key new = inr new.
Proof.
  unfold stoi_parameter. destruct (Find parameters key); [auto|]. intro H. now inversion H.
Qed.

Lemma stoi_range (s : string) (z : Z) : stoi s = inr z -> INT_MIN <= z <= INT_MAX.
Proof.
  unfold stoi.
  destruct (match skip_spaces s with
            | String "-"%char rest => (true, rest)
            | String "+"%char rest => (false, rest)
            | _ => (false, skip_spaces s)
            end) as [negative digits].
  destruct (read_digits digits None) as [v|]; [|discriminate].
  destruct ((_ <? INT_MIN) || (INT_MAX <? _)) eqn:E; [discriminate|].
  intro H. inversion H; subst. apply orb_false_elim in E. destruct E as [E1 E2].
  apply Z.ltb_ge in E1, E2. lia.
Qed.

(** What a call of [ParseModelConfig] that returns has done to the model
    state. *)
Lemma ParseModelConfig_returns (ms ms' : ModelState) (err : option TRITONSERVER_Error) :
  ParseModelConfig ms = inr (err, ms') ->
  let p := parameters_of (model_config_ ms) in
  err = None
  /\ stoi_parameter p "slots" (slot_num_ ms) = inr (slot_num_ ms')
  /\ stoi_parameter p "des_feature_num" (dese_num_ ms) = inr (dese_num_ ms')
  /\ stoi_parameter p "cat_feature_num" (cat_num_ ms) = inr (cat_num_ ms')
  /\ stoi_parameter p "embedding_vector_size" (embedding_size_ ms) = inr (embedding_size_ ms')
  /\ stoi_parameter p "max_nnz" (max_nnz_ ms) = inr (max_nnz_ ms')
  /\ cache_size_per ms' = text_parameter p "gpucacheper" (cache_size_per ms)
  /\ hugectr_config_ ms' = text_parameter p "config" (hugectr_config_ ms)
  /\ support_int64_key_ ms'
     = true_parameter p "embeddingkey_long_type" (support_int64_key_ ms)
  /\ support_gpu_cache_ ms' = true_parameter p "gpucache" (support_gpu_cache_ ms)
  /\ max_batch_size_ ms'
     = match MemberAsInt (model_config_ ms) "max_batch_size" with
       | OK z => z
       | Err _ => max_batch_size_ ms
       end
  /\ name_ ms' = name_ ms
  /\ version_ ms' = version_ ms
  /\ model_config_ ms' = model_config_ ms
  /\ supports_batching_initialized_ ms' = supports_batching_initialized_ ms
  /\ supports_batching_ ms' = supports_batching_ ms
  /\ EmbeddingTable_int32 ms' = EmbeddingTable_int32 ms
  /\ EmbeddingTable_int64 ms' = EmbeddingTable_int64 ms.
Proof.
  cbv zeta. unfold ParseModelConfig, parameters_of, bind_abort.
  destruct (Find (model_config_ ms) "parameters") as [p|].
  - destruct (stoi_parameter p "slots" _) as [|a1]; [discriminate|].
    destruct (stoi_parameter p "des_feature_num" _) as [|a2]; [discriminate|].
    destruct (stoi_parameter p "cat_feature_num" _) as [|a3]; [discriminate|].
    destruct (stoi_parameter p "embedding_vector_size" _) as [|a4]; [discriminate|].
    destruct (stoi_parameter p "max_nnz" _) as [|a5]; [discriminate|].
    cbn [model_config_ max_batch_size_]. intro H. inversion H; subst; clear H. cbn.
    repeat split.
  - intro H. inversion H; subst; clear H. cbn. repeat split.
Qed.

(** X7.  [ParseModelConfig] returns, and returns success, whenever every
    numeric key that is present ([slots], [des_feature_num],
    [cat_feature_num], [embedding_vector_size], [max_nnz]) has a text that
    [std::stoi] accepts.  Each of the five fields then holds the value of
    its key's text if the key is present and its former value (the default,
    at model load) if not; [max_batch_size] is taken from the
    configuration when it is an integer there and left alone otherwise. *)
Theorem ParseModelConfig_accepts (ms : ModelState) :
  let p := parameters_of (model_config_ ms) in
  (forall key v, In key numeric_keys -> Find p key = Some v ->
                 exists z, stoi (string_value v) = inr z) ->
  exists ms',
    ParseModelConfig ms = inr (None, ms')
    /\ taken_from p "slots" (slot_num_ ms) (slot_num_ ms')
    /\ taken_from p "des_feature_num" (dese_num_ ms) (dese_num_ ms')
    /\ taken_from p "cat_feature_num" (cat_num_ ms) (cat_num_ ms')
    /\ taken_from p "embedding_vector_size" (embedding_size_ ms) (embedding_size_ ms')
    /\ taken_from p "max_nnz" (max_nnz_ ms) (max_nnz_ ms')
    /\ max_batch_size_ ms'
       = match MemberAsInt (model_config_ ms) "max_batch_size" with
         | OK z => z
         | Err _ => max_batch_size_ ms
         end.
Proof.
  cbv zeta. intro H.
  assert (A : forall key old, In key numeric_keys ->
              exists z, stoi_parameter (parameters_of (model_config_ ms)) key old = inr z).
  { intros key old K. unfold stoi_parameter.
    destruct (Find (parameters_of (model_config_ ms)) key) as [v|] eqn:F; [|eauto].
    exact (H key v K F). }
  destruct (ParseModelConfig ms) as [e|[err ms']] eqn:P.
  - exfalso. unfold ParseModelConfig, bind_abort in P. fold (parameters_of (model_config_ ms)) in A.
    unfold parameters_of in A.
    destruct (Find (model_config_ ms) "parameters") as [p|]; [|discriminate].
    destruct (A "slots"%string (slot_num_ ms)) as [z1 E1]; [cbn; auto|].
    destruct (A "des_feature_num"%string (dese_num_ ms)) as [z2 E2]; [cbn; auto|].
    destruct (A "cat_feature_num"%string (cat_num_ ms)) as [z3 E3]; [cbn; auto|].
    destruct (A "embedding_vector_size"%string (embedding_size_ ms)) as [z4 E4];
      [cbn; auto|].
    destruct (A "max_nnz"%string (max_nnz_ ms)) as [z5 E5]; [cbn; auto 6|].
    rewrite E1, E2, E3, E4, E5 in P. discriminate.
  - apply ParseModelConfig_returns in P. cbv zeta in P.
    destruct P as (-> & S1 & S2 & S3 & S4 & S5 & _ & _ & _ & _ & M & _).
    exists ms'. split; [reflexivity|].
    repeat (split; [now apply stoi_parameter_taken|]). exact M.
Qed.

(** X8.  The two switches are only ever turned on: after
    [ParseModelConfig], [support_int64_key_] (and likewise
    [support_gpu_cache_]) is set if it was set before or if
    [embeddingkey_long_type] ([gpucache]) is present with exactly the text
    [true]; no text turns it off. *)
Theorem ParseModelConfig_switches (ms ms' : ModelState) (err : option TRITONSERVER_Error) :
  ParseModelConfig ms = inr (err, ms') ->
  let p := parameters_of (model_config_ ms) in
  (support_int64_key_ ms' = true
   <-> support_int64_key_ ms = true
       \/ exists v, Find p "embeddingkey_long_type" = Some v /\ string_value v = "true"%string)
  /\ (support_gpu_cache_ ms' = true
      <-> support_gpu_cache_ ms = true
          \/ exists v, Find p "gpucache" = Some v /\ string_value v = "true"%string).
Proof.
  intro P. apply ParseModelConfig_returns in P. cbv zeta in *.
  destruct P as (_ & _ & _ & _ & _ & _ & _ & _ & L & G & _).
  rewrite L, G. unfold true_parameter.
  split.
  - destruct (Find _ "embeddingkey_long_type") as [v|].
    + destruct (String.eqb (string_value v) "true") eqn:E.
      * apply String.eqb_eq in E. split; [eauto | reflexivity].
      * apply String.eqb_neq in E. split; [auto|].
        intros [H|(v' & F & S)]; [exact H|]. inversion F; subst. contradiction.
    + split; [auto|]. intros [H|(v' & F & _)]; [exact H | discriminate].
  - destruct (Find _ "gpucache") as [v|].
    + destruct (String.eqb (string_value v) "true") eqn:E.
      * apply String.eqb_eq in E. split; [eauto | reflexivity].
      * apply String.eqb_neq in E. split; [auto|].
        intros [H|(v' & F & S)]; [exact H|]. inversion F; subst. contradiction.
    + split; [auto|]. intros [H|(v' & F & _)]; [exact H | discriminate].
Qed.

(** X9.  A numeric field that [ParseModelConfig] took from the configuration
    fits an [int]; nothing else is checked, so a zero or a negative count is
    stored as it is. *)
Theorem ParseModelConfig_numeric_range (ms ms' : ModelState)
    (err : option TRITONSERVER_Error) :
  ParseModelConfig ms = inr (err, ms') ->
  let p := parameters_of (model_config_ ms) in
  (Find p "slots" <> None -> INT_MIN <= SlotNum ms' <= INT_MAX)
  /\ (Find p "des_feature_num" <> None -> INT_MIN <= DeseNum ms' <= INT_MAX)
  /\ (Find p "cat_feature_num" <> None -> INT_MIN <= CatNum ms' <= INT_MAX)
  /\ (Find p "embedding_vector_size" <> None -> INT_MIN <= EmbeddingSize ms' <= INT_MAX)
  /\ (Find p "max_nnz" <> None -> INT_MIN <= MaxNNZ ms' <= INT_MAX).
Proof.
  intro P. apply ParseModelConfig_returns in P. cbv zeta in *.
  destruct P as (_ & S1 & S2 & S3 & S4 & S5 & _).
  unfold stoi_parameter, SlotNum, DeseNum, CatNum, EmbeddingSize, MaxNNZ in *.
  assert (R : forall k old new,
              match Find (parameters_of (model_config_ ms)) k with
              | Some v => stoi (string_value v)
              | None => inr old
              end = inr new ->
              Find (parameters_of (model_config_ ms)) k <> None ->
              INT_MIN <= new <= INT_MAX).
  { intros k old new S F. destruct (Find _ k); [now apply stoi_range in S | congruence]. }
  split; [eapply R; eassumption|]. split; [eapply R; eassumption|].
  split; [eapply R; eassumption|]. split; eapply R; eassumption.
Qed.

(** X10.  Parsing the configuration a second time changes nothing: applied
    to the model state it has produced, [ParseModelConfig] returns that very
    state. *)
Theorem ParseModelConfig_idempotent (ms ms' : ModelState)
    (err : option TRITONSERVER_Error) :
  ParseModelConfig ms = inr (err, ms') ->
  ParseModelConfig ms' = inr (None, ms').
Proof.
  intro P. apply ParseModelConfig_returns in P. cbv zeta in P.
  destruct P as (_ & S1 & S2 & S3 & S4 & S5 & C & H & L & G & M & _ & _ & MC & _).
  apply stoi_parameter_again in S1, S2, S3, S4, S5.
  unfold ParseModelConfig, bind_abort. rewrite MC.
  unfold parameters_of in *.
  destruct (Find (model_config_ ms) "parameters") as [p|].
  - rewrite S1, S2, S3, S4, S5. cbn.
    assert (C' : text_parameter p "gpucacheper" (cache_size_per ms') = cache_size_per ms')
      by (rewrite C; unfold text_parameter; destruct (Find p "gpucacheper"); reflexivity).
    assert (H' : text_parameter p "config" (hugectr_config_ ms') = hugectr_config_ ms')
      by (rewrite H; unfold text_parameter; destruct (Find p "config"); reflexivity).
    assert (L' : true_parameter p "embeddingkey_long_type" (support_int64_key_ ms')
                 = support_int64_key_ ms')
      by (rewrite L; unfold true_parameter; destruct (Find p "embeddingkey_long_type");
          [destruct (String.eqb _ _)|]; reflexivity).
    assert (G' : true_parameter p "gpucache" (support_gpu_cache_ ms')
                 = support_gpu_cache_ ms')
      by (rewrite G; unfold true_parameter; destruct (Find p "gpucache");
          [destruct (String.eqb _ _)|]; reflexivity).
    rewrite C', H', L', G'.
    assert (M' : match MemberAsInt (model_config_ ms) "max_batch_size" with
                 | OK z => z
                 | Err _ => max_batch_size_ ms'
                 end = max_batch_size_ ms')
      by (rewrite M; destruct (MemberAsInt _ _); reflexivity).
    rewrite M', <- MC. destruct ms'; reflexivity.
  - cbn.
    assert (M' : match MemberAsInt (model_config_ ms) "max_batch_size" with
                 | OK z => z
                 | Err _ => max_batch_size_ ms'
                 end = max_batch_size_ ms')
      by (rewrite M; destruct (MemberAsInt _ _); reflexivity).
    rewrite MC, M', <- MC. destruct ms'; reflexivity.
Qed.

(** X11.  [TRITONBACKEND_ModelInitialize] returns no error of its own: an
    error it returns is the error of one of the calls on the host (model
    name, version, repository, the backend with its configuration message
    and its state, setting the model state).  Nothing in the content of the
    configuration makes it return one, and neither does a failure of
    [ModelState::Create], whose result is not looked at. *)
Theorem ModelInitialize_returns_host_errors (model : TRITONBACKEND_Model)
    (e : TRITONSERVER_Error) :
  TRITONBACKEND_ModelInitialize model = inr (Err e) ->
  TRITONBACKEND_ModelName model = Err e
  \/ TRITONBACKEND_ModelVersion model = Err e
  \/ TRITONBACKEND_ModelRepository model = Err e
  \/ TRITONBACKEND_BackendState model = Err e
  \/ TRITONBACKEND_ModelSetState model = Some e.
Proof.
  unfold TRITONBACKEND_ModelInitialize.
  destruct (TRITONBACKEND_ModelName model); [|intro H; inversion H; auto].
  destruct (TRITONBACKEND_ModelVersion model); [|intro H; inversion H; auto].
  destruct (TRITONBACKEND_ModelRepository model); [|intro H; inversion H; auto].
  destruct (TRITONBACKEND_BackendState model) as [[t32 t64]|];
    [|intro H; inversion H; auto].
  destruct (TRITONBACKEND_ModelSetState model); [intro H; inversion H; auto 6|].
  destruct (ModelState_Create model t32 t64) as [ms|]; [|discriminate].
  unfold bind_abort. destruct (ParseModelConfig ms) as [|[err ms']] eqn:P; [discriminate|].
  apply ParseModelConfig_returns in P. destruct P as (-> & _). discriminate.
Qed.

Lemma read_digits_tail (digits rest : string) (c : ascii) (acc : option Z) :
  digit_of c = None ->
  read_digits (digits ++ String c rest) acc = read_digits digits acc.
Proof.
  intro H. revert acc. induction digits as [|d digits IH]; intro acc;
    cbn [String.append read_digits].
  - now rewrite H.
  - destruct (digit_of d); [apply IH | reflexivity].
Qed.

Lemma skip_spaces_tail (s tail : string) :
  skip_spaces s <> EmptyString -> skip_spaces (s ++ tail) = (skip_spaces s ++ tail)%string.
Proof.
  induction s as [|a s IH]; cbn [String.append skip_spaces]; [congruence|].
  destruct (isspace a); [exact IH | reflexivity].
Qed.

Lemma sign_cases (s : string) :
  match s with
  | String "-"%char rest => (true, rest)
  | String "+"%char rest => (false, rest)
  | _ => (false, s)
  end
  = match s with
    | EmptyString => (false, s)
    | String a rest =>
        if Ascii.eqb a "-" then (true, rest)
        else if Ascii.eqb a "+" then (false, rest)
        else (false, s)
    end.
Proof.
  destruct s as [|a rest]; [reflexivity|].
  destruct a as [[] [] [] [] [] [] [] []]; reflexivity.
Qed.

(** X12.  [std::stoi] stops at the first character that is not a digit: once
    a text is accepted with a value, appending a character that is not a
    digit, followed by anything, leaves the value as it is.  This is how a
    numeric parameter such as [26 slots] is taken as 26. *)
Theorem stoi_ignores_tail (s rest : string) (c : ascii) (v : Z) :
  stoi s = inr v ->
  digit_of c = None ->
  stoi (s ++ String c rest) = inr v.
Proof.
  unfold stoi. rewrite !sign_cases. intros H Hc.
  destruct (skip_spaces s) as [|a r] eqn:S.
  - cbn in H. discriminate.
  - rewrite skip_spaces_tail by (rewrite S; discriminate). rewrite S.
    cbn [String.append].
    destruct (Ascii.eqb a "-"); [|destruct (Ascii.eqb a "+")].
    + now rewrite read_digits_tail.
    + now rewrite read_digits_tail.
    + change (String a (r ++ String c rest)) with (String a r ++ String c rest)%string.
      now rewrite read_digits_tail.
Qed.

(** X12, on the text [26 slots]: the value is 26. *)
Lemma stoi_ignores_tail_witness : stoi "26 slots" = inr 26.
Proof.
  exact (stoi_ignores_tail "26" "slots" " "%char 26 eq_refl eq_refl).
Defined.

(* ================================================================== *)
(** * Further properties of the construction of [ModelInstanceState] *)

Section MoreInstanceProperties.
Context (ext : External).

(** What [create], [reserve] of one extent and [allocate] do to the runtime
    when nothing is thrown. *)
Lemma create_reserve_allocate_runtime (T : ctype) (indeterminate : Z) (ty : MEMORY_TYPE)
    (d : Z) (rt rt' : Runtime) (b : HugeCTRBuffer T) :
  create_reserve_allocate ext T indeterminate ty [d] rt = (rt', inr b) ->
  cerr rt' = cerr rt
  /\ if get_buffer_size b =? 0
     then acquisitions rt' = acquisitions rt /\ get_ptr b = nullptr
     else exists p,
         acquisitions rt' = acquisitions rt ++
           [{| acq_size := get_buffer_size b; acq_type := ty; acq_addr := Some p |}]
         /\ get_ptr b = Z.pos p.
Proof.
  unfold create_reserve_allocate, reserve, create.
  cbn [allocated total_size_in_bytes_ ptr_ Z.eqb negb andb fst snd
       reserved_buffers_ total_num_elements_ type app].
  rewrite allocate_unfold. cbv zeta.
  cbn [reserved_buffers_ total_num_elements_ ptr_ total_size_in_bytes_ type].
  destruct (sum_rounded _ =? 0) eqn:Z0.
  - intro H. inversion H; subst.
    unfold get_buffer_size, get_ptr. cbn [total_size_in_bytes_ ptr_].
    rewrite Z0. auto.
  - destruct (cuda_alloc ext _ _ ty) as [p|] eqn:A; intro H; inversion H; subst.
    unfold get_buffer_size, get_ptr. cbn [total_size_in_bytes_ ptr_ cerr acquisitions].
    rewrite Z0. split; [reflexivity|]. exists p. auto.
Qed.

(** A construction that returns has run the four allocations in order. *)
Lemma ModelInstanceState_new_returns (ms : ModelState)
    (kind : TRITONSERVER_InstanceGroupKind) (device_id indeterminate : Z)
    (rt rt' : Runtime) (inst : ModelInstanceState) :
  ModelInstanceState_new ext ms kind device_id indeterminate rt = (rt', inr inst) ->
  exists rt1 rt2 rt3,
    create_reserve_allocate ext c_float indeterminate GPU
      [to_size_t (BatchSize ms * DeseNum ms)] rt = (rt1, inr (dense_value_buf inst))
    /\ (if SupportLongEmbeddingKey ms
        then exists b, create_reserve_allocate ext c_long_long indeterminate PIN
                         [to_size_t (BatchSize ms * CatNum ms)] rt1 = (rt2, inr b)
                       /\ cat_column_index_buf_int64 inst = Some b
                       /\ cat_column_index_buf_int32 inst = None
        else exists b, create_reserve_allocate ext c_unsigned_int indeterminate PIN
                         [to_size_t (BatchSize ms * CatNum ms)] rt1 = (rt2, inr b)
                       /\ cat_column_index_buf_int32 inst = Some b
                       /\ cat_column_index_buf_int64 inst = None)
    /\ create_reserve_allocate ext c_int indeterminate GPU
         [to_size_t (BatchSize ms * SlotNum ms + 1)] rt2 = (rt3, inr (row_ptr_buf inst))
    /\ create_reserve_allocate ext c_float indeterminate GPU
         [to_size_t (BatchSize ms)] rt3 = (rt', inr (prediction_buf inst))
    /\ StateForModel inst = ms
    /\ device_id_ inst = device_id
    /\ kind_ inst = kind
    /\ instance_name_ inst = name_ ms
    /\ Embedding_cache inst = Create_EmbeddingCache ms device_id (name_ ms)
    /\ hugectrmodel_ inst = LoadHugeCTRModel ms device_id (Embedding_cache inst).
Proof.
  unfold ModelInstanceState_new.
  destruct (create_reserve_allocate ext c_float indeterminate GPU _ rt)
    as [rt1 [e|dense]] eqn:C1; [discriminate|].
  destruct (SupportLongEmbeddingKey ms) eqn:L.
  - destruct (create_reserve_allocate ext c_long_long indeterminate PIN _ rt1)
      as [rt2 [e|b]] eqn:C2; [discriminate|].
    destruct (create_reserve_allocate ext c_int indeterminate GPU _ rt2)
      as [rt3 [e|row]] eqn:C3; [discriminate|].
    destruct (create_reserve_allocate ext c_float indeterminate GPU _ rt3)
      as [rt4 [e|p]] eqn:C4; [discriminate|].
    intro H. inversion H; subst; clear H. exists rt1, rt2, rt3. cbn.
    repeat split; try assumption. exists b. auto.
  - destruct (create_reserve_allocate ext c_unsigned_int indeterminate PIN _ rt1)
      as [rt2 [e|b]] eqn:C2; [discriminate|].
    destruct (create_reserve_allocate ext c_int indeterminate GPU _ rt2)
      as [rt3 [e|row]] eqn:C3; [discriminate|].
    destruct (create_reserve_allocate ext c_float indeterminate GPU _ rt3)
      as [rt4 [e|p]] eqn:C4; [discriminate|].
    intro H. inversion H; subst; clear H. exists rt1, rt2, rt3. cbn.
    repeat split; try assumption. exists b. auto.
Qed.

(** X13.  In a constructed instance, with positive [max_batch_size] and
    [des_feature_num], a [slots] count that is not negative, and sizes that
    fit [size_t], the dense, the row-offset and the prediction buffer report
    themselves allocated in device memory with capacities
    [max_batch_size * des_feature_num * 4],
    [(max_batch_size * slots + 1) * 4] and [max_batch_size * 4] bytes, each
    rounded up to a multiple of 32. *)
Theorem instance_buffer_capacities (ms : ModelState)
    (kind : TRITONSERVER_InstanceGroupKind) (device_id indeterminate : Z)
    (rt rt' : Runtime) (inst : ModelInstanceState) :
  ModelInstanceState_new ext ms kind device_id indeterminate rt = (rt', inr inst) ->
  0 < BatchSize ms -> 0 < DeseNum ms -> 0 <= SlotNum ms ->
  BatchSize ms * DeseNum ms * 4 + 32 <= 2 ^ 64 ->
  (BatchSize ms * SlotNum ms + 1) * 4 + 32 <= 2 ^ 64 ->
  (get_buffer_size (dense_value_buf inst) = ceil32 (BatchSize ms * DeseNum ms * 4)
   /\ type (dense_value_buf inst) = GPU
   /\ allocated (dense_value_buf inst) = true)
  /\ (get_buffer_size (row_ptr_buf inst) = ceil32 ((BatchSize ms * SlotNum ms + 1) * 4)
      /\ type (row_ptr_buf inst) = GPU
      /\ allocated (row_ptr_buf inst) = true)
  /\ (get_buffer_size (prediction_buf inst) = ceil32 (BatchSize ms * 4)
      /\ type (prediction_buf inst) = GPU
      /\ allocated (prediction_buf inst) = true).
Proof.
  intros H HB HD HS F1 F2.
  destruct (ModelInstanceState_new_returns _ _ _ _ _ _ _ H)
    as (rt1 & rt2 & rt3 & C1 & _ & C3 & C4 & _).
  apply create_reserve_allocate_positive in C1; cbn [sizeof]; [|nia|nia].
  apply create_reserve_allocate_positive in C3; cbn [sizeof]; [|nia|nia].
  apply create_reserve_allocate_positive in C4; cbn [sizeof]; [|nia|nia].
  cbn [sizeof] in *. auto.
Qed.

(** X14.  In a constructed instance the categorical buffer that
    [ProcessRequest] and the staging copies dereference is the one the
    constructor created, so the null one is never dereferenced: the only
    way [ProcessRequest] can end abnormally is an exception of [predict]
    itself, and otherwise it makes one call of [predict] with the four
    buffer addresses and the sample count. *)
Theorem ProcessRequest_on_constructed_instance (ms : ModelState)
    (kind : TRITONSERVER_InstanceGroupKind) (device_id indeterminate : Z)
    (rt rt' : Runtime) (inst : ModelInstanceState) (n : Z) (m : Memory) :
  ModelInstanceState_new ext ms kind device_id indeterminate rt = (rt', inr inst) ->
  exists cat,
    cat_ptr inst = inr cat
    /\ (if SupportLongEmbeddingKey ms
        then exists b, cat_column_index_buf_int64 inst = Some b /\ cat = get_ptr b
        else exists b, cat_column_index_buf_int32 inst = Some b /\ cat = get_ptr b)
    /\ match ProcessRequest ext inst n m with
       | inl e => e = std_runtime_error "HugeCTRModel::predict"
       | inr (m', call) =>
           hugectr_predict ext m (get_ptr (dense_value_buf inst)) cat
             (get_ptr (row_ptr_buf inst)) (get_ptr (prediction_buf inst)) n = Some m'
           /\ call = {| predict_dense := get_ptr (dense_value_buf inst);
                        predict_cat := cat;
                        predict_row := get_ptr (row_ptr_buf inst);
                        predict_output := get_ptr (prediction_buf inst);
                        predict_numofsamples := n |}
       end.
Proof.
  intro H.
  destruct (ModelInstanceState_new_returns _ _ _ _ _ _ _ H)
    as (rt1 & rt2 & rt3 & _ & C2 & _ & _ & S & _).
  unfold ProcessRequest, bind_abort, cat_ptr. rewrite S.
  destruct (SupportLongEmbeddingKey ms); destruct C2 as (b & _ & E & _); rewrite E;
    (exists (get_ptr b); split; [reflexivity|]; split; [eauto|];
     cbn [predict_dense predict_cat predict_row predict_output];
     destruct (hugectr_predict ext m _ _ _ _ n); auto).
Qed.

(** X15.  With positive [max_batch_size], [des_feature_num] and
    [cat_feature_num], a [slots] count that is not negative and sizes that
    fit, a construction that returns has made exactly four acquisitions, in
    this order: the dense buffer in device memory, the categorical buffer in
    pinned host memory, the row-offset buffer and the prediction buffer in
    device memory; each buffer holds the address its acquisition returned. *)
Theorem instance_construction_acquisitions (ms : ModelState)
    (kind : TRITONSERVER_InstanceGroupKind) (device_id indeterminate : Z)
    (rt rt' : Runtime) (inst : ModelInstanceState) :
  ModelInstanceState_new ext ms kind device_id indeterminate rt = (rt', inr inst) ->
  0 < BatchSize ms -> 0 < DeseNum ms -> 0 < CatNum ms -> 0 <= SlotNum ms ->
  BatchSize ms * DeseNum ms * 4 + 32 <= 2 ^ 64 ->
  BatchSize ms * CatNum ms * 8 + 32 <= 2 ^ 64 ->
  (BatchSize ms * SlotNum ms + 1) * 4 + 32 <= 2 ^ 64 ->
  exists dense cat row prediction,
    acquisitions rt' = acquisitions rt ++
      [{| acq_size := ceil32 (BatchSize ms * DeseNum ms * 4);
          acq_type := GPU; acq_addr := Some dense |};
       {| acq_size := ceil32 (BatchSize ms * CatNum ms
                              * if SupportLongEmbeddingKey ms then 8 else 4);
          acq_type := PIN; acq_addr := Some cat |};
       {| acq_size := ceil32 ((BatchSize ms * SlotNum ms + 1) * 4);
          acq_type := GPU; acq_addr := Some row |};
       {| acq_size := ceil32 (BatchSize ms * 4);
          acq_type := GPU; acq_addr := Some prediction |}]
    /\ get_ptr (dense_value_buf inst) = Z.pos dense
    /\ cat_ptr inst = inr (Z.pos cat)
    /\ get_ptr (row_ptr_buf inst) = Z.pos row
    /\ get_ptr (prediction_buf inst) = Z.pos prediction.
Proof.
  intros H HB HD HC HS F1 F2 F3.
  destruct (ModelInstanceState_new_returns _ _ _ _ _ _ _ H)
    as (rt1 & rt2 & rt3 & C1 & C2 & C3 & C4 & S & _).
  assert (NZ : forall n, 0 < n -> (ceil32 n =? 0) = false)
    by (intros n Hn; apply Z.eqb_neq; pose proof (ceil32_bounds n); lia).
  pose proof (create_reserve_allocate_runtime _ _ _ _ _ _ _ C1) as (E1 & R1).
  pose proof (create_reserve_allocate_runtime _ _ _ _ _ _ _ C3) as (E3 & R3).
  pose proof (create_reserve_allocate_runtime _ _ _ _ _ _ _ C4) as (E4 & R4).
  apply create_reserve_allocate_positive in C1; cbn [sizeof]; [|nia|nia].
  apply create_reserve_allocate_positive in C3; cbn [sizeof]; [|nia|nia].
  apply create_reserve_allocate_positive in C4; cbn [sizeof]; [|nia|nia].
  destruct C1 as (S1 & _), C3 as (S3 & _), C4 as (S4 & _). cbn [sizeof] in *.
  rewrite S1, NZ in R1 by nia. rewrite S3, NZ in R3 by nia. rewrite S4, NZ in R4 by nia.
  destruct R1 as (p1 & A1 & P1), R3 as (p3 & A3 & P3), R4 as (p4 & A4 & P4).
  unfold cat_ptr. rewrite S.
  destruct (SupportLongEmbeddingKey ms); destruct C2 as (b & C2 & Eb & _);
    pose proof (create_reserve_allocate_runtime _ _ _ _ _ _ _ C2) as (E2 & R2);
    (apply create_reserve_allocate_positive in C2; cbn [sizeof]; [|nia|nia]);
    destruct C2 as (S2 & _); cbn [sizeof] in *;
    rewrite S2, NZ in R2 by nia; destruct R2 as (p2 & A2 & P2);
    exists p1, p2, p3, p4; rewrite Eb, A4, A3, A2, A1, <- !app_assoc; cbn [app];
    rewrite P2; repeat split; try assumption; congruence.
Qed.

(** X16.  [TRITONBACKEND_ModelInstanceInitialize] reads the name of the
    instance from the host and does nothing with it: the instance state and
    its embedding cache carry the name of the model, while the device id of
    the instance, of its embedding cache and of its scoring engine is the
    one the host gives. *)
Theorem instance_is_named_after_model (instance : TRITONBACKEND_ModelInstance)
    (ms : ModelState) (indeterminate : Z) (rt rt' : Runtime) (state : ModelInstanceState) :
  TRITONBACKEND_ModelState instance = OK ms ->
  TRITONBACKEND_ModelInstanceInitialize ext instance indeterminate rt
    = (rt', inr (OK state)) ->
  instance_name_ state = name_ ms
  /\ cache_instance_name (Embedding_cache state) = name_ ms
  /\ StateForModel state = ms
  /\ exists device_id,
       TRITONBACKEND_ModelInstanceDeviceId instance = OK device_id
       /\ device_id_ state = device_id
       /\ cache_device_id (Embedding_cache state) = device_id
       /\ model_device_id (hugectrmodel_ state) = device_id.
Proof.
  intros HM. unfold TRITONBACKEND_ModelInstanceInitialize, ModelInstanceState_Create.
  rewrite HM.
  destruct (TRITONBACKEND_ModelInstanceName instance); [|discriminate].
  destruct (TRITONBACKEND_ModelInstanceDeviceId instance) as [device_id|]; [|discriminate].
  destruct (TRITONBACKEND_ModelInstanceModel instance); [|discriminate].
  destruct (TRITONBACKEND_ModelInstanceKind instance) as [kind|]; [|discriminate].
  destruct (ModelInstanceState_new ext ms kind device_id indeterminate rt)
    as [rt1 [e|st]] eqn:N; [discriminate|].
  destruct (TRITONBACKEND_ModelInstanceSetState instance); [discriminate|].
  intro H. inversion H; subst; clear H.
  destruct (ModelInstanceState_new_returns _ _ _ _ _ _ _ N)
    as (_ & _ & _ & _ & _ & _ & _ & S & D & _ & Nm & Ec & Hm).
  rewrite Nm, Hm, Ec, S, D. cbn. split; [reflexivity|]. split; [reflexivity|].
  split; [reflexivity|]. exists device_id. auto.
Qed.

End MoreInstanceProperties.

(* ================================================================== *)
(** * Properties of [TRITONBACKEND_Initialize] and [TRITONBACKEND_Finalize] *)

Lemma erase_supportlonglong_filter (keys : list string) :
  Backend.erase_supportlonglong keys
  = filter (fun key => negb (String.eqb key "supportlonglong")) keys.
Proof.
  induction keys as [|key keys IH]; cbn [Backend.erase_supportlonglong filter];
    [reflexivity|].
  destruct (String.eqb key "supportlonglong"); cbn [negb]; now rewrite IH.
Qed.

Lemma collect_values_aligned (cmdline : Json) (keys values : list string) (flag flag' : bool) :
  Backend.collect_values cmdline keys flag = OK (values, flag') ->
  Forall2 (fun key value => MemberAsString cmdline key = OK value)
    (Backend.erase_supportlonglong keys) values
  /\ flag' = flag || existsb (fun key => String.eqb key "supportlonglong") keys.
Proof.
  revert values flag flag'.
  induction keys as [|key keys IH]; intros values flag flag';
    cbn [Backend.collect_values Backend.erase_supportlonglong existsb].
  - intro H. inversion H; subst. split; [constructor | now rewrite orb_false_r].
  - destruct (String.eqb key "supportlonglong") eqn:E; cbn [negb].
    + intro H. apply IH in H. destruct H as [H1 H2]. split; [exact H1|].
      rewrite H2. cbn. now rewrite orb_true_r.
    + destruct (MemberAsString cmdline key) as [value|] eqn:M; [|discriminate].
      destruct (Backend.collect_values cmdline keys flag) as [[vs f]|] eqn:C; [|discriminate].
      intro H. inversion H; subst; clear H. apply IH in C. destruct C as [C1 C2].
      split; [constructor; assumption | exact C2].
Qed.

(** X17.  [TRITONBACKEND_Initialize] refuses a host whose backend API has
    another major version or a lower minor version than the one the backend
    was built against, with the error UNSUPPORTED and before any state is
    set; and when it returns success the major versions are equal and the
    host's minor version is not lower. *)
Theorem Initialize_checks_api_version (MAJOR MINOR : Z)
    (backend : Backend.TRITONBACKEND_Backend) :
  (forall name major minor,
     Backend.TRITONBACKEND_BackendName backend = OK name ->
     Backend.TRITONBACKEND_ApiVersion backend = OK (major, minor) ->
     major <> MAJOR \/ minor < MINOR ->
     Backend.TRITONBACKEND_Initialize MAJOR MINOR backend
     = (Some Backend.api_version_error, None))
  /\ (forall state,
        Backend.TRITONBACKEND_Initialize MAJOR MINOR backend = (None, state) ->
        exists major minor,
          Backend.TRITONBACKEND_ApiVersion backend = OK (major, minor)
          /\ major = MAJOR /\ MINOR <= minor).
Proof.
  unfold Backend.TRITONBACKEND_Initialize. split.
  - intros name major minor HN HV Hbad. rewrite HN, HV.
    destruct Hbad as [Hm|Hm].
    + apply Z.eqb_neq in Hm. now rewrite Hm.
    + apply Z.ltb_lt in Hm. rewrite Hm. now rewrite orb_true_r.
  - intro state.
    destruct (Backend.TRITONBACKEND_BackendName backend); [|discriminate].
    destruct (Backend.TRITONBACKEND_ApiVersion backend) as [[major minor]|]; [|discriminate].
    destruct (negb (major =? MAJOR) || (minor <? MINOR)) eqn:E; [discriminate|].
    intros _. apply orb_false_elim in E. destruct E as [E1 E2].
    apply negb_false_iff, Z.eqb_eq in E1. apply Z.ltb_ge in E2.
    exists major, minor. auto.
Qed.

(** What a call of [TRITONBACKEND_Initialize] that returns success has
    built. *)
Lemma Initialize_returns_success (MAJOR MINOR : Z) (backend : Backend.TRITONBACKEND_Backend)
    (state : option Backend.backend_state) :
  Backend.TRITONBACKEND_Initialize MAJOR MINOR backend = (None, state) ->
  exists config values keys flag,
    Backend.backend_config_Parse backend = OK config
    /\ match Find config "cmdline" with
       | Some cmdline =>
           exists all_keys,
             Backend.Members cmdline = OK all_keys
             /\ Backend.collect_values cmdline all_keys false = OK (values, flag)
             /\ keys = Backend.erase_supportlonglong all_keys
       | None => values = [] /\ keys = [] /\ flag = false
       end
    /\ state = Some (Backend.model_backend_state
                       (Backend.HugeCTREmbedding_backend (Backend.Create values keys flag))).
Proof.
  unfold Backend.TRITONBACKEND_Initialize.
  destruct (Backend.TRITONBACKEND_BackendName backend); [|discriminate].
  destruct (Backend.TRITONBACKEND_ApiVersion backend) as [[major minor]|]; [|discriminate].
  destruct (negb (major =? MAJOR) || (minor <? MINOR)); [discriminate|].
  destruct (Backend.TRITONBACKEND_BackendConfig backend); [|discriminate].
  destruct (Backend.TRITONBACKEND_BackendArtifacts backend); [|discriminate].
  destruct (Backend.TRITONSERVER_MessageSerializeToJson backend); [|discriminate].
  destruct (Backend.TRITONBACKEND_BackendSetState backend (Backend.string_state _));
    [discriminate|].
  destruct (Backend.backend_config_Parse backend) as [config|]; [|discriminate].
  destruct (Find config "cmdline") as [cmdline|] eqn:F.
  - destruct (Backend.Members cmdline) as [all_keys|] eqn:M; [|discriminate].
    destruct (Backend.collect_values cmdline all_keys false) as [[values flag]|] eqn:C;
      [|discriminate].
    destruct (Backend.TRITONBACKEND_BackendSetState backend _); [discriminate|].
    intro H. inversion H; subst; clear H.
    exists config, values, (Backend.erase_supportlonglong all_keys), flag.
    split; [reflexivity|]. rewrite F. split; [|reflexivity].
    exists all_keys. auto.
  - destruct (Backend.TRITONBACKEND_BackendSetState backend _); [discriminate|].
    intro H. inversion H; subst; clear H.
    exists config, [], [], false. rewrite F. auto.
Qed.

(** X18.  After a successful [TRITONBACKEND_Initialize] on a configuration
    with a [cmdline] object, the model names of the backend are the keys of
    [cmdline] other than [supportlonglong], in their order, and its
    configuration paths are the values of those keys, name by name (the
    swap of the two lists in [ModelBackend::Create] undoes the swap at its
    call).  Long keys are supported exactly when the key [supportlonglong]
    is present, whatever its value, and the one parameter server that is
    created is the one of that key width, from those paths and names; the
    pointer of the other key width is never assigned. *)
Theorem Initialize_pairs_names_with_paths (MAJOR MINOR : Z)
    (backend : Backend.TRITONBACKEND_Backend) (config cmdline : Json)
    (all_keys : list string) (state : option Backend.backend_state) :
  Backend.backend_config_Parse backend = OK config ->
  Find config "cmdline" = Some cmdline ->
  Backend.Members cmdline = OK all_keys ->
  Backend.TRITONBACKEND_Initialize MAJOR MINOR backend = (None, state) ->
  exists mb,
    state = Some (Backend.model_backend_state mb)
    /\ Backend.model_name mb
       = filter (fun key => negb (String.eqb key "supportlonglong")) all_keys
    /\ Forall2 (fun name path => MemberAsString cmdline name = OK path)
         (Backend.model_name mb) (Backend.model_config_path mb)
    /\ Backend.support_int64_key_ mb
       = existsb (fun key => String.eqb key "supportlonglong") all_keys
    /\ (if Backend.support_int64_key_ mb
        then Backend.EmbeddingTable_int32 mb = None
             /\ Backend.EmbeddingTable_int64 mb
                = Some (Backend.Create_Parameter_Server true
                          (Backend.model_config_path mb) (Backend.model_name mb))
        else Backend.EmbeddingTable_int64 mb = None
             /\ Backend.EmbeddingTable_int32 mb
                = Some (Backend.Create_Parameter_Server false
                          (Backend.model_config_path mb) (Backend.model_name mb))).
Proof.
  intros HP HF HM H.
  destruct (Initialize_returns_success _ _ _ _ H) as (config' & values & keys & flag & P & C & S).
  rewrite HP in P. inversion P; subst config'. rewrite HF in C.
  destruct C as (all_keys' & M & C & K). rewrite HM in M. inversion M; subst all_keys'.
  apply collect_values_aligned in C. destruct C as [A Fl]. cbn [orb] in Fl.
  eexists. split; [exact S|].
  unfold Backend.HugeCTREmbedding_backend, Backend.Create, Backend.ModelBackend_new.
  cbn [Backend.support_int64_key_ Backend.model_config_path Backend.model_name
       Backend.EmbeddingTable_int32 Backend.EmbeddingTable_int64].
  destruct flag;
    cbn [Backend.support_int64_key_ Backend.model_config_path Backend.model_name
         Backend.EmbeddingTable_int32 Backend.EmbeddingTable_int64];
    rewrite K, <- Fl; (split; [apply erase_supportlonglong_filter|]);
    (split; [exact A|]); auto.
Qed.

(** X19.  After a successful [TRITONBACKEND_Initialize] the state the host
    holds for the backend is the [ModelBackend], which replaced the
    [std::string] set first; [TRITONBACKEND_Finalize] nevertheless reads the
    state as a [std::string] and deletes it as one, which the language does
    not define. *)
Theorem Finalize_after_Initialize_is_undefined (MAJOR MINOR : Z)
    (backend : Backend.TRITONBACKEND_Backend) (state : option Backend.backend_state) :
  Backend.TRITONBACKEND_Initialize MAJOR MINOR backend = (None, state) ->
  exists mb,
    state = Some (Backend.model_backend_state mb)
    /\ Backend.TRITONBACKEND_Finalize (OK (Backend.model_backend_state mb))
       = inl (undefined_behaviour "a ModelBackend is read and deleted as a std::string").
Proof.
  intro H. destruct (Initialize_returns_success _ _ _ _ H) as (_ & v & k & f & _ & _ & S).
  eexists. split; [exact S | reflexivity].
Qed.

(* ================================================================== *)
(** * Further properties of the request loop *)

Section MoreExecuteProperties.
Context (ext : External).

(** X20.  When [TRITONBACKEND_ResponseNew] fails for one request of the
    batch, and succeeded for those before it,
    [TRITONBACKEND_ModelInstanceExecute] returns that error before the
    request loop: no request of the batch is processed or answered,
    whatever the requests are. *)
Theorem response_creation_failure_fails_the_call (FIRST_DIM : Z) (inst : ModelInstanceState)
    (batch_properties : result Z) (m : Memory)
    (before after : list TRITONBACKEND_Request) (request : TRITONBACKEND_Request)
    (e : TRITONSERVER_Error) (answer : ModelState * bool) :
  SupportsFirstDimBatching FIRST_DIM (StateForModel inst) batch_properties = OK answer ->
  Forall (fun r => TRITONBACKEND_ResponseNew r = None) before ->
  TRITONBACKEND_ResponseNew request = Some e ->
  TRITONBACKEND_ModelInstanceExecute ext FIRST_DIM inst batch_properties m
    (before ++ request :: after) = inr (Err e).
Proof.
  intros HS HB HR. unfold TRITONBACKEND_ModelInstanceExecute. rewrite HS.
  destruct answer as [ms' sb].
  assert (C : create_responses (before ++ request :: after) = Some e).
  { induction HB as [|r before Hr _ IH]; cbn [app create_responses].
    - now rewrite HR.
    - now rewrite Hr. }
  now rewrite C.
Qed.

(** A request that is answered in every memory without touching it can be
    taken out of a batch without changing what the other requests leave. *)
Lemma inert_request_insert (inst : ModelInstanceState) (sb : bool)
    (request : TRITONBACKEND_Request) (effect : Memory -> request_effect) :
  (forall m, process_request ext inst sb m request = inr (effect m)) ->
  (forall m, memory_after (effect m) = m) ->
  forall before after m,
    match run_requests ext inst sb m (before ++ after) with
    | inl a => run_requests ext inst sb m (before ++ request :: after) = inl a
    | inr effects =>
        exists effects1 effects2,
          effects = effects1 ++ effects2
          /\ List.length effects1 = List.length before
          /\ run_requests ext inst sb m (before ++ request :: after)
             = inr (effects1 ++ effect (final_memory m effects1) :: effects2)
    end.
Proof.
  intros Step Mem before after m. rewrite !run_requests_app.
  destruct (run_requests ext inst sb m before) as [a|effects1] eqn:R1; [reflexivity|].
  cbn [run_requests]. unfold bind_abort. rewrite Step, Mem.
  destruct (run_requests ext inst sb (final_memory m effects1) after) as [a|effects2];
    [reflexivity|].
  exists effects1, effects2. split; [reflexivity|]. split; [|reflexivity].
  eapply run_requests_length. exact R1.
Qed.

(** X21.  A request whose id, correlation id, counts, input names, inputs or
    output name the host fails to give is answered with the error of the
    first call that failed; it makes no call of [predict], leaves device
    memory as it was and adds nothing to the batch size, and the other
    requests of the batch leave exactly what they leave in the batch without
    it. *)
Theorem unreadable_request_fails_alone (inst : ModelInstanceState) (sb : bool)
    (request : TRITONBACKEND_Request) (e : TRITONSERVER_Error) :
  read_counts request = Err e
  \/ (exists counts, read_counts request = OK counts
                     /\ read_inputs request (requested_output_count counts) = Err e) ->
  (forall m, process_request ext inst sb m request = inr (early_error m e))
  /\ (forall before after m,
        match run_requests ext inst sb m (before ++ after) with
        | inl a => run_requests ext inst sb m (before ++ request :: after) = inl a
        | inr effects =>
            exists effects1 effects2,
              effects = effects1 ++ effects2
              /\ List.length effects1 = List.length before
              /\ run_requests ext inst sb m (before ++ request :: after)
                 = inr (effects1 ++ early_error (final_memory m effects1) e :: effects2)
        end).
Proof.
  intro H.
  assert (Step : forall m, process_request ext inst sb m request = inr (early_error m e)).
  { intro m. unfold process_request. destruct H as [H|(counts & H1 & H2)].
    - now rewrite H.
    - now rewrite H1, H2. }
  split; [exact Step|].
  apply (inert_request_insert inst sb request (fun m => early_error m e) Step).
  reflexivity.
Qed.

(** X22.  Every request whose counts, inputs and properties were read adds
    to the batch size, whether it is then answered with a success or with an
    error such as the overflow error: 1 when the model does not batch on the
    first dimension or the dense input has no dimension, and otherwise the
    first extent of the shape of the dense input, which is not its sample
    count when the shape is flat. *)
Theorem batch_size_is_first_extent (inst : ModelInstanceState) (sb : bool) (m : Memory)
    (request : TRITONBACKEND_Request) (eff : request_effect) (counts : request_counts)
    (inputs : request_inputs) (cat row des : InputProperties) :
  read_counts request = OK counts ->
  read_inputs request (requested_output_count counts) = OK inputs ->
  read_properties inputs = inr (cat, row, des) ->
  process_request ext inst sb m request = inr eff ->
  batch_size_added eff = batch_size_of sb des
  /\ batch_size_of false des = 1
  /\ (shape des = [] -> batch_size_of sb des = 1)
  /\ (forall first rest, shape des = first :: rest -> batch_size_of true des = first).
Proof.
  intros HC HI HP HR. split.
  - unfold process_request in HR. rewrite HC, HI in HR. unfold bind_abort in HR.
    rewrite HP in HR.
    destruct (log_requested_output (requested_output_name inputs)); [discriminate|].
    destruct (0 <? requested_output_count counts).
    + destruct (requested_output_name inputs) as [name|]; [|discriminate].
      destruct (produce_output ext inst request inputs name cat row des m) as [|st];
        [discriminate|].
      inversion HR; subst. unfold finish. destruct (slot st); reflexivity.
    + inversion HR; subst. reflexivity.
  - unfold batch_size_of. split; [reflexivity|]. split.
    + intros ->. now rewrite andb_false_r.
    + intros first rest ->. reflexivity.
Qed.

(** The head of the request loop for a request that asks for an output and
    whose reads succeed. *)
Lemma process_request_output (inst : ModelInstanceState) (sb : bool) (m : Memory)
    (request : TRITONBACKEND_Request) (counts : request_counts) (inputs : request_inputs)
    (cat row des : InputProperties) :
  read_counts request = OK counts ->
  0 < requested_output_count counts ->
  read_inputs request (requested_output_count counts) = OK inputs ->
  read_properties inputs = inr (cat, row, des) ->
  exists name,
    requested_output_name inputs = Some name
    /\ process_request ext inst sb m request
       = match produce_output ext inst request inputs name cat row des m with
         | inl a => inl a
         | inr st => inr (finish st (batch_size_of sb des))
         end.
Proof.
  intros HC HO HI HP.
  pose proof (read_inputs_output_name _ _ _ HI) as Hname.
  apply Z.ltb_lt in HO. rewrite HO in Hname. destruct Hname as [name Hname].
  exists name. split; [exact Hname|].
  unfold process_request. rewrite HC, HI. unfold bind_abort. rewrite HP, Hname.
  cbn [log_requested_output]. now rewrite HO.
Qed.

(** X23.  For a request answered with a success that asked for an output,
    [predict] was called once for every buffer of the dense input, each
    time with the whole sample count.  When the dense input has no buffer
    the request is answered with a success all the same: nothing was
    copied, [predict] was not called, and no byte was written to the
    output tensor. *)
Theorem predict_runs_once_per_buffer (inst : ModelInstanceState) (sb : bool) (m : Memory)
    (request : TRITONBACKEND_Request) (eff : request_effect) (counts : request_counts)
    (inputs : request_inputs) (cat row des : InputProperties) :
  read_counts request = OK counts ->
  0 < requested_output_count counts ->
  read_inputs request (requested_output_count counts) = OK inputs ->
  read_properties inputs = inr (cat, row, des) ->
  process_request ext inst sb m request = inr eff ->
  sent_error eff = None ->
  List.length (predict_calls eff) = Z.to_nat (buffer_count des)
  /\ (buffer_count des <= 0 ->
      predict_calls eff = []
      /\ memory_after eff = m
      /\ exists o, response_outputs (sent_response eff) = [o] /\ output_data o = []).
Proof.
  intros HC HO HI HP HR HS.
  destruct (process_request_output inst sb m request counts inputs cat row des HC HO HI HP)
    as (name & _ & E).
  rewrite E in HR. clear E.
  destruct (produce_output ext inst request inputs name cat row des m) as [|st] eqn:P;
    [discriminate|].
  inversion HR; subst; clear HR. unfold finish in *.
  destruct (slot st) as [r|r e] eqn:S; [|discriminate].
  cbn [predict_calls memory_after sent_response response_outputs].
  pose proof (produce_output_pending ext _ _ _ _ _ _ _ _ _ _ P S)
    as (n & _ & _ & R & _ & Len & _).
  split.
  - rewrite Len. unfold buffer_indices. now rewrite length_map, length_seq.
  - intro Hz. unfold buffer_indices in Len.
    replace (Z.to_nat (buffer_count des)) with 0%nat in Len by lia. cbn in Len.
    destruct (calls st); [|discriminate]. split; [reflexivity|].
    unfold produce_output, bind_abort in P.
    destruct (numofsample (StateForModel inst) _) as [|n']; [discriminate|].
    cbn [slot cat_byte_size row_byte_size] in P.
    destruct (BatchSize (StateForModel inst) <? n').
    { cbn in P. inversion P; subst. discriminate. }
    destruct (TRITONBACKEND_ResponseOutput request name (datatype des) [n']);
      cbn [status GUARDED_RESPOND_IF_ERROR fst with_response is_null] in P.
    { inversion P; subst. discriminate. }
    destruct (TRITONBACKEND_OutputBuffer request _);
      cbn [status GUARDED_RESPOND_IF_ERROR fst with_response is_null] in P.
    { inversion P; subst. discriminate. }
    unfold buffer_indices in P.
    replace (Z.to_nat (buffer_count des)) with 0%nat in P by lia.
    cbn [seq map for_each_buffer] in P. inversion P; subst; clear P.
    cbn [mem copied_out] in *. split; [reflexivity|].
    cbn [slot with_response] in S. inversion S; subst. cbn. eauto.
Qed.

(** X24.  The byte size asked of [TRITONBACKEND_OutputBuffer] for the output
    tensor of a request answered with a success is the capacity of the dense
    input buffer of the instance, not the size of the tensor. *)
Theorem output_buffer_has_dense_capacity (inst : ModelInstanceState) (sb : bool) (m : Memory)
    (request : TRITONBACKEND_Request) (eff : request_effect) (counts : request_counts)
    (inputs : request_inputs) (cat row des : InputProperties) :
  read_counts request = OK counts ->
  0 < requested_output_count counts ->
  read_inputs request (requested_output_count counts) = OK inputs ->
  read_properties inputs = inr (cat, row, des) ->
  process_request ext inst sb m request = inr eff ->
  sent_error eff = None ->
  exists o,
    response_outputs (sent_response eff) = [o]
    /\ output_buffer_byte_size o = get_buffer_size (dense_value_buf inst)
    /\ TRITONBACKEND_OutputBuffer request (get_buffer_size (dense_value_buf inst)) = None.
Proof.
  intros HC HO HI HP HR HS.
  destruct (process_request_output inst sb m request counts inputs cat row des HC HO HI HP)
    as (name & _ & E).
  rewrite E in HR. clear E.
  destruct (produce_output ext inst request inputs name cat row des m) as [|st] eqn:P;
    [discriminate|].
  inversion HR; subst; clear HR. unfold finish in *.
  destruct (slot st) as [r|r e] eqn:S; [|discriminate].
  pose proof (produce_output_pending ext _ _ _ _ _ _ _ _ _ _ P S)
    as (n & _ & _ & R & _).
  subst r. cbn [sent_response response_outputs].
  eexists. split; [reflexivity|]. split; [reflexivity|].
  unfold produce_output, bind_abort in P.
  destruct (numofsample (StateForModel inst) _) as [|n']; [discriminate|].
  cbn [slot cat_byte_size row_byte_size] in P.
  destruct (BatchSize (StateForModel inst) <? n').
  { cbn in P. inversion P; subst. discriminate. }
  destruct (TRITONBACKEND_ResponseOutput request name (datatype des) [n']);
    cbn [status GUARDED_RESPOND_IF_ERROR fst with_response is_null] in P.
  { inversion P; subst. discriminate. }
  destruct (TRITONBACKEND_OutputBuffer request _); [|reflexivity].
  cbn [status GUARDED_RESPOND_IF_ERROR fst with_response is_null] in P.
  inversion P; subst. discriminate.
Qed.

(** X25.  A failing [TRITONBACKEND_InputBuffer] on the dense input does not
    end the turn of its request: the error response is sent, and the code
    goes on to copy the dense bytes from a buffer address that is still
    null.  With a dense input of at least one byte that copy throws, and the
    exception ends the whole call of [TRITONBACKEND_ModelInstanceExecute]:
    the requests after it are never processed. *)
Theorem input_buffer_failure_aborts_the_call (FIRST_DIM : Z) (inst : ModelInstanceState)
    (batch_properties : result Z) (m : Memory)
    (request : TRITONBACKEND_Request) (after : list TRITONBACKEND_Request)
    (counts : request_counts) (inputs : request_inputs) (cat row des : InputProperties)
    (n : Z) (e : TRITONSERVER_Error) (answer : ModelState * bool) :
  SupportsFirstDimBatching FIRST_DIM (StateForModel inst) batch_properties = OK answer ->
  create_responses (request :: after) = None ->
  read_counts request = OK counts ->
  0 < requested_output_count counts ->
  read_inputs request (requested_output_count counts) = OK inputs ->
  read_properties inputs = inr (cat, row, des) ->
  numofsample (StateForModel inst) (to_size_t (byte_size des)) = inr n ->
  n <= BatchSize (StateForModel inst) ->
  (forall name, TRITONBACKEND_ResponseOutput request name (datatype des) [n] = None) ->
  TRITONBACKEND_OutputBuffer request (get_buffer_size (dense_value_buf inst)) = None ->
  0 < buffer_count des ->
  TRITONBACKEND_InputBuffer (des_input inputs) 0 = Err e ->
  to_size_t (byte_size des) <> 0 ->
  TRITONBACKEND_ModelInstanceExecute ext FIRST_DIM inst batch_properties m (request :: after)
  = inl (std_runtime_error "Runtime error: invalid argument").
Proof.
  intros HS HN HC HO HI HP Hn HB HRO HOB Hc HIB Hz.
  unfold TRITONBACKEND_ModelInstanceExecute. rewrite HS. destruct answer as [ms' sb].
  rewrite HN. cbn [run_requests]. unfold bind_abort at 1 2.
  destruct (process_request_output inst sb m request counts inputs cat row des HC HO HI HP)
    as (name & _ & E).
  rewrite E. clear E.
  unfold produce_output, bind_abort. rewrite Hn. cbn [slot cat_byte_size row_byte_size].
  apply Z.ltb_ge in HB. rewrite HB, HRO.
  cbn [status GUARDED_RESPOND_IF_ERROR fst with_response is_null]. rewrite HOB.
  cbn [status GUARDED_RESPOND_IF_ERROR fst with_response is_null].
  unfold buffer_indices. destruct (Z.to_nat (buffer_count des)) eqn:K; [lia|].
  cbn [seq map for_each_buffer Z.of_nat]. unfold bind_abort, stage_and_predict.
  cbn [slot mem]. rewrite HIB. cbn [GUARDED_RESPOND_IF_ERROR buffer].
  unfold cudaMemcpy_from_host. apply Z.eqb_neq in Hz. rewrite Hz. reflexivity.
Qed.

(** X26.  When the host refuses to create the output tensor or its buffer
    for a request within the batch size, the request is answered with the
    host's error; [predict] is not called and device memory is left as it
    was. *)
Theorem output_creation_failure_is_answered (inst : ModelInstanceState) (sb : bool)
    (m : Memory) (request : TRITONBACKEND_Request) (counts : request_counts)
    (inputs : request_inputs) (cat row des : InputProperties) (n : Z) (name : string)
    (e : TRITONSERVER_Error) :
  read_counts request = OK counts ->
  0 < requested_output_count counts ->
  read_inputs request (requested_output_count counts) = OK inputs ->
  read_properties inputs = inr (cat, row, des) ->
  requested_output_name inputs = Some name ->
  numofsample (StateForModel inst) (to_size_t (byte_size des)) = inr n ->
  n <= BatchSize (StateForModel inst) ->
  TRITONBACKEND_ResponseOutput request name (datatype des) [n] = Some e
  \/ (TRITONBACKEND_ResponseOutput request name (datatype des) [n] = None
      /\ TRITONBACKEND_OutputBuffer request (get_buffer_size (dense_value_buf inst))
         = Some e) ->
  exists eff,
    process_request ext inst sb m request = inr eff
    /\ sent_error eff = Some e
    /\ predict_calls eff = []
    /\ memory_after eff = m.
Proof.
  intros HC HO HI HP HName Hn HB HE.
  destruct (process_request_output inst sb m request counts inputs cat row des HC HO HI HP)
    as (name' & HName' & E).
  rewrite HName in HName'. inversion HName'; subst name'. rewrite E. clear E.
  unfold produce_output, bind_abort. rewrite Hn. cbn [slot cat_byte_size row_byte_size].
  apply Z.ltb_ge in HB. rewrite HB.
  destruct HE as [HE|[HE1 HE2]].
  - rewrite HE. cbn [status GUARDED_RESPOND_IF_ERROR fst with_response is_null].
    eexists. split; [reflexivity|]. cbn. auto.
  - rewrite HE1. cbn [status GUARDED_RESPOND_IF_ERROR fst with_response is_null].
    rewrite HE2. cbn [status GUARDED_RESPOND_IF_ERROR fst with_response is_null].
    eexists. split; [reflexivity|]. cbn. auto.
Qed.

End MoreExecuteProperties.

Lemma land_pow2 (a n : Z) :
  0 <= n -> Z.land a (2 ^ n) = if Z.testbit a n then 2 ^ n else 0.
Proof.
  intro H. apply Z.bits_inj'. intros m Hm. rewrite Z.land_spec, Z.pow2_bits_eqb by assumption.
  destruct (Z.eqb_spec n m) as [->|N].
  - destruct (Z.testbit a m) eqn:E; cbn.
    + now rewrite Z.pow2_bits_eqb, Z.eqb_refl.
    + now rewrite Z.bits_0.
  - rewrite andb_false_r. destruct (Z.testbit a n).
    + rewrite Z.pow2_bits_eqb by assumption. symmetry. now apply Z.eqb_neq.
    + now rewrite Z.bits_0.
Qed.

(** X27.  [SupportsFirstDimBatching] asks the host once: after a call that
    succeeded, every later call answers the same without regard to what the
    host would say now.  When the answer was not yet cached, it is what the
    host's flags have in common with [TRITONSERVER_BATCH_FIRST_DIM]: for a
    constant that is the single bit [2 ^ bit], whether that bit of the flags
    is set, whatever the other bits are. *)
Theorem SupportsFirstDimBatching_is_cached (FIRST_DIM : Z) (ms ms' : ModelState)
    (batch_properties : result Z) (supports : bool) :
  SupportsFirstDimBatching FIRST_DIM ms batch_properties = OK (ms', supports) ->
  (forall later, SupportsFirstDimBatching FIRST_DIM ms' later = OK (ms', supports))
  /\ (supports_batching_initialized_ ms = false ->
      exists flags,
        batch_properties = OK flags
        /\ forall bit, 0 <= bit -> FIRST_DIM = 2 ^ bit -> supports = Z.testbit flags bit).
Proof.
  unfold SupportsFirstDimBatching.
  destruct (supports_batching_initialized_ ms) eqn:I.
  - intro H. inversion H; subst. split; [|discriminate].
    intro later. now rewrite I.
  - destruct batch_properties as [flags|]; [|discriminate].
    intro H. inversion H; subst; clear H. cbn. split; [reflexivity|].
    intros _. exists flags. split; [reflexivity|].
    intros bit Hbit ->. rewrite land_pow2 by assumption.
    assert (P : 0 < 2 ^ bit) by (apply Z.pow_pos_nonneg; lia).
    destruct (Z.testbit flags bit); [|reflexivity].
    destruct (Z.eqb_spec (2 ^ bit) 0); [lia | reflexivity].
Qed.

(* ================================================================== *)
(** * Properties of the string helpers *)

Lemma fold_append_start (values : list string) (start : string) :
  fold_left String.append values start
  = (start ++ fold_left String.append values EmptyString)%string.
Proof.
  revert start. induction values as [|v values IH]; intro start; cbn [fold_left].
  - induction start as [|c start IHs]; cbn; [reflexivity | now rewrite <- IHs].
  - rewrite IH, (IH (EmptyString ++ v)%string). cbn [String.append].
    induction start as [|c start IHs]; cbn; [reflexivity | now rewrite IHs].
Qed.

Lemma append_assoc (a b c : string) : ((a ++ b) ++ c = a ++ b ++ c)%string.
Proof. induction a as [|x a IH]; cbn; [reflexivity | now rewrite IH]. Qed.

Lemma append_empty (a : string) : (a ++ EmptyString)%string = a.
Proof. induction a as [|x a IH]; cbn; [reflexivity | now rewrite IH]. Qed.

Lemma join_fold_start (separator : string) (values : list string) (start : string) :
  fold_left (fun ss value => ((ss ++ separator) ++ value)%string) values start
  = (start ++ fold_left (fun ss value => ((ss ++ separator) ++ value)%string) values
                EmptyString)%string.
Proof.
  revert start. induction values as [|v values IH]; intro start; cbn [fold_left].
  - now rewrite append_empty.
  - rewrite IH, (IH ((EmptyString ++ separator) ++ v)%string). cbn [String.append].
    now rewrite !append_assoc.
Qed.

(** X28.  The forms of [hctr_str_concat] and [hctr_str_join] that take their
    values one by one give what the forms that take a container give for the
    same values in the same order, and concatenating is joining with the
    empty separator. *)
Theorem hctr_str_forms_agree (separator arg0 arg1 : string) (args values : list string) :
  hctr_str_concat_args arg0 arg1 args = hctr_str_concat (arg0 :: arg1 :: args)
  /\ hctr_str_join_args separator arg0 arg1 args
     = hctr_str_join separator (arg0 :: arg1 :: args)
  /\ hctr_str_concat values = hctr_str_join EmptyString values.
Proof.
  split; [reflexivity|]. split; [reflexivity|].
  unfold hctr_str_concat, hctr_str_concat_it, hctr_str_join, hctr_str_join_it.
  destruct values as [|v values]; [reflexivity|]. cbn [fold_left String.append].
  generalize v. clear v. induction values as [|w values IH]; intro v; cbn [fold_left];
    [reflexivity|].
  rewrite IH. now rewrite append_empty.
Qed.

(** X29.  Joining two sequences that are not empty, one after the other, is
    joining each and putting the separator between the two results; and
    concatenating them is concatenating each. *)
Theorem hctr_str_join_app (separator : string) (xs ys : list string) :
  xs <> [] -> ys <> [] ->
  hctr_str_join separator (xs ++ ys)
  = (hctr_str_join separator xs ++ separator ++ hctr_str_join separator ys)%string
  /\ hctr_str_concat (xs ++ ys) = (hctr_str_concat xs ++ hctr_str_concat ys)%string.
Proof.
  intros Hx Hy. split.
  - destruct xs as [|x xs]; [congruence|]. destruct ys as [|y ys]; [congruence|].
    unfold hctr_str_join, hctr_str_join_it. cbn [app].
    rewrite fold_left_app. cbn [fold_left].
    rewrite (join_fold_start separator ys). rewrite (join_fold_start separator ys y).
    now rewrite !append_assoc.
  - unfold hctr_str_concat, hctr_str_concat_it. rewrite fold_left_app.
    now rewrite fold_append_start.
Qed.

(* ================================================================== *)
(** * The further properties on concrete inputs *)

(** X5, on the configuration of the scenario. *)
Lemma ValidateModelConfig_accepts_iff_witness :
  ValidateModelConfig (scenario_state "false") = None.
Proof.
  apply (ValidateModelConfig_accepts_iff (scenario_state "false")).
  exists (tensor "DES" "TYPE_FP32" [-1]), (tensor "CATCOLUMN" "TYPE_UINT32" [-1]),
    (tensor "ROWINDEX" "TYPE_INT32" [-1]), (tensor "OUTPUT0" "TYPE_FP32" [-1]),
    "TYPE_FP32"%string, [-1].
  repeat split; vm_compute; reflexivity.
Defined.

(** X6, on two configurations whose second and third inputs differ. *)
Lemma ValidateModelConfig_ignores_other_inputs_witness :
  ValidateModelConfig
    (ModelState_new "dcn" 1
       (config_with_inputs (tensor "CATCOLUMN" "TYPE_UINT32" [-1])
          (tensor "ROWINDEX" "TYPE_INT32" [-1])) 0 0)
  = ValidateModelConfig
      (ModelState_new "dcn" 1 (config_with_inputs (JString "anything") JNull) 0 0).
Proof.
  apply (ValidateModelConfig_ignores_other_inputs _ _
           (tensor "DES" "TYPE_FP32" [-1])
           (tensor "CATCOLUMN" "TYPE_UINT32" [-1]) (tensor "ROWINDEX" "TYPE_INT32" [-1])
           (JString "anything") JNull); vm_compute; reflexivity.
Defined.

(** X7, on the configuration of the scenario: 26 slots, 13 dense and 26
    categorical features from the parameters, the defaults 64 and 3 for the
    embedding size and [max_nnz], which the parameters do not mention. *)
Lemma ParseModelConfig_accepts_witness :
  exists ms',
    ParseModelConfig
      (ModelState_new "dcn" 1 (config_json 64 "TYPE_FP32" (scenario_parameters "false")) 0 0)
    = inr (None, ms')
    /\ SlotNum ms' = 26 /\ DeseNum ms' = 13 /\ CatNum ms' = 26
    /\ EmbeddingSize ms' = 64 /\ MaxNNZ ms' = 3.
Proof.
  destruct (ParseModelConfig_accepts
              (ModelState_new "dcn" 1
                 (config_json 64 "TYPE_FP32" (scenario_parameters "false")) 0 0))
    as (ms' & P & (S1 & _) & (S2 & _) & (S3 & _) & (_ & S4) & (_ & S5) & _).
  - intros key v K F. cbn [numeric_keys In] in K.
    destruct K as [<-|[<-|[<-|[<-|[<-|[]]]]]]; vm_compute in F; inversion F; subst;
      eexists; vm_compute; reflexivity.
  - exists ms'. split; [exact P|].
    assert (E1 : @inr abort Z 26 = inr (slot_num_ ms')) by exact (S1 _ eq_refl).
    assert (E2 : @inr abort Z 13 = inr (dese_num_ ms')) by exact (S2 _ eq_refl).
    assert (E3 : @inr abort Z 26 = inr (cat_num_ ms')) by exact (S3 _ eq_refl).
    assert (E4 : embedding_size_ ms' = 64) by exact (S4 eq_refl).
    assert (E5 : max_nnz_ ms' = 3) by exact (S5 eq_refl).
    unfold SlotNum, DeseNum, CatNum, EmbeddingSize, MaxNNZ.
    inversion E1. inversion E2. inversion E3. rewrite E4, E5. repeat split; reflexivity.
Defined.

(** X8, on a model state whose long-key switch is on and a configuration
    that says [false]: the switch stays on. *)
Lemma ParseModelConfig_switches_witness :
  exists ms',
    ParseModelConfig
      (ModelState_new "dcn" 1
         (config_json 64 "TYPE_FP32" [string_parameter "embeddingkey_long_type" "false"])
         0 0)
    = inr (None, ms')
    /\ support_int64_key_ ms' = false
    /\ ParseModelConfig (scenario_state "true") = inr (None, scenario_state "true")
    /\ support_int64_key_ (scenario_state "true") = true.
Proof.
  eexists. split; [vm_compute; reflexivity|]. split; [reflexivity|].
  assert (P : ParseModelConfig (scenario_state "true") = inr (None, scenario_state "true"))
    by (vm_compute; reflexivity).
  split; [exact P|].
  apply (ParseModelConfig_switches _ _ _ P). left. vm_compute. reflexivity.
Defined.

(** X9, on a configuration with [slots] set to [-5]. *)
Lemma ParseModelConfig_numeric_range_witness :
  exists ms',
    ParseModelConfig
      (ModelState_new "dcn" 1 (config_json 64 "TYPE_FP32" [string_parameter "slots" "-5"])
         0 0)
    = inr (None, ms')
    /\ SlotNum ms' = -5
    /\ INT_MIN <= SlotNum ms' <= INT_MAX.
Proof.
  assert (P : exists ms',
            ParseModelConfig
              (ModelState_new "dcn" 1
                 (config_json 64 "TYPE_FP32" [string_parameter "slots" "-5"]) 0 0)
            = inr (None, ms') /\ SlotNum ms' = -5)
    by (vm_compute; eexists; split; reflexivity).
  destruct P as (ms' & P & S). exists ms'. split; [exact P|]. split; [exact S|].
  destruct (ParseModelConfig_numeric_range _ _ _ P) as (R & _).
  apply R. vm_compute. discriminate.
Defined.

(** X10, on the configuration of the scenario. *)
Lemma ParseModelConfig_idempotent_witness :
  ParseModelConfig (scenario_state "true") = inr (None, scenario_state "true").
Proof.
  apply (ParseModelConfig_idempotent
           (ModelState_new "dcn" 1
              (config_json 64 "TYPE_FP32" (scenario_parameters "true")) 0 0)
           (scenario_state "true") None).
  vm_compute. reflexivity.
Defined.

(** X11, on a model whose name the host fails to give. *)
Lemma ModelInitialize_returns_host_errors_witness :
  TRITONBACKEND_ModelInitialize (model_named (Err (host_error "no name")))
  = inr (Err (host_error "no name"))
  /\ TRITONBACKEND_ModelName (model_named (Err (host_error "no name")))
     = Err (host_error "no name").
Proof.
  assert (H : TRITONBACKEND_ModelInitialize (model_named (Err (host_error "no name")))
              = inr (Err (host_error "no name"))) by reflexivity.
  split; [exact H|].
  destruct (ModelInitialize_returns_host_errors _ _ H) as [E|[E|[E|[E|E]]]];
    first [exact E | discriminate E].
Defined.

(** X13, on the instance of the scenario: 64 * 13 * 4 = 3328 bytes of dense
    input, (64 * 26 + 1) * 4 = 6660 bytes of row offsets rounded up to 6688,
    64 * 4 = 256 bytes of predictions. *)
Lemma instance_buffer_capacities_witness :
  get_buffer_size (dense_value_buf (scenario_instance "false")) = 3328
  /\ get_buffer_size (row_ptr_buf (scenario_instance "false")) = 6688
  /\ get_buffer_size (prediction_buf (scenario_instance "false")) = 256.
Proof.
  assert (E : ModelInstanceState_new bump_external (scenario_state "false")
                TRITONSERVER_INSTANCEGROUPKIND_GPU 0 0 empty_runtime
              = (fst (constructed (scenario_state "false")), inr (scenario_instance "false")))
    by (vm_compute; reflexivity).
  destruct (instance_buffer_capacities bump_external _ _ _ _ _ _ _ E
              ltac:(vm_compute; reflexivity) ltac:(vm_compute; reflexivity)
              ltac:(vm_compute; discriminate) ltac:(vm_compute; discriminate)
              ltac:(vm_compute; discriminate))
    as ((D & _) & (R & _) & (P & _)).
  rewrite D, R, P. vm_compute. auto.
Defined.

(** X14, on the instance of the scenario with long keys. *)
Lemma ProcessRequest_on_constructed_instance_witness :
  cat_ptr (scenario_instance "true") = inr 7424.
Proof.
  assert (E : ModelInstanceState_new bump_external (scenario_state "true")
                TRITONSERVER_INSTANCEGROUPKIND_GPU 0 0 empty_runtime
              = (fst (constructed (scenario_state "true")), inr (scenario_instance "true")))
    by (vm_compute; reflexivity).
  destruct (ProcessRequest_on_constructed_instance bump_external _ _ _ _ _ _ _ 10
              zero_memory E) as (cat & C & L & _).
  rewrite C. f_equal.
  change (SupportLongEmbeddingKey (scenario_state "true")) with true in L.
  destruct L as (b & B & ->).
  assert (B' : cat_column_index_buf_int64 (scenario_instance "true")
               = Some {| reserved_buffers_ := []; total_num_elements_ := 1664;
                         ptr_ := 7424; total_size_in_bytes_ := 13312; type := PIN |})
    by (vm_compute; reflexivity).
  rewrite B' in B. inversion B. reflexivity.
Defined.

(** X15, on the instance of the scenario. *)
Lemma instance_construction_acquisitions_witness :
  map (fun a => (acq_size a, acq_type a)) (acquisitions (fst (constructed (scenario_state "false"))))
  = [(3328, GPU); (6656, PIN); (6688, GPU); (256, GPU)].
Proof.
  assert (E : ModelInstanceState_new bump_external (scenario_state "false")
                TRITONSERVER_INSTANCEGROUPKIND_GPU 0 0 empty_runtime
              = (fst (constructed (scenario_state "false")), inr (scenario_instance "false")))
    by (vm_compute; reflexivity).
  destruct (instance_construction_acquisitions bump_external _ _ _ _ _ _ _ E
              ltac:(vm_compute; reflexivity) ltac:(vm_compute; reflexivity)
              ltac:(vm_compute; reflexivity) ltac:(vm_compute; discriminate)
              ltac:(vm_compute; discriminate) ltac:(vm_compute; discriminate)
              ltac:(vm_compute; discriminate))
    as (p1 & p2 & p3 & p4 & A & _).
  rewrite A. vm_compute. reflexivity.
Defined.

(** X16, on an instance the host calls [dcn_0], on device 3. *)
Lemma instance_is_named_after_model_witness :
  exists rt' state,
    TRITONBACKEND_ModelInstanceInitialize bump_external
      (instance_on (scenario_state "false") "dcn_0" 3) 0 empty_runtime
    = (rt', inr (OK state))
    /\ instance_name_ state = "dcn"%string
    /\ cache_instance_name (Embedding_cache state) = "dcn"%string
    /\ device_id_ state = 3.
Proof.
  assert (I : exists rt' state,
            TRITONBACKEND_ModelInstanceInitialize bump_external
              (instance_on (scenario_state "false") "dcn_0" 3) 0 empty_runtime
            = (rt', inr (OK state))) by (vm_compute; eexists; eexists; reflexivity).
  destruct I as (rt' & state & I). exists rt', state. split; [exact I|].
  destruct (instance_is_named_after_model bump_external
              (instance_on (scenario_state "false") "dcn_0" 3) (scenario_state "false")
              0 empty_runtime rt' state eq_refl I) as (N & C & _ & d & D & Dv & _).
  rewrite N, C, Dv. cbn in D. inversion D. repeat split; vm_compute; reflexivity.
Defined.

(** X17, on a host that offers version 2.0 of the backend API to a backend
    built against 1.0. *)
Lemma Initialize_checks_api_version_witness :
  Backend.TRITONBACKEND_Initialize 1 0 (backend_with 2 0 false)
  = (Some Backend.api_version_error, None).
Proof.
  destruct (Initialize_checks_api_version 1 0 (backend_with 2 0 false)) as [Refused _].
  apply (Refused "hugectr"%string 2 0 eq_refl eq_refl). left. lia.
Defined.

(** X18, on a command line with the keys [dcn], [supportlonglong], [wdl]. *)
Lemma Initialize_pairs_names_with_paths_witness :
  exists mb,
    snd (Backend.TRITONBACKEND_Initialize 1 0 (backend_with 1 0 true))
    = Some (Backend.model_backend_state mb)
    /\ Backend.model_name mb = ["dcn"; "wdl"]%string
    /\ Backend.model_config_path mb = ["/models/dcn.json"; "/models/wdl.json"]%string
    /\ Backend.support_int64_key_ mb = true.
Proof.
  assert (I : Backend.TRITONBACKEND_Initialize 1 0 (backend_with 1 0 true)
              = (None, snd (Backend.TRITONBACKEND_Initialize 1 0 (backend_with 1 0 true))))
    by (vm_compute; reflexivity).
  destruct (Initialize_pairs_names_with_paths 1 0 (backend_with 1 0 true)
              (JObject
                 [("cmdline"%string,
                   JObject [("dcn"%string, JString "/models/dcn.json");
                            ("supportlonglong"%string, JString "true");
                            ("wdl"%string, JString "/models/wdl.json")])])
              (JObject [("dcn"%string, JString "/models/dcn.json");
                        ("supportlonglong"%string, JString "true");
                        ("wdl"%string, JString "/models/wdl.json")])
              ["dcn"; "supportlonglong"; "wdl"]%string _
              eq_refl eq_refl eq_refl I) as (mb & S & N & P & L & _).
  exists mb. split; [exact S|]. split; [rewrite N; vm_compute; reflexivity|].
  split; [|rewrite L; vm_compute; reflexivity].
  rewrite N in P. cbn [filter String.eqb Ascii.eqb Bool.eqb negb] in P.
  inversion P as [|n1 p1 ns1 ps1 P1 T1 E1 E2]. inversion T1 as [|n2 p2 ns2 ps2 P2 T2 E3 E4].
  inversion T2. vm_compute in P1, P2. inversion P1. inversion P2. reflexivity.
Defined.

(** X19, on a backend started with two models. *)
Lemma Finalize_after_Initialize_is_undefined_witness :
  exists mb,
    snd (Backend.TRITONBACKEND_Initialize 1 0 (backend_with 1 0 false))
    = Some (Backend.model_backend_state mb)
    /\ Backend.TRITONBACKEND_Finalize (OK (Backend.model_backend_state mb))
       = inl (undefined_behaviour "a ModelBackend is read and deleted as a std::string").
Proof.
  apply (Finalize_after_Initialize_is_undefined 1 0 (backend_with 1 0 false)).
  vm_compute. reflexivity.
Defined.

(** X20, on a batch of three requests, the host failing to create the
    response of the second. *)
Lemma response_creation_failure_fails_the_call_witness :
  TRITONBACKEND_ModelInstanceExecute bump_external 2 (scenario_instance "false") (OK 2)
    zero_memory
    ([request_of 10 1]
     ++ request_with (OK ""%string) (Some (host_error "no response")) (dense_of 10) None 10
     :: [request_of 100 1])
  = inr (Err (host_error "no response")).
Proof.
  assert (S : exists answer,
            SupportsFirstDimBatching 2 (StateForModel (scenario_instance "false")) (OK 2)
            = OK answer) by (vm_compute; eexists; reflexivity).
  destruct S as (answer & S).
  apply (response_creation_failure_fails_the_call bump_external _ _ _ _ _ _ _ _ answer S).
  - constructor; [reflexivity | constructor].
  - reflexivity.
Defined.

(** X21, on a request whose id the host fails to give. *)
Lemma unreadable_request_fails_alone_witness :
  process_request bump_external (scenario_instance "false") true zero_memory
    (request_with (Err (host_error "no id")) None (dense_of 10) None 10)
  = inr (early_error zero_memory (host_error "no id")).
Proof.
  apply (unreadable_request_fails_alone bump_external (scenario_instance "false") true
           (request_with (Err (host_error "no id")) None (dense_of 10) None 10)
           (host_error "no id")).
  left. vm_compute. reflexivity.
Defined.

(** X22, on a request of 10 samples whose dense input is declared with the
    flat shape [130]: it adds 130 to the batch size. *)
Lemma batch_size_is_first_extent_witness :
  exists eff,
    process_request bump_external (scenario_instance "false") true zero_memory
      (request_with (OK ""%string) None (flat_dense 10) None 10) = inr eff
    /\ batch_size_added eff = 130.
Proof.
  assert (S : match process_request bump_external (scenario_instance "false") true
                      zero_memory (request_with (OK ""%string) None (flat_dense 10) None 10)
              with
              | inr _ => true
              | inl _ => false
              end = true) by (vm_compute; reflexivity).
  destruct (process_request bump_external (scenario_instance "false") true zero_memory
              (request_with (OK ""%string) None (flat_dense 10) None 10))
    as [|eff] eqn:P; [discriminate S|].
  exists eff. split; [reflexivity|].
  destruct (batch_size_is_first_extent bump_external (scenario_instance "false") true
              zero_memory (request_with (OK ""%string) None (flat_dense 10) None 10) eff
              (counts_of 1) (inputs_with (flat_dense 10) 10)
              (cat_properties 10) (row_properties 10) (dense_properties [10 * 13] 10 1)
              ltac:(vm_compute; reflexivity) ltac:(vm_compute; reflexivity)
              ltac:(vm_compute; reflexivity) P) as (B & _ & _ & F).
  rewrite B. apply (F (10 * 13) []). reflexivity.
Defined.

(** X23, on a request of 10 samples with one dense buffer. *)
Lemma predict_runs_once_per_buffer_witness :
  exists eff,
    process_request bump_external (scenario_instance "false") true zero_memory
      (request_of 10 1) = inr eff
    /\ sent_error eff = None
    /\ List.length (predict_calls eff) = 1%nat.
Proof.
  assert (S : match process_request bump_external (scenario_instance "false") true
                      zero_memory (request_of 10 1) with
              | inr eff => sent_error eff
              | inl _ => Some overflow_error
              end = None) by (vm_compute; reflexivity).
  destruct (process_request bump_external (scenario_instance "false") true zero_memory
              (request_of 10 1)) as [|eff] eqn:P; [discriminate S|].
  exists eff. split; [reflexivity|]. split; [exact S|].
  destruct (predict_runs_once_per_buffer bump_external (scenario_instance "false") true
              zero_memory (request_of 10 1) eff
              (counts_of 1) (inputs_with (dense_of 10) 10)
              (cat_properties 10) (row_properties 10) (dense_properties [10; 13] 10 1)
              ltac:(vm_compute; reflexivity) ltac:(vm_compute; reflexivity)
              ltac:(vm_compute; reflexivity) ltac:(vm_compute; reflexivity) P S)
    as (L & _).
  exact L.
Defined.

(** X24, on a request of 10 samples: the output tensor holds 40 bytes, and
    3328 bytes are asked for. *)
Lemma output_buffer_has_dense_capacity_witness :
  exists eff o,
    process_request bump_external (scenario_instance "false") true zero_memory
      (request_of 10 1) = inr eff
    /\ response_outputs (sent_response eff) = [o]
    /\ output_buffer_byte_size o = 3328.
Proof.
  assert (S : match process_request bump_external (scenario_instance "false") true
                      zero_memory (request_of 10 1) with
              | inr eff => sent_error eff
              | inl _ => Some overflow_error
              end = None) by (vm_compute; reflexivity).
  destruct (process_request bump_external (scenario_instance "false") true zero_memory
              (request_of 10 1)) as [|eff] eqn:P; [discriminate S|].
  destruct (output_buffer_has_dense_capacity bump_external (scenario_instance "false") true
              zero_memory (request_of 10 1) eff
              (counts_of 1) (inputs_with (dense_of 10) 10)
              (cat_properties 10) (row_properties 10) (dense_properties [10; 13] 10 1)
              ltac:(vm_compute; reflexivity) ltac:(vm_compute; reflexivity)
              ltac:(vm_compute; reflexivity) ltac:(vm_compute; reflexivity) P S)
    as (o & O & B & _).
  exists eff, o. split; [reflexivity|]. split; [exact O|]. rewrite B. vm_compute. reflexivity.
Defined.

(** X25, on a batch of two requests, the host handing out no buffer of the
    dense input of the first. *)
Lemma input_buffer_failure_aborts_the_call_witness :
  TRITONBACKEND_ModelInstanceExecute bump_external 2 (scenario_instance "false") (OK 2)
    zero_memory
    [request_with (OK ""%string) None (unreadable_dense 10 1) None 10; request_of 10 1]
  = inl (std_runtime_error "Runtime error: invalid argument").
Proof.
  assert (S : exists answer,
            SupportsFirstDimBatching 2 (StateForModel (scenario_instance "false")) (OK 2)
            = OK answer) by (vm_compute; eexists; reflexivity).
  destruct S as (answer & S).
  apply (input_buffer_failure_aborts_the_call bump_external 2 (scenario_instance "false")
           (OK 2) zero_memory
           (request_with (OK ""%string) None (unreadable_dense 10 1) None 10)
           [request_of 10 1]
           (counts_of 1) (inputs_with (unreadable_dense 10 1) 10)
           (cat_properties 10) (row_properties 10) (dense_properties [10; 13] 10 1)
           10 (host_error "no buffer") answer S).
  - reflexivity.
  - vm_compute. reflexivity.
  - vm_compute. reflexivity.
  - vm_compute. reflexivity.
  - vm_compute. reflexivity.
  - vm_compute. reflexivity.
  - vm_compute. discriminate.
  - intro name. reflexivity.
  - reflexivity.
  - vm_compute. reflexivity.
  - reflexivity.
  - vm_compute. discriminate.
Defined.

(** X26, on a request of 10 samples whose output buffer the host refuses. *)
Lemma output_creation_failure_is_answered_witness :
  exists eff,
    process_request bump_external (scenario_instance "false") true zero_memory
      (request_with (OK ""%string) None (dense_of 10) (Some (host_error "no buffer")) 10)
    = inr eff
    /\ sent_error eff = Some (host_error "no buffer")
    /\ predict_calls eff = []
    /\ memory_after eff = zero_memory.
Proof.
  apply (output_creation_failure_is_answered bump_external (scenario_instance "false") true
           zero_memory
           (request_with (OK ""%string) None (dense_of 10) (Some (host_error "no buffer")) 10)
           (counts_of 1) (inputs_with (dense_of 10) 10)
           (cat_properties 10) (row_properties 10) (dense_properties [10; 13] 10 1)
           10 "OUTPUT0"%string (host_error "no buffer")).
  - vm_compute. reflexivity.
  - vm_compute. reflexivity.
  - vm_compute. reflexivity.
  - vm_compute. reflexivity.
  - reflexivity.
  - vm_compute. reflexivity.
  - vm_compute. discriminate.
  - right. split; reflexivity.
Defined.

(** X27, on the model state of the scenario, with the constant 2 (bit 1):
    the host answers with the flags 1, in which bit 1 is not set, at the
    first call, and with the flags 2 at the second. *)
Lemma SupportsFirstDimBatching_is_cached_witness :
  exists ms',
    SupportsFirstDimBatching 2 (scenario_state "false") (OK 1) = OK (ms', false)
    /\ SupportsFirstDimBatching 2 ms' (OK 2) = OK (ms', false).
Proof.
  assert (S : exists ms' supports,
            SupportsFirstDimBatching 2 (scenario_state "false") (OK 1) = OK (ms', supports))
    by (vm_compute; eexists; eexists; reflexivity).
  destruct S as (ms' & supports & S).
  destruct (SupportsFirstDimBatching_is_cached 2 _ _ _ _ S) as (Later & First).
  destruct (First ltac:(vm_compute; reflexivity)) as (flags & F & Bit).
  inversion F; subst flags. rewrite (Bit 1 ltac:(lia) eq_refl) in S, Later.
  exists ms'. split; [exact S | apply Later].
Defined.

(** X29, on the sequences [a], [b] and [c]. *)
Lemma hctr_str_join_app_witness :
  hctr_str_join ", " (["a"%string; "b"%string] ++ ["c"%string])%list = "a, b, c"%string.
Proof.
  destruct (hctr_str_join_app ", " ["a"; "b"]%string ["c"]%string) as (J & _);
    [discriminate | discriminate |].
  rewrite J. reflexivity.
Defined.
